(** * GeoGrapher core: a shallow embedding of the computation engine

    The engine under [geographer/core] is a collection of pure functions
    from points, lines, circles and matrices to a [ComputationResult].
    This development transcribes those functions and states the
    properties of the engine as theorems about the transcription.

    Conventions of the embedding.

    - Numbers.  The data model of the engine is "a pair of real numbers";
      in the main transcription Python's [float] is idealised as the
      type [R] of real numbers, so [+], [-], [*] are exact, [np.sqrt] is
      [sqrt], [math.atan2] is the two-argument arctangent.  The
      properties stated on it are about comparisons, branches,
      exceptions and the shape of results, and about arithmetic that
      doubles carry out without rounding.  Where rounding or overflow
      decides, the functions are transcribed again over IEEE 754
      doubles ([Module Double]) and the property is stated there.
    - Exceptions.  A Python function that can raise is a function into
      [result A]: [inl e] is "raised [e]", [inr a] is "returned [a]".
      Python's true division [/] on Python numbers raises
      [ZeroDivisionError] on a zero divisor ([py_div]); a division by a
      non-zero literal or under a guard that excludes zero is written
      [/]; division of NumPy scalars does not raise ([np_div]).
    - Dictionaries are association lists in insertion order, tuples and
      lists are [VTuple] and [VList] of a universal type [Value].
    - [steps] are kept as unrendered f-strings ([Frag]): the literal text
      and the formatted holes.
    - SymPy.  [Line] and its [intersection], on which [lines.py] rests,
      are modelled from SymPy's sources ([Module Sympy]).  The other
      calls into SymPy are the fields of a [Solver]; the operations that
      use them are stated for every solver.
    - NumPy.  [np.linalg.det] and [np.linalg.inv] are fields of the
      [Solver] too: the engine branches on the floating-point
      determinant that NumPy returns, not on the determinant of the
      matrix. *)

From Stdlib Require Import Floats ZArith QArith.
From Stdlib Require Import Reals Lra List String DecimalString Bool Arith Lia.
Import ListNotations.

Set Warnings "-register-all,-inexact-float".

Open Scope string_scope.
Open Scope list_scope.
Open Scope R_scope.

(** ** Python runtime *)

Inductive exn : Type :=
| ValueError (msg : string)
| ZeroDivisionError
| OverflowError
| AttributeError (msg : string)
| TypeError (msg : string)
| LinAlgError (msg : string).

Definition result (A : Type) : Type := (exn + A)%type.

Definition raise {A : Type} (e : exn) : result A := inl e.
Definition ret {A : Type} (a : A) : result A := inr a.

Definition bind {A B : Type} (c : result A) (k : A -> result B) : result B :=
  match c with
  | inl e => inl e
  | inr a => k a
  end.

Notation "x <- c ;; k" := (bind c (fun x => k))
  (at level 61, c at next level, right associativity).
Notation "' pat <- c ;; k" := (bind c (fun x => match x with pat => k end))
  (at level 61, pat pattern, c at next level, right associativity).

(** Comparisons of Python numbers, as booleans. *)
Definition Rle_b (a b : R) : bool := if Rle_dec a b then true else false.
Definition Rlt_b (a b : R) : bool := if Rlt_dec a b then true else false.
Definition Req_b (a b : R) : bool := if Req_dec_T a b then true else false.

(** [a / b] on Python numbers. *)
Definition py_div (a b : R) : result R :=
  if Req_b b 0 then raise ZeroDivisionError else ret (a / b).

(** [a / b] on NumPy scalars: a zero divisor gives a warning and [inf]
    or [nan], which the model does not represent; no exception. *)
Definition np_div (a b : R) : result R := ret (a / b).

(** [x ** 2] *)
Definition sq (x : R) : R := x ^ 2.

(** Truth value of an optional string: [None] and [""] are falsy. *)
Definition truthy (s : option string) : bool :=
  match s with
  | None => false
  | Some "" => false
  | Some _ => true
  end.

(** [s or default] on an optional string. *)
Definition or_else (s : option string) (default : string) : string :=
  match s with
  | Some t => if truthy s then t else default
  | None => default
  end.

(** [math.degrees], [math.radians] and [math.atan2]. *)
Definition degrees (r : R) : R := r * 180 / PI.
Definition radians (d : R) : R := d * PI / 180.

Definition atan2 (y x : R) : R :=
  if Rlt_b 0 x then atan (y / x)
  else if Rlt_b x 0 then
         (if Rle_b 0 y then atan (y / x) + PI else atan (y / x) - PI)
  else if Rlt_b 0 y then PI / 2
  else if Rlt_b y 0 then - (PI / 2)
  else 0.

(** A float argument that need not be finite ([inf], [nan]). *)
Inductive float_arg : Type :=
| finite (v : R)
| nonfinite.

(** [np.hypot] and [np.linspace]. *)
Definition hypot (a b : R) : R := sqrt (a * a + b * b).

Definition linspace (start stop : R) (num : nat) : list R :=
  map (fun i => start + INR i * ((stop - start) / INR (num - 1))) (seq 0 num).

(** ** utils.py *)

Definition EPS : R := 1 / 10 ^ 9.

Inductive Value : Type :=
| VNone
| VBool (b : bool)
| VNum (r : R)
| VStr (s : string)
| VTuple (items : list Value)
| VList (items : list Value)
| VDict (entries : list (string * Value)).

Definition dict : Type := list (string * Value).

(** A coordinate pair [(x, y)] as a Python tuple. *)
Definition VPair (p : R * R) : Value := VTuple [VNum (fst p); VNum (snd p)].

(** [d.get(k)] *)
Fixpoint get (d : dict) (k : string) : option Value :=
  match d with
  | [] => None
  | (k', v) :: rest => if String.eqb k k' then Some v else get rest k
  end.

Definition keys (d : dict) : list string := map fst d.

Record PlotElement : Type := mkPlotElement {
  type : string;
  data : dict;
  style : dict
}.

(** One piece of an f-string: literal text, a number under a format
    specification, a string, the [str] of a value, or the equation SymPy
    prints for a line through two points or a circle. *)
Inductive Frag : Type :=
| Lit (s : string)
| Fmt (spec : string) (v : R)
| Str (s : string)
| Obj (v : Value)
| LineEq (p q : R * R)
| CircleEq (center : R * R) (radius : R).

Definition fstring : Type := list Frag.

Record ComputationResult : Type := mkResult {
  status : string;
  op : string;
  payload : dict;
  steps : list fstring;
  plot_elements : list PlotElement;
  warnings : list string
}.

(** [is_close] *)
Definition is_close (a b eps : R) : bool := Rle_b (Rabs (a - b)) eps.

(** ** points.py *)

Module Point.

Record t : Type := mk {
  x : R;
  y : R;
  label : option string
}.

Definition as_tuple (self : t) : R * R := (x self, y self).

End Point.

Definition _point_payload (point : Point.t) : dict :=
  [("x", VNum (Point.x point)); ("y", VNum (Point.y point))]
  ++ (if truthy (Point.label point)
      then [("label", VStr (or_else (Point.label point) ""))] else []).

Definition _point_element (point : Point.t) (color : string) : PlotElement :=
  {| type := "point";
     data := [("coords", VPair (Point.as_tuple point))]
             ++ (if truthy (Point.label point)
                 then [("label", VStr (or_else (Point.label point) ""))] else []);
     style := [("color", VStr color); ("size", VNum 10)] |}.

(** Over [R] the squares of [distance] cannot overflow and the sum of
    [midpoint] is exact; the [OverflowError] of [dx**2], and the
    infinity of [x + x], are in [Double.distance] and
    [Double.midpoint]. *)
Definition distance (point_a point_b : Point.t) : result ComputationResult :=
  let '(ax, ay) := Point.as_tuple point_a in
  let '(bx, by_) := Point.as_tuple point_b in
  let dx := bx - ax in
  let dy := by_ - ay in
  let squared := sq dx + sq dy in
  let dist := sqrt squared in
  ret {| status := "ok";
         op := "distance";
         payload := [("distance", VNum dist)];
         steps := [[Lit "d = \sqrt{("; Fmt ".3g" bx; Lit "-"; Fmt ".3g" ax;
                    Lit ")^2 + ("; Fmt ".3g" by_; Lit "-"; Fmt ".3g" ay;
                    Lit ")^2} = "; Fmt ".6g" dist]];
         plot_elements :=
           [ _point_element point_a "#d62728";
             _point_element point_b "#2ca02c";
             {| type := "segment";
                data := [("from", VPair (Point.as_tuple point_a));
                         ("to", VPair (Point.as_tuple point_b))];
                style := [("color", VStr "#9467bd"); ("width", VNum 3)] |} ];
         warnings := [] |}.

Definition midpoint (point_a point_b : Point.t) : result ComputationResult :=
  let mx := (Point.x point_a + Point.x point_b) / 2 in
  let my := (Point.y point_a + Point.y point_b) / 2 in
  let mid := Point.mk mx my (Some "M") in
  ret {| status := "ok";
         op := "midpoint";
         payload := [("midpoint", VDict (_point_payload mid))];
         steps := [[Lit "M_x = \frac{"; Fmt ".3g" (Point.x point_a); Lit " + ";
                    Fmt ".3g" (Point.x point_b); Lit "}{2} = "; Fmt ".6g" mx];
                   [Lit "M_y = \frac{"; Fmt ".3g" (Point.y point_a); Lit " + ";
                    Fmt ".3g" (Point.y point_b); Lit "}{2} = "; Fmt ".6g" my]];
         plot_elements :=
           [ _point_element point_a "#d62728";
             _point_element point_b "#2ca02c";
             {| type := "segment";
                data := [("from", VPair (Point.as_tuple point_a));
                         ("to", VPair (Point.as_tuple point_b))];
                style := [("color", VStr "#7f7f7f"); ("width", VNum 1);
                          ("dash", VStr "dash")] |};
             _point_element mid "#1f77b4" ];
         warnings := [] |}.

Definition section_point (point_a point_b : Point.t) (ratio : R * R)
    (external : bool) : result ComputationResult :=
  let '(m, n) := ratio in
  '(px, py, label) <-
    (if external then
       px <- py_div (m * Point.x point_a - n * Point.x point_b) (m - n) ;;
       py <- py_div (m * Point.y point_a - n * Point.y point_b) (m - n) ;;
       ret (px, py, "P_ext")
     else
       px <- py_div (m * Point.x point_a + n * Point.x point_b) (m + n) ;;
       py <- py_div (m * Point.y point_a + n * Point.y point_b) (m + n) ;;
       ret (px, py, "P")) ;;
  let section := Point.mk px py (Some label) in
  let steps :=
    if external then
      [[Lit "P_x = \frac{"; Fmt "" m; Lit "\cdot "; Fmt ".3g" (Point.x point_a);
        Lit " - "; Fmt "" n; Lit "\cdot "; Fmt ".3g" (Point.x point_b);
        Lit "}{"; Fmt "" m; Lit "-"; Fmt "" n; Lit "} = "; Fmt ".6g" px];
       [Lit "P_y = \frac{"; Fmt "" m; Lit "\cdot "; Fmt ".3g" (Point.y point_a);
        Lit " - "; Fmt "" n; Lit "\cdot "; Fmt ".3g" (Point.y point_b);
        Lit "}{"; Fmt "" m; Lit "-"; Fmt "" n; Lit "} = "; Fmt ".6g" py]]
    else
      [[Lit "P_x = \frac{"; Fmt "" m; Lit "\cdot "; Fmt ".3g" (Point.x point_a);
        Lit " + "; Fmt "" n; Lit "\cdot "; Fmt ".3g" (Point.x point_b);
        Lit "}{"; Fmt "" m; Lit "+"; Fmt "" n; Lit "} = "; Fmt ".6g" px];
       [Lit "P_y = \frac{"; Fmt "" m; Lit "\cdot "; Fmt ".3g" (Point.y point_a);
        Lit " + "; Fmt "" n; Lit "\cdot "; Fmt ".3g" (Point.y point_b);
        Lit "}{"; Fmt "" m; Lit "+"; Fmt "" n; Lit "} = "; Fmt ".6g" py]] in
  ret {| status := "ok";
         op := if external then "section_point_external" else "section_point";
         payload := [("point", VDict (_point_payload section))];
         steps := steps;
         plot_elements :=
           [ _point_element point_a "#d62728";
             _point_element point_b "#2ca02c";
             _point_element section "#1f77b4";
             {| type := "segment";
                data := [("from", VPair (Point.as_tuple point_a));
                         ("to", VPair (Point.as_tuple point_b))];
                style := [("color", VStr "#7f7f7f"); ("width", VNum 1)] |} ];
         warnings := [] |}.

(** ** sympy.geometry: the part of [Line] the engine calls

    SymPy is not part of the repository.  The definitions of this module
    follow [sympy/geometry/line.py]: the constructors [Line.__new__] and
    [Line2D.__new__], [Line2D.coefficients] and
    [LinearEntity.intersection].  SymPy computes on exact rationals here,
    which [R] idealises. *)

Module Sympy.

Record Line2D : Type := mkLine2D {
  p1 : R * R;
  p2 : R * R
}.

(** The keyword [slope]: a number or [oo]. *)
Inductive slope_kw : Type :=
| Finite (m : R)
| oo.

(** What [intersection] can put in its list: points, or a whole line. *)
Inductive Entity : Type :=
| EPoint (x y : R)
| ELine (l : Line2D).

(** [Line2D(p1, pt=None, slope=None)]: exactly one of [pt] and [slope]
    must be given. *)
Definition Line2D_new (p : R * R) (pt : option (R * R))
    (slope : option slope_kw) : result Line2D :=
  match pt, slope with
  | Some q, None => ret (mkLine2D p q)
  | None, Some (Finite m) => ret (mkLine2D p (fst p + 1, snd p + m))
  | None, Some oo => ret (mkLine2D p (fst p + 0, snd p + 1))
  | _, _ => raise (ValueError "A 2nd Point or keyword 'slope' must be used.")
  end.

(** [Line(Eq(a*x + b*y + c, 0))] *)
Definition Line_of_equation (a b c : R) : result Line2D :=
  if negb (Req_b b 0) then Line2D_new (0, - c / b) None (Some (Finite (- a / b)))
  else if negb (Req_b a 0) then Line2D_new (- c / a, 0) None (Some oo)
  else raise (ValueError "not found in equation").

Definition cross (u v : R * R) : R := fst u * snd v - snd u * fst v.
Definition vsub (u v : R * R) : R * R := (fst u - fst v, snd u - snd v).
Definition direction (l : Line2D) : R * R := vsub (p2 l) (p1 l).

(** The four defining points span a line ([Point.affine_rank] is 1). *)
Definition collinear (l o : Line2D) : bool :=
  Req_b (cross (direction l) (vsub (p1 o) (p1 l))) 0
  && Req_b (cross (direction l) (vsub (p2 o) (p1 l))) 0.

(** [l.intersection(o)] for two [Line2D]: the other line itself when
    they coincide, nothing when they are parallel, else the point
    [p1 + t * direction] with [t] solving [t*d - s*d' = o.p1 - l.p1]. *)
Definition intersection (l o : Line2D) : list Entity :=
  if collinear l o then [ELine o]
  else if Req_b (cross (direction l) (direction o)) 0 then []
  else
    let t := cross (vsub (p1 o) (p1 l)) (direction o)
             / cross (direction l) (direction o) in
    [EPoint (fst (p1 l) + t * fst (direction l))
            (snd (p1 l) + t * snd (direction l))].

(** [l.coefficients] *)
Definition coefficients (l : Line2D) : R * R * R :=
  let '(x1, y1) := p1 l in
  let '(x2, y2) := p2 l in
  if Req_b x1 x2 then (1, 0, - x1)
  else if Req_b y1 y2 then (0, 1, - y1)
  else (y1 - y2, x2 - x1, x1 * y2 - y1 * x2).

End Sympy.

(** ** lines.py *)

Module Line.

Record t : Type := mk {
  A : R;
  B : R;
  C : R;
  label : option string
}.

Definition normalized (self : t) : result t :=
  let norm := hypot (A self) (B self) in
  if Rle_b norm EPS then
    raise (ValueError "Degenerate line coefficients: both A and B near zero")
  else ret (mk (A self / norm) (B self / norm) (C self / norm) (label self)).

Definition from_points (p1 p2 : Point.t) (label : option string) : result t :=
  let '(x1, y1) := Point.as_tuple p1 in
  let '(x2, y2) := Point.as_tuple p2 in
  if Req_b x1 x2 && Req_b y1 y2 then
    raise (ValueError "Cannot define a line with two identical points")
  else
    let A := y1 - y2 in
    let B := x2 - x1 in
    let C := x1 * y2 - x2 * y1 in
    ret (mk A B C label).

(** [np.isfinite(slope)] holds for the real numbers. *)
Definition from_slope_intercept (slope : float_arg) (intercept : R)
    (label : option string) : t :=
  match slope with
  | finite m => mk m (-1) intercept label
  | nonfinite => mk 1 0 (- intercept) label
  end.

Definition from_general (A B C : R) (label : option string) : result t :=
  if Rle_b (Rabs A) EPS && Rle_b (Rabs B) EPS then
    raise (ValueError "Invalid general form: A and B cannot both be zero")
  else ret (mk A B C label).

(** In [slope], [intercept] and [x_intercept] the divisor is larger than
    [EPS] in absolute value when the division is reached. *)
Definition slope (self : t) : option R :=
  if Rle_b (Rabs (B self)) EPS then None else Some (- A self / B self).

Definition intercept (self : t) : option R :=
  if Rle_b (Rabs (B self)) EPS then None else Some (- C self / B self).

Definition x_intercept (self : t) : option R :=
  if Rle_b (Rabs (A self)) EPS then None else Some (- C self / A self).

Definition as_sympy (self : t) : result Sympy.Line2D :=
  if Rle_b (Rabs (B self)) EPS then
    x_val <- py_div (- C self) (A self) ;;
    Sympy.Line2D_new (x_val, 0) None None
  else Sympy.Line_of_equation (A self) (B self) (C self).

(** [div] is the division of the coefficients' number type: [py_div]
    for Python floats, [np_div] for NumPy scalars. *)
Definition sample_points_with (div : R -> R -> result R) (self : t)
    : result (Point.t * Point.t) :=
  if Rle_b (Rabs (B self)) EPS then
    x <- div (- C self) (A self) ;;
    ret (Point.mk x 0 None, Point.mk x 1 None)
  else
    y1 <- div (- C self - A self * 0) (B self) ;;
    y2 <- div (- C self - A self * 1) (B self) ;;
    ret (Point.mk 0 y1 None, Point.mk 1 y2 None).

Definition sample_points : t -> result (Point.t * Point.t) :=
  sample_points_with py_div.

Definition opt_num (o : option R) : Value :=
  match o with
  | Some r => VNum r
  | None => VNone
  end.

Definition display (self : t) : dict :=
  [("A", VNum (A self)); ("B", VNum (B self)); ("C", VNum (C self))]
  ++ (if truthy (label self) then [("label", VStr (or_else (label self) ""))] else [])
  ++ match slope self with
     | Some slope_value =>
         [("slope", VNum slope_value); ("y_intercept", opt_num (intercept self))]
     | None =>
         [("vertical", VBool true); ("x_intercept", opt_num (x_intercept self))]
     end.

End Line.

Definition line_element (pts : Point.t * Point.t) (extra style_ : dict) : PlotElement :=
  {| type := "line";
     data := [("from", VPair (Point.as_tuple (fst pts)));
              ("to", VPair (Point.as_tuple (snd pts)))] ++ extra;
     style := style_ |}.

Definition line_from_points (p1 p2 : Point.t) : result ComputationResult :=
  line <- Line.from_points p1 p2 (Some "ℓ") ;;
  let steps :=
    [[Lit "A = y_1 - y_2 = "; Fmt ".3g" (Point.y p1); Lit " - ";
      Fmt ".3g" (Point.y p2); Lit " = "; Fmt ".6g" (Line.A line)];
     [Lit "B = x_2 - x_1 = "; Fmt ".3g" (Point.x p2); Lit " - ";
      Fmt ".3g" (Point.x p1); Lit " = "; Fmt ".6g" (Line.B line)];
     [Lit "C = x_1 y_2 - x_2 y_1 = "; Fmt ".3g" (Point.x p1); Lit "\cdot ";
      Fmt ".3g" (Point.y p2); Lit " - "; Fmt ".3g" (Point.x p2); Lit "\cdot ";
      Fmt ".3g" (Point.y p1); Lit " = "; Fmt ".6g" (Line.C line)]] in
  ends <- Line.sample_points line ;;
  let plot :=
    [ line_element ends [("label", VStr (or_else (Line.label line) "ℓ"))]
        [("color", VStr "#1f77b4")];
      {| type := "point";
         data := [("coords", VPair (Point.as_tuple p1));
                  ("label", VStr (or_else (Point.label p1) "A"))];
         style := [("color", VStr "#d62728")] |};
      {| type := "point";
         data := [("coords", VPair (Point.as_tuple p2));
                  ("label", VStr (or_else (Point.label p2) "B"))];
         style := [("color", VStr "#2ca02c")] |} ] in
  ret {| status := "ok";
         op := "line_from_points";
         payload := [("line", VDict (Line.display line))];
         steps := steps;
         plot_elements := plot;
         warnings := [] |}.

Definition intersection (line1 line2 : Line.t) : result ComputationResult :=
  sym_line1 <- Line.as_sympy line1 ;;
  sym_line2 <- Line.as_sympy line2 ;;
  let point := Sympy.intersection sym_line1 sym_line2 in
  match point with
  | [] =>
      ret {| status := "warning";
             op := "intersection";
             payload := [("message", VStr "Lines are parallel or coincident")];
             steps := [[Lit "No unique intersection found."]];
             plot_elements := [];
             warnings := ["parallel_lines"] |}
  | Sympy.ELine _ :: _ =>
      (* [point[0].x] on a [Line2D] *)
      raise (AttributeError "'Line2D' object has no attribute 'x'")
  | Sympy.EPoint x y :: _ =>
      let intersection_point := Point.mk x y (Some "I") in
      let steps :=
        [[Lit "Solve the system: "; LineEq (Sympy.p1 sym_line1) (Sympy.p2 sym_line1);
          Lit " = 0, "; LineEq (Sympy.p1 sym_line2) (Sympy.p2 sym_line2); Lit " = 0"];
         [Lit "I = ("; Fmt ".6g" (Point.x intersection_point); Lit ", ";
          Fmt ".6g" (Point.y intersection_point); Lit ")"]] in
      a0 <- Line.sample_points line1 ;;
      a1 <- Line.sample_points line1 ;;
      b0 <- Line.sample_points line2 ;;
      b1 <- Line.sample_points line2 ;;
      let plot :=
        [ line_element (fst a0, snd a1)
            [("label", VStr (or_else (Line.label line1) "ℓ₁"))]
            [("color", VStr "#1f77b4")];
          line_element (fst b0, snd b1)
            [("label", VStr (or_else (Line.label line2) "ℓ₂"))]
            [("color", VStr "#ff7f0e")];
          {| type := "point";
             data := [("coords", VPair (Point.as_tuple intersection_point));
                      ("label", VStr "I")];
             style := [("color", VStr "#9467bd"); ("size", VNum 12)] |} ] in
      ret {| status := "ok";
             op := "intersection";
             payload := [("point", VPair (Point.as_tuple intersection_point))];
             steps := steps;
             plot_elements := plot;
             warnings := [] |}
  end.

Definition opt_value (o : option Value) : Value :=
  match o with
  | Some v => v
  | None => VNone
  end.

Definition angle_between_lines (line1 line2 : Line.t) : result ComputationResult :=
  let m1 := Line.slope line1 in
  let m2 := Line.slope line2 in
  angle <-
    match m1, m2 with
    | None, None => ret 0
    | None, Some _ | Some _, None => ret 90
    | Some m1, Some m2 =>
        q <- py_div (m2 - m1) (1 + m1 * m2) ;;
        let tan_theta := Rabs q in
        ret (degrees (atan2 tan_theta 1))
    end ;;
  let slope_text (m : option R) : Frag :=
    match m with
    | None => Lit "∞"
    | Some v => Fmt ".6g" v
    end in
  let steps :=
    [[Lit "m_1 = "; slope_text m1];
     [Lit "m_2 = "; slope_text m2];
     [Lit "θ = \tan^{-1}\left|\frac{m_2 - m_1}{1 + m_1 m_2}\right| = ";
      Fmt ".6g" angle; Lit "°"]] in
  s1 <- Line.sample_points line1 ;;
  s2 <- Line.sample_points line2 ;;
  vertex <-
    (if negb (Req_b angle 0 || Req_b angle 90) then
       r <- intersection line1 line2 ;;
       ret (opt_value (get (payload r) "point"))
     else ret VNone) ;;
  let plot :=
    [ {| type := "angle";
         data := [("line1", VPair (Point.as_tuple (fst s1)));
                  ("line2", VPair (Point.as_tuple (fst s2)));
                  ("vertex", vertex);
                  ("value", VNum angle)];
         style := [("color", VStr "#17becf")] |} ] in
  ret {| status := "ok";
         op := "angle_between_lines";
         payload := [("angle_degrees", VNum angle)];
         steps := steps;
         plot_elements := plot;
         warnings := [] |}.

Definition foot_of_perpendicular (line : Line.t) (point : Point.t)
    : result ComputationResult :=
  normalized <- Line.normalized line ;;
  let '(A, B, C) := (Line.A normalized, Line.B normalized, Line.C normalized) in
  foot_x <- np_div (B * (B * Point.x point - A * Point.y point) - A * C)
                   (sq A + sq B) ;;
  foot_y <- np_div (A * (- B * Point.x point + A * Point.y point) - B * C)
                   (sq A + sq B) ;;
  let foot_point := Point.mk foot_x foot_y (Some "F") in
  ret {| status := "ok";
         op := "foot_of_perpendicular";
         payload := [("point", VPair (Point.as_tuple foot_point))];
         steps := [[Lit "Project point onto line using normal projection formulas."];
                   [Lit "F = ("; Fmt ".6g" (Point.x foot_point); Lit ", ";
                    Fmt ".6g" (Point.y foot_point); Lit ")"]];
         plot_elements :=
           [ {| type := "point";
                data := [("coords", VPair (Point.as_tuple foot_point));
                         ("label", VStr "F")];
                style := [("color", VStr "#2ca02c")] |} ];
         warnings := [] |}.

Definition distance_from_point (line : Line.t) (point : Point.t)
    : result ComputationResult :=
  let numerator :=
    Rabs (Line.A line * Point.x point + Line.B line * Point.y point + Line.C line) in
  let denominator := hypot (Line.A line) (Line.B line) in
  distance <- np_div numerator denominator ;;
  foot <- foot_of_perpendicular line point ;;
  let steps :=
    [[Lit "d = \frac{|"; Fmt ".3g" (Line.A line); Lit "\cdot ";
      Fmt ".3g" (Point.x point); Lit " + "; Fmt ".3g" (Line.B line); Lit "\cdot ";
      Fmt ".3g" (Point.y point); Lit " + "; Fmt ".3g" (Line.C line);
      Lit "|}{\sqrt{"; Fmt ".3g" (Line.A line); Lit "^2 + ";
      Fmt ".3g" (Line.B line); Lit "^2}} = "; Fmt ".6g" distance]] in
  s0 <- Line.sample_points line ;;
  s1 <- Line.sample_points line ;;
  let plot :=
    [ line_element (fst s0, snd s1)
        [("label", VStr (or_else (Line.label line) "ℓ"))]
        [("color", VStr "#1f77b4")];
      {| type := "point";
         data := [("coords", VPair (Point.as_tuple point));
                  ("label", VStr (or_else (Point.label point) "P"))];
         style := [("color", VStr "#d62728"); ("size", VNum 12)] |} ] in
  let plot :=
    if String.eqb (status foot) "ok" then
      let foot_point := opt_value (get (payload foot) "point") in
      plot ++
      [ {| type := "point";
           data := [("coords", foot_point); ("label", VStr "F")];
           style := [("color", VStr "#2ca02c"); ("size", VNum 10)] |};
        {| type := "segment";
           data := [("from", VPair (Point.as_tuple point)); ("to", foot_point)];
           style := [("color", VStr "#9467bd"); ("dash", VStr "dot")] |} ]
    else plot in
  ret {| status := "ok";
         op := "distance_point_line";
         payload := [("distance", VNum distance)];
         steps := steps;
         plot_elements := plot;
         warnings := [] |}.

Definition angle_bisectors (line1 line2 : Line.t) : result ComputationResult :=
  l1 <- Line.normalized line1 ;;
  l2 <- Line.normalized line2 ;;
  let bisector1 :=
    Line.mk (Line.A l1 + Line.A l2) (Line.B l1 + Line.B l2) (Line.C l1 + Line.C l2)
            (Some "bisector1") in
  let bisector2 :=
    Line.mk (Line.A l1 - Line.A l2) (Line.B l1 - Line.B l2) (Line.C l1 - Line.C l2)
            (Some "bisector2") in
  let payload :=
    [("internal", VDict (Line.display bisector1));
     ("external", VDict (Line.display bisector2))] in
  (* the bisectors' coefficients are NumPy scalars *)
  a0 <- Line.sample_points_with np_div bisector1 ;;
  a1 <- Line.sample_points_with np_div bisector1 ;;
  b0 <- Line.sample_points_with np_div bisector2 ;;
  b1 <- Line.sample_points_with np_div bisector2 ;;
  let plot :=
    [ line_element (fst a0, snd a1) [("label", VStr "bisector₁")]
        [("color", VStr "#17becf"); ("dash", VStr "dash")];
      line_element (fst b0, snd b1) [("label", VStr "bisector₂")]
        [("color", VStr "#bcbd22"); ("dash", VStr "dot")] ] in
  ret {| status := "ok";
         op := "angle_bisectors";
         payload := payload;
         steps := [[Lit "Normalize both lines to unit normals."];
                   [Lit "Internal bisector: n₁ + n₂ = 0"];
                   [Lit "External bisector: n₁ - n₂ = 0"]];
         plot_elements := plot;
         warnings := [] |}.

(** ** The symbolic solver and NumPy's linear algebra

    Circles, triangles, conic intersections, reflection, eigenvectors,
    trigonometric and calculus helpers hand their input to SymPy and
    convert what comes back with [float].  The engine treats these calls
    as black boxes; so does the model: a [Solver] gives, for each call,
    either the converted value or the exception with which the call or
    the conversion of its answer ends.  The theorems about operations
    that use a solver hold for every [Solver].

    [np.linalg.det] and [np.linalg.inv] are black boxes of the same
    kind: NumPy factorises the matrix in floating point (LAPACK's LU)
    and returns the determinant as [sign * exp(sum(log|u_ii|))], a
    rounded value that differs from the determinant of the matrix; for
    an exactly singular matrix it need not be near 0.  The engine
    branches on the value NumPy returns, and the model takes that value,
    and the inverse or the [LinAlgError] of [np.linalg.inv], from the
    [Solver]. *)

Class Solver : Type := {
  (* sympy.geometry.Circle *)
  SymCircle : Type;
  Circle_new : R * R -> R -> result SymCircle;
  Circle_of_three : R * R -> R * R -> R * R -> result SymCircle;
  sym_center : SymCircle -> result (R * R);
  sym_radius : SymCircle -> result R;
  circle_intersection_line : SymCircle -> Sympy.Line2D -> result (list Sympy.Entity);
  circle_intersection_circle : SymCircle -> SymCircle -> result (list Sympy.Entity);
  tangent_lines : SymCircle -> R * R -> result (list Sympy.Line2D);
  sym_radical_axis : SymCircle -> SymCircle -> result Sympy.Line2D;
  (* sympy.geometry.Triangle and Polygon *)
  SymTriangle : Type;
  Triangle_new : R * R -> R * R -> R * R -> result SymTriangle;
  polygon_area : R * R -> R * R -> R * R -> result R;
  circumcenter_of : SymTriangle -> result (R * R);
  incenter_of : SymTriangle -> result (R * R);
  orthocenter_of : SymTriangle -> result (R * R);
  circumradius_of : SymTriangle -> result R;
  inradius_of : SymTriangle -> result R;
  (* sympy.solvers.solve on a line and on a conic restricted to it *)
  SymExpr : Type;
  solve_line : R * R * R -> bool -> result (list SymExpr);
  conic_points : R * R * R * R * R * R -> SymExpr -> bool -> result (list (R * R));
  (* Point2D.reflect *)
  reflect : R * R -> Sympy.Line2D -> result (R * R);
  (* Matrix.eigenvects: value, multiplicity and first eigenvector *)
  eigenvects : list (list R) -> result (list (R * nat * list R));
  (* sympify, evalf, solveset, diff, lambdify, Integral, series *)
  sympify : string -> result SymExpr;
  expr_str : SymExpr -> string;
  difference_at : SymExpr -> SymExpr -> R -> result R;
  solveset_in : SymExpr -> R * R -> result (list R);
  diff : SymExpr -> SymExpr;
  lambdify : SymExpr -> R -> result R;
  lambdify_array : SymExpr -> list R -> result (list R);
  integral : SymExpr -> R -> R -> result R;
  SymRoot : Type;
  solveset_roots : SymExpr -> result (list SymRoot);
  is_real : SymRoot -> bool;
  subs_at_root : SymExpr -> SymRoot -> result R;
  root_value : SymRoot -> result R;
  numeric_at_root : SymExpr -> SymRoot -> result R;
  series : SymExpr -> R -> nat -> result SymExpr;
  (* numpy.linalg.det and numpy.linalg.inv on the rows of a square array *)
  np_linalg_det : list (list R) -> R;
  np_linalg_inv : list (list R) -> result (list (list R))
}.

(** [str(n)] for a natural number. *)
Definition str_nat (n : nat) : string := NilEmpty.string_of_uint (Nat.to_uint n).

(** [for x in xs: ...] where the body can raise. *)
Fixpoint mapM {A B : Type} (f : A -> result B) (xs : list A) : result (list B) :=
  match xs with
  | [] => ret []
  | x :: rest =>
      y <- f x ;;
      ys <- mapM f rest ;;
      ret (y :: ys)
  end.

(** [enumerate(xs)], counting from [start]. *)
Fixpoint enumerate {A : Type} (start : nat) (xs : list A) : list (nat * A) :=
  match xs with
  | [] => []
  | x :: rest => (start, x) :: enumerate (S start) rest
  end.

(** [(float(pt.x), float(pt.y))] for what SymPy returned as a point. *)
Definition entity_xy (e : Sympy.Entity) : result (R * R) :=
  match e with
  | Sympy.EPoint x y => ret (x, y)
  | Sympy.ELine _ => raise (AttributeError "'Line2D' object has no attribute 'x'")
  end.

(** The dataclasses of circles.py and triangles.py; their methods follow
    with the operations. *)

Module Circle.

Record t : Type := mk {
  center : Point.t;
  radius : R;
  label : option string
}.

End Circle.

Module TriangleMetrics.

Record t : Type := mk {
  a : Point.t;
  b : Point.t;
  c : Point.t
}.

End TriangleMetrics.

Section Engine.

Context `{solver : Solver}.

(** [format(v, spec)]: Python's rendering of a float, where the engine
    puts it into a label. *)
Variable format : R -> string -> string.

(** ** circles.py *)

Definition Circle_to_sympy (self : Circle.t) : result SymCircle :=
  Circle_new (Point.as_tuple (Circle.center self)) (Circle.radius self).

Definition Circle_from_center_radius (center : Point.t) (radius : R)
    (label : option string) : result Circle.t :=
  if Rle_b radius 0 then raise (ValueError "Radius must be positive")
  else ret (Circle.mk center radius label).

Definition Circle_from_three_points (p1 p2 p3 : Point.t) (label : option string)
    : result Circle.t :=
  sym_circle <- Circle_of_three (Point.as_tuple p1) (Point.as_tuple p2)
                                (Point.as_tuple p3) ;;
  c <- sym_center sym_circle ;;
  let center := Point.mk (fst c) (snd c) (Some "O") in
  r <- sym_radius sym_circle ;;
  ret (Circle.mk center r (Some (or_else label "∘"))).

(** The guard [abs(A) < 1e-9] leaves [A] non-zero for the divisions. *)
Definition Circle_from_general_form (A B C D E : R) (label : option string)
    : result Circle.t :=
  if Rlt_b (Rabs A) EPS || Rlt_b EPS (Rabs (A - B)) then
    raise (ValueError "Invalid general circle equation: coefficients must satisfy A=B≠0")
  else
    let h := - D / (2 * A) in
    let k := - E / (2 * A) in
    let r_sq := (sq D + sq E) / (4 * sq A) - C / A in
    if Rle_b r_sq 0 then raise (ValueError "Non-positive radius squared")
    else
      let center := Point.mk h k (Some "O") in
      ret (Circle.mk center (sqrt r_sq) (Some (or_else label "∘"))).

Definition Circle_display (self : Circle.t) : dict :=
  [("center", VPair (Point.as_tuple (Circle.center self))); ("radius", VNum (Circle.radius self))]
  ++ (if truthy (Circle.label self)
      then [("label", VStr (or_else (Circle.label self) ""))] else []).

Definition Circle_summary (self : Circle.t) : result ComputationResult :=
  ret {| status := "ok";
         op := "circle_summary";
         payload := Circle_display self;
         steps := [[Lit "Center = ("; Fmt ".6g" (Point.x (Circle.center self)); Lit ", ";
                    Fmt ".6g" (Point.y (Circle.center self)); Lit ")"];
                   [Lit "Radius = "; Fmt ".6g" (Circle.radius self)]];
         plot_elements :=
           [ {| type := "circle";
                data := [("center", VPair (Point.as_tuple (Circle.center self)));
                         ("radius", VNum (Circle.radius self));
                         ("label", VStr (or_else (Circle.label self) "∘"))];
                style := [("line", VDict [("color", VStr "#1f77b4")])] |};
             {| type := "point";
                data := [("coords", VPair (Point.as_tuple (Circle.center self)));
                         ("label", VStr (or_else (Point.label (Circle.center self)) "O"))];
                style := [("color", VStr "#d62728")] |} ];
         warnings := [] |}.

Definition circle_element (circle : Circle.t) (color : string) : PlotElement :=
  {| type := "circle";
     data := [("center", VPair (Point.as_tuple (Circle.center circle)));
              ("radius", VNum (Circle.radius circle))];
     style := [("line", VDict [("color", VStr color)])] |}.

(** The points appended by [for idx, coord in enumerate(coords)]. *)
Definition numbered_points (coords : list (R * R)) : list PlotElement :=
  map (fun ic : nat * (R * R) =>
         {| type := "point";
            data := [("coords", VPair (snd ic));
                     ("label", VStr ("P" ++ str_nat (fst ic + 1))%string)];
            style := [("color", VStr "#2ca02c")] |})
      (enumerate 0 coords).

Definition line_circle_intersection (circle : Circle.t) (line : Line.t)
    : result ComputationResult :=
  sym_circle <- Circle_to_sympy circle ;;
  sym_line <- Line.as_sympy line ;;
  points <- circle_intersection_line sym_circle sym_line ;;
  match points with
  | [] =>
      ret {| status := "warning";
             op := "line_circle_intersection";
             payload := [("message", VStr "No real intersection")];
             steps := [[Lit "Discriminant < 0"]];
             plot_elements := [];
             warnings := ["no_real_intersection"] |}
  | _ :: _ =>
      coords <- mapM entity_xy points ;;
      let steps :=
        [[Lit "Solve "; CircleEq (Point.as_tuple (Circle.center circle)) (Circle.radius circle);
          Lit " and "; LineEq (Sympy.p1 sym_line) (Sympy.p2 sym_line);
          Lit " simultaneously"]] in
      s0 <- Line.sample_points line ;;
      s1 <- Line.sample_points line ;;
      let plot :=
        [ circle_element circle "#1f77b4";
          line_element (fst s0, snd s1) [] [("color", VStr "#ff7f0e")] ]
        ++ numbered_points coords in
      ret {| status := "ok";
             op := "line_circle_intersection";
             payload := [("points", VList (map VPair coords))];
             steps := steps;
             plot_elements := plot;
             warnings := [] |}
  end.

Definition circle_circle_intersection (circle1 circle2 : Circle.t)
    : result ComputationResult :=
  sym1 <- Circle_to_sympy circle1 ;;
  sym2 <- Circle_to_sympy circle2 ;;
  points <- circle_intersection_circle sym1 sym2 ;;
  match points with
  | [] =>
      ret {| status := "warning";
             op := "circle_circle_intersection";
             payload := [("message", VStr "No real intersection")];
             steps := [[Lit "Circles are separate or one contains the other"]];
             plot_elements := [];
             warnings := ["no_real_intersection"] |}
  | _ :: _ =>
      coords <- mapM entity_xy points ;;
      let plot :=
        [ circle_element circle1 "#1f77b4"; circle_element circle2 "#ff7f0e" ]
        ++ numbered_points coords in
      ret {| status := "ok";
             op := "circle_circle_intersection";
             payload := [("points", VList (map VPair coords))];
             steps := [[Lit "Solve circle equations pairwise"]];
             plot_elements := plot;
             warnings := [] |}
  end.

Definition tangents_from_external_point (circle : Circle.t) (point : Point.t)
    : result ComputationResult :=
  sym_circle <- Circle_to_sympy circle ;;
  let sym_point := Point.as_tuple point in
  tangents <- tangent_lines sym_circle sym_point ;;
  match tangents with
  | [] =>
      ret {| status := "warning";
             op := "tangents_from_point";
             payload := [("message", VStr "Point lies inside the circle")];
             steps := [];
             plot_elements := [];
             warnings := ["no_tangent"] |}
  | _ :: _ =>
      let plot :=
        [ circle_element circle "#1f77b4";
          {| type := "point";
             data := [("coords", VPair (Point.as_tuple point));
                      ("label", VStr (or_else (Point.label point) "P"))];
             style := [("color", VStr "#d62728")] |} ] in
      drawn <-
        mapM (fun it : nat * Sympy.Line2D =>
                let '(a, b, c) := Sympy.coefficients (snd it) in
                tangent_line <-
                  Line.from_general a b c (Some ("t" ++ str_nat (fst it + 1))%string) ;;
                s0 <- Line.sample_points tangent_line ;;
                s1 <- Line.sample_points tangent_line ;;
                ret (VDict (Line.display tangent_line),
                     line_element (fst s0, snd s1)
                       [("label", VStr (or_else (Line.label tangent_line) ""))]
                       [("color", VStr "#ff7f0e"); ("dash", VStr "dash")]))
             (enumerate 0 tangents) ;;
      ret {| status := "ok";
             op := "tangents_from_point";
             payload := [("tangents", VList (map fst drawn))];
             steps := [[Lit "Use SymPy tangent_lines for external point"]];
             plot_elements := plot ++ map snd drawn;
             warnings := [] |}
  end.

Definition radical_axis (circle1 circle2 : Circle.t) : result ComputationResult :=
  sym1 <- Circle_to_sympy circle1 ;;
  sym2 <- Circle_to_sympy circle2 ;;
  axis_line <- sym_radical_axis sym1 sym2 ;;
  let '(a, b, c) := Sympy.coefficients axis_line in
  line <- Line.from_general a b c (Some "radical_axis") ;;
  s0 <- Line.sample_points line ;;
  s1 <- Line.sample_points line ;;
  ret {| status := "ok";
         op := "radical_axis";
         payload := [("line", VDict (Line.display line))];
         steps := [[Lit "Radical axis derived from difference of circle power equations."]];
         plot_elements :=
           [ line_element (fst s0, snd s1)
               [("label", VStr (or_else (Line.label line) ""))]
               [("color", VStr "#17becf"); ("dash", VStr "dash")] ];
         warnings := [] |}.

(** ** conics.py *)

Definition parabola_points (a : R) (x_of_t : bool) : list Value :=
  map (fun t => if x_of_t then VPair (sq t / (4 * a), t) else VPair (t, sq t / (4 * a)))
      (linspace (-5) 5 200).

Definition parabola_y2_4ax (a : R) : result ComputationResult :=
  if Req_b a 0 then
    ret {| status := "error";
           op := "parabola_y2_4ax";
           payload := [("message", VStr "Parameter 'a' must be non-zero")];
           steps := [];
           plot_elements := [];
           warnings := ["degenerate"] |}
  else
    let focus := Point.mk a 0 (Some "F") in
    directrix <- Line.from_general 1 0 (- a) (Some "directrix") ;;
    let steps :=
      [[Lit "Focus: (a, 0) = ("; Fmt ".6g" a; Lit ", 0)"];
       [Lit "Directrix: x = -a = "; Fmt ".6g" (- a)];
       [Lit "Axis: x-axis"];
       [Lit "Latus rectum length: |4a| = "; Fmt ".6g" (Rabs (4 * a))]] in
    let points := parabola_points a true in
    let plot :=
      [ {| type := "curve";
           data := [("points", VList points); ("label", VStr "Parabola")];
           style := [("color", VStr "#1f77b4")] |};
        {| type := "point";
           data := [("coords", VPair (Point.as_tuple focus)); ("label", VStr "F")];
           style := [("color", VStr "#d62728")] |};
        {| type := "line";
           data := [("from", VPair (- a, -10)); ("to", VPair (- a, 10));
                    ("label", VStr "Directrix")];
           style := [("color", VStr "#2ca02c"); ("dash", VStr "dash")] |} ] in
    let payload :=
      [("vertex", VPair (0, 0));
       ("focus", VPair (Point.as_tuple focus));
       ("directrix", VDict [("A", VNum 1); ("B", VNum 0); ("C", VNum (- a))]);
       ("axis", VStr "x-axis");
       ("latus_rectum", VNum (Rabs (4 * a)));
       ("parametric", VDict [("x", VStr "at^2"); ("y", VStr "2at")])] in
    ret {| status := "ok";
           op := "parabola_y2_4ax";
           payload := payload;
           steps := steps;
           plot_elements := plot;
           warnings := [] |}.

Definition parabola_x2_4ay (a : R) : result ComputationResult :=
  if Req_b a 0 then
    ret {| status := "error";
           op := "parabola_x2_4ay";
           payload := [("message", VStr "Parameter 'a' must be non-zero")];
           steps := [];
           plot_elements := [];
           warnings := ["degenerate"] |}
  else
    let focus := Point.mk 0 a (Some "F") in
    directrix <- Line.from_general 0 1 (- a) (Some "directrix") ;;
    let steps :=
      [[Lit "Focus: (0, a) = (0, "; Fmt ".6g" a; Lit ")"];
       [Lit "Directrix: y = -a = "; Fmt ".6g" (- a)];
       [Lit "Axis: y-axis"];
       [Lit "Latus rectum length: |4a| = "; Fmt ".6g" (Rabs (4 * a))]] in
    let points := parabola_points a false in
    let plot :=
      [ {| type := "curve";
           data := [("points", VList points); ("label", VStr "Parabola")];
           style := [("color", VStr "#1f77b4")] |};
        {| type := "point";
           data := [("coords", VPair (Point.as_tuple focus)); ("label", VStr "F")];
           style := [("color", VStr "#d62728")] |};
        {| type := "line";
           data := [("from", VPair (-10, - a)); ("to", VPair (10, - a));
                    ("label", VStr "Directrix")];
           style := [("color", VStr "#2ca02c"); ("dash", VStr "dash")] |} ] in
    let payload :=
      [("vertex", VPair (0, 0));
       ("focus", VPair (Point.as_tuple focus));
       ("directrix", VDict [("A", VNum 0); ("B", VNum 1); ("C", VNum (- a))]);
       ("axis", VStr "y-axis");
       ("latus_rectum", VNum (Rabs (4 * a)));
       ("parametric", VDict [("x", VStr "2at"); ("y", VStr "at^2")])] in
    ret {| status := "ok";
           op := "parabola_x2_4ay";
           payload := payload;
           steps := steps;
           plot_elements := plot;
           warnings := [] |}.

(** The guard leaves [max(a, b)] and [a] positive for the divisions of
    [ellipse_standard] and [hyperbola_standard].  Over [R] their
    squares and square roots are exact: what the two functions return
    for doubles whose square overflows, or whose [a**2 - b**2] rounds,
    is not stated here. *)
Definition ellipse_standard (a b : R) : result ComputationResult :=
  if Rle_b a 0 || Rle_b b 0 then
    ret {| status := "error";
           op := "ellipse_standard";
           payload := [("message", VStr "Semi-axes must be positive")];
           steps := [];
           plot_elements := [];
           warnings := ["degenerate"] |}
  else
    let c := sqrt (Rabs (sq a - sq b)) in
    let eccentricity := c / Rmax a b in
    let focus1 := (c, 0) in
    let focus2 := (- c, 0) in
    let t_vals := linspace 0 (2 * PI) 400 in
    let points := map (fun t => VPair (a * cos t, b * sin t)) t_vals in
    let steps :=
      [[Lit "Major axis = "; Fmt ".6g" (2 * Rmax a b)];
       [Lit "Minor axis = "; Fmt ".6g" (2 * Rmin a b)];
       [Lit "Foci at (±c, 0) with c = \sqrt{|a^2 - b^2|} = "; Fmt ".6g" c];
       [Lit "Eccentricity e = c/a = "; Fmt ".6g" eccentricity]] in
    let plot :=
      [ {| type := "curve";
           data := [("points", VList points); ("label", VStr "Ellipse")];
           style := [("color", VStr "#9467bd")] |};
        {| type := "point";
           data := [("coords", VPair focus1); ("label", VStr "F1")];
           style := [("color", VStr "#d62728")] |};
        {| type := "point";
           data := [("coords", VPair focus2); ("label", VStr "F2")];
           style := [("color", VStr "#2ca02c")] |} ] in
    let payload :=
      [("semi_major", VNum (Rmax a b));
       ("semi_minor", VNum (Rmin a b));
       ("foci", VList [VPair focus1; VPair focus2]);
       ("eccentricity", VNum eccentricity);
       ("parametric", VDict [("x", VStr "a cos t"); ("y", VStr "b sin t")])] in
    ret {| status := "ok";
           op := "ellipse_standard";
           payload := payload;
           steps := steps;
           plot_elements := plot;
           warnings := [] |}.

Definition hyperbola_standard (a b : R) : result ComputationResult :=
  if Rle_b a 0 || Rle_b b 0 then
    ret {| status := "error";
           op := "hyperbola_standard";
           payload := [("message", VStr "Semi-axes must be positive")];
           steps := [];
           plot_elements := [];
           warnings := ["degenerate"] |}
  else
    let c := sqrt (sq a + sq b) in
    let eccentricity := c / a in
    let asymptote_slope := b / a in
    let t_vals := linspace (-3) 3 400 in
    let right_branch := map (fun t => (a * cosh t, b * sinh t)) t_vals in
    let left_branch := map (fun xy : R * R => (- fst xy, snd xy)) right_branch in
    let steps :=
      [[Lit "c = \sqrt{a^2 + b^2} = "; Fmt ".6g" c];
       [Lit "Eccentricity e = c/a = "; Fmt ".6g" eccentricity];
       [Lit "Asymptotes: y = ±("; Fmt ".3g" b; Lit "/"; Fmt ".3g" a; Lit ") x"]] in
    let plot :=
      [ {| type := "curve";
           data := [("points", VList (map VPair right_branch));
                    ("label", VStr "Hyperbola+")];
           style := [("color", VStr "#1f77b4")] |};
        {| type := "curve";
           data := [("points", VList (map VPair left_branch));
                    ("label", VStr "Hyperbola-")];
           style := [("color", VStr "#1f77b4")] |};
        {| type := "line";
           data := [("from", VPair (-10, - asymptote_slope * 10));
                    ("to", VPair (10, asymptote_slope * 10))];
           style := [("color", VStr "#ff7f0e"); ("dash", VStr "dot")] |};
        {| type := "line";
           data := [("from", VPair (-10, asymptote_slope * 10));
                    ("to", VPair (10, - asymptote_slope * 10))];
           style := [("color", VStr "#ff7f0e"); ("dash", VStr "dot")] |} ] in
    let payload :=
      [("foci", VList [VPair (c, 0); VPair (- c, 0)]);
       ("eccentricity", VNum eccentricity);
       ("asymptotes",
        VList [VDict [("A", VNum asymptote_slope); ("B", VNum (-1)); ("C", VNum 0)];
               VDict [("A", VNum (- asymptote_slope)); ("B", VNum (-1)); ("C", VNum 0)]])] in
    ret {| status := "ok";
           op := "hyperbola_standard";
           payload := payload;
           steps := steps;
           plot_elements := plot;
           warnings := [] |}.

Definition classify_general_quadratic (A B C D E F : R) : result ComputationResult :=
  let discriminant := sq B - 4 * A * C in
  let conic_type :=
    if Rlt_b discriminant 0 then
      (if Req_b A C then "ellipse" else "imaginary ellipse")
    else if Req_b discriminant 0 then "parabola"
    else "hyperbola" in
  ret {| status := "ok";
         op := "classify_quadratic";
         payload := [("discriminant", VNum discriminant); ("type", VStr conic_type)];
         steps := [[Lit "Δ = B^2 - 4AC = "; Fmt ".6g" discriminant]];
         plot_elements := [];
         warnings := [] |}.

(** [coeffs.get(k, 0.0)] *)
Fixpoint coeff (coeffs : list (string * R)) (k : string) : R :=
  match coeffs with
  | [] => 0
  | (k', v) :: rest => if String.eqb k k' then v else coeff rest k
  end.

Definition line_conic_intersection (line : Line.t) (coeffs : list (string * R))
    : result ComputationResult :=
  let A := coeff coeffs "A" in
  let B := coeff coeffs "B" in
  let C := coeff coeffs "C" in
  let D := coeff coeffs "D" in
  let E := coeff coeffs "E" in
  let F := coeff coeffs "F" in
  let for_y := Rlt_b EPS (Rabs (Line.B line)) in
  substitution <- solve_line (Line.A line, Line.B line, Line.C line) for_y ;;
  match substitution with
  | [] =>
      ret {| status := "error";
             op := "line_conic_intersection";
             payload := [("message", VStr "Unable to parametrize line")];
             steps := [];
             plot_elements := [];
             warnings := [] |}
  | expr :: _ =>
      points <- conic_points (A, B, C, D, E, F) expr for_y ;;
      ret {| status := "ok";
             op := "line_conic_intersection";
             payload := [("points", VList (map VPair points))];
             steps := [[Lit "Solved quadratic obtained by substituting line equation into conic"]];
             plot_elements :=
               [ {| type := "points";
                    data := [("coords", VList (map VPair points))];
                    style := [] |} ];
             warnings := [] |}
  end.

(** ** triangles.py *)

Definition _sym_triangle (self : TriangleMetrics.t) : result SymTriangle :=
  Triangle_new (Point.as_tuple (TriangleMetrics.a self)) (Point.as_tuple (TriangleMetrics.b self))
               (Point.as_tuple (TriangleMetrics.c self)).

(** [np.linalg.norm(p - q)] *)
Definition norm2 (p q : R * R) : R :=
  sqrt (sq (fst p - fst q) + sq (snd p - snd q)).

Definition side_lengths (self : TriangleMetrics.t) : R * R * R :=
  let '(p_a, p_b, p_c) :=
    (Point.as_tuple (TriangleMetrics.a self), Point.as_tuple (TriangleMetrics.b self), Point.as_tuple (TriangleMetrics.c self)) in
  let ab := norm2 p_a p_b in
  let bc := norm2 p_b p_c in
  let ca := norm2 p_c p_a in
  (ab, bc, ca).

Definition area (self : TriangleMetrics.t) : result R :=
  v <- polygon_area (Point.as_tuple (TriangleMetrics.a self)) (Point.as_tuple (TriangleMetrics.b self))
                    (Point.as_tuple (TriangleMetrics.c self)) ;;
  ret (Rabs v).

Definition centroid (self : TriangleMetrics.t) : Point.t :=
  let mx := (Point.x (TriangleMetrics.a self) + Point.x (TriangleMetrics.b self) + Point.x (TriangleMetrics.c self)) / 3 in
  let my := (Point.y (TriangleMetrics.a self) + Point.y (TriangleMetrics.b self) + Point.y (TriangleMetrics.c self)) / 3 in
  Point.mk mx my (Some "G").

Definition circumcenter (self : TriangleMetrics.t) : result Point.t :=
  tri <- _sym_triangle self ;;
  center <- circumcenter_of tri ;;
  ret (Point.mk (fst center) (snd center) (Some "O")).

Definition incenter (self : TriangleMetrics.t) : result Point.t :=
  tri <- _sym_triangle self ;;
  center <- incenter_of tri ;;
  ret (Point.mk (fst center) (snd center) (Some "I")).

Definition orthocenter (self : TriangleMetrics.t) : result Point.t :=
  tri <- _sym_triangle self ;;
  center <- orthocenter_of tri ;;
  ret (Point.mk (fst center) (snd center) (Some "H")).

Definition circumradius (self : TriangleMetrics.t) : result R :=
  tri <- _sym_triangle self ;;
  circumradius_of tri.

Definition inradius (self : TriangleMetrics.t) : result R :=
  tri <- _sym_triangle self ;;
  inradius_of tri.

(** [sorted] on a list of numbers. *)
Fixpoint insert_sorted (v : R) (l : list R) : list R :=
  match l with
  | [] => [v]
  | h :: t => if Rle_b v h then v :: l else h :: insert_sorted v t
  end.

Definition sorted (l : list R) : list R := fold_right insert_sorted [] l.

Definition classification (self : TriangleMetrics.t) : dict :=
  let '(ab, bc, ca) := side_lengths self in
  let sides := sorted [ab; bc; ca] in
  let s0 := nth 0 sides 0 in
  let s1 := nth 1 sides 0 in
  let s2 := nth 2 sides 0 in
  let equilateral :=
    Rle_b (Rmax ab (Rmax bc ca) - Rmin ab (Rmin bc ca)) EPS in
  let isosceles :=
    Rle_b (Rabs (ab - bc)) EPS || Rle_b (Rabs (bc - ca)) EPS
    || Rle_b (Rabs (ca - ab)) EPS in
  let right := Rle_b (Rabs (sq s2 - (sq s0 + sq s1))) (1 / 10 ^ 6) in
  [("equilateral", VBool equilateral);
   ("isosceles", VBool isosceles);
   ("right", VBool right);
   ("scalene", VBool (negb equilateral && negb isosceles))].

Definition summary (self : TriangleMetrics.t) : result ComputationResult :=
  area_value <- area self ;;
  let centroid_point := centroid self in
  circumcenter_point <- circumcenter self ;;
  incenter_point <- incenter self ;;
  orthocenter_point <- orthocenter self ;;
  circumradius_value <- circumradius self ;;
  inradius_value <- inradius self ;;
  let classification := classification self in
  let sides := side_lengths self in
  let steps :=
    [[Lit "\text{Area} = \frac{1}{2}|x_1(y_2 - y_3) + x_2(y_3 - y_1) + x_3(y_1 - y_2)| = ";
      Fmt ".6g" area_value];
     [Lit "Compute centroid as mean of vertices."];
     [Lit "Circumcenter is the intersection of perpendicular bisectors (SymPy)."];
     [Lit "Incenter derived from angle bisectors (SymPy)."];
     [Lit "Orthocenter is intersection of altitudes (SymPy)."]] in
  let marked (p : Point.t) (name color : string) : PlotElement :=
    {| type := "point";
       data := [("coords", VPair (Point.as_tuple p)); ("label", VStr name)];
       style := [("color", VStr color)] |} in
  let plot_elements :=
    [ {| type := "polygon";
         data := [("vertices", VList [VPair (Point.as_tuple (TriangleMetrics.a self));
                                      VPair (Point.as_tuple (TriangleMetrics.b self));
                                      VPair (Point.as_tuple (TriangleMetrics.c self))]);
                  ("label", VStr "ΔABC")];
         style := [("fillcolor", VStr "rgba(31,119,180,0.1)");
                   ("line", VDict [("color", VStr "#1f77b4")])] |};
      marked centroid_point "G" "#ff7f0e";
      marked circumcenter_point "O" "#2ca02c";
      {| type := "circle";
         data := [("center", VPair (Point.as_tuple circumcenter_point));
                  ("radius", VNum circumradius_value)];
         style := [("line", VDict [("color", VStr "#2ca02c"); ("dash", VStr "dash")])] |};
      marked incenter_point "I" "#d62728";
      marked orthocenter_point "H" "#9467bd" ] in
  let payload :=
    [("area", VNum area_value);
     ("centroid", VPair (Point.as_tuple centroid_point));
     ("circumcenter", VPair (Point.as_tuple circumcenter_point));
     ("incenter", VPair (Point.as_tuple incenter_point));
     ("orthocenter", VPair (Point.as_tuple orthocenter_point));
     ("circumradius", VNum circumradius_value);
     ("inradius", VNum inradius_value);
     ("classification", VDict classification);
     ("side_lengths", VDict [("AB", VNum (fst (fst sides)));
                             ("BC", VNum (snd (fst sides)));
                             ("CA", VNum (snd sides))])] in
  ret {| status := "ok";
         op := "triangle_summary";
         payload := payload;
         steps := steps;
         plot_elements := plot_elements;
         warnings := [] |}.

(** ** matrices.py *)

(** A two-dimensional [np.ndarray]: its shape and its rows. *)
Record matrix2 : Type := mkMatrix {
  nrows : nat;
  ncols : nat;
  rows : list (list R)
}.

(** What [np.array(matrix, dtype=float)] makes of a list of rows: the
    empty list is one-dimensional, rows of one length make a matrix,
    rows of different lengths are refused. *)
Inductive ndarray : Type :=
| Array1D
| Array2D (m : matrix2).

Definition np_array (matrix : list (list R)) : result ndarray :=
  match matrix with
  | [] => ret Array1D
  | first :: rest =>
      if forallb (fun r => Nat.eqb (List.length r) (List.length first)) rest
      then ret (Array2D (mkMatrix (List.length matrix) (List.length first) matrix))
      else raise (ValueError "setting an array element with a sequence.")
  end.

Definition _ensure_matrix (matrix : list (list R)) : result matrix2 :=
  arr <- np_array matrix ;;
  match arr with
  | Array1D => raise (ValueError "Matrix must be two-dimensional")
  | Array2D m => ret m
  end.

Definition shape (m : matrix2) : nat * nat := (nrows m, ncols m).

Definition shape_eqb (s1 s2 : nat * nat) : bool :=
  Nat.eqb (fst s1) (fst s2) && Nat.eqb (snd s1) (snd s2).

Definition tolist (m : matrix2) : Value :=
  VList (map (fun row => VList (map VNum row)) (rows m)).

Fixpoint zip_with {A B C : Type} (f : A -> B -> C) (xs : list A) (ys : list B)
    : list C :=
  match xs, ys with
  | x :: xs', y :: ys' => f x y :: zip_with f xs' ys'
  | _, _ => []
  end.

Definition rsum (l : list R) : R := fold_right Rplus 0 l.

Definition entry (rws : list (list R)) (i j : nat) : R := nth j (nth i rws []) 0.

Definition transpose (m : matrix2) : matrix2 :=
  mkMatrix (ncols m) (nrows m)
    (map (fun j => map (fun row => nth j row 0) (rows m)) (seq 0 (ncols m))).

(** [a + b] on arrays of one shape. *)
Definition mat_add (a b : matrix2) : matrix2 :=
  mkMatrix (nrows a) (ncols a) (zip_with (zip_with Rplus) (rows a) (rows b)).

(** [a @ b]; NumPy refuses operands whose inner dimensions differ. *)
Definition matmul (a b : matrix2) : result matrix2 :=
  if Nat.eqb (ncols a) (nrows b) then
    ret (mkMatrix (nrows a) (ncols b)
           (map (fun row =>
                   map (fun col => rsum (zip_with Rmult row col)) (rows (transpose b)))
                (rows a)))
  else raise (ValueError "matmul: Input operand 1 has a mismatch in its core dimension 0").

(** The determinant of a matrix as a real number, by cofactor expansion
    along the first row: the number that [np.linalg.det] approximates.
    The engine never computes it; it is here to say what the exact
    determinant of an input is. *)
Fixpoint remove_nth {A : Type} (n : nat) (l : list A) : list A :=
  match n, l with
  | _, [] => []
  | O, _ :: t => t
  | S k, h :: t => h :: remove_nth k t
  end.

Definition minor (i j : nat) (rws : list (list R)) : list (list R) :=
  map (remove_nth j) (remove_nth i rws).

Fixpoint det_rec (n : nat) (rws : list (list R)) : R :=
  match n with
  | O => 1
  | S k =>
      rsum (map (fun j => (-1) ^ j * entry rws 0 j * det_rec k (minor 0 j rws))
                (seq 0 (S k)))
  end.

(** [np.linalg.det(mat)] and [np.linalg.inv(mat)]: what NumPy returns. *)
Definition linalg_det (m : matrix2) : R := np_linalg_det (rows m).

Definition linalg_inv (m : matrix2) : result matrix2 :=
  inverse <- np_linalg_inv (rows m) ;;
  ret (mkMatrix (nrows m) (ncols m) inverse).

Definition matrix_addition (a b : list (list R)) : result ComputationResult :=
  mat_a <- _ensure_matrix a ;;
  mat_b <- _ensure_matrix b ;;
  if negb (shape_eqb (shape mat_a) (shape mat_b)) then
    ret {| status := "error";
           op := "matrix_addition";
           payload := [("message", VStr "Matrices must share the same shape")];
           steps := [];
           plot_elements := [];
           warnings := [] |}
  else
    let result := mat_add mat_a mat_b in
    ret {| status := "ok";
           op := "matrix_addition";
           payload := [("result", tolist result)];
           steps := [[Lit "Element-wise addition"]];
           plot_elements := [];
           warnings := [] |}.

Definition matrix_multiplication (a b : list (list R)) : result ComputationResult :=
  mat_a <- _ensure_matrix a ;;
  mat_b <- _ensure_matrix b ;;
  if negb (Nat.eqb (ncols mat_a) (nrows mat_b)) then
    ret {| status := "error";
           op := "matrix_multiplication";
           payload := [("message", VStr "Inner dimensions must agree")];
           steps := [];
           plot_elements := [];
           warnings := [] |}
  else
    result <- matmul mat_a mat_b ;;
    ret {| status := "ok";
           op := "matrix_multiplication";
           payload := [("result", tolist result)];
           steps := [[Lit "Row-column multiplication"]];
           plot_elements := [];
           warnings := [] |}.

(** [np.column_stack((np.cos(theta), np.sin(theta)))] *)
Definition _unit_circle_samples (n : nat) : matrix2 :=
  let theta := linspace 0 (2 * PI) n in
  mkMatrix n 2 (map (fun t => [cos t; sin t]) theta).

Definition _grid_samples : matrix2 :=
  let xs := linspace (-1) 1 5 in
  let ys := linspace (-1) 1 5 in
  let grid_lines := flat_map (fun x_val => map (fun y_val => [x_val; y_val]) ys) xs in
  mkMatrix (List.length grid_lines) 2 grid_lines.

(** [(mat @ points.T).T] *)
Definition transform_rows (mat points : matrix2) : result matrix2 :=
  image <- matmul mat (transpose points) ;;
  ret (transpose image).

Definition matrix_determinant (matrix : list (list R)) : result ComputationResult :=
  mat <- _ensure_matrix matrix ;;
  if negb (Nat.eqb (nrows mat) (ncols mat)) then
    ret {| status := "error";
           op := "matrix_determinant";
           payload := [("message", VStr "Matrix must be square")];
           steps := [];
           plot_elements := [];
           warnings := [] |}
  else
    let det := linalg_det mat in
    plot <-
      (if shape_eqb (shape mat) (2%nat, 2%nat) then
         let circle_points := _unit_circle_samples 120 in
         transformed <- transform_rows mat circle_points ;;
         ret [ {| type := "curve";
                  data := [("points", tolist circle_points);
                           ("label", VStr "Unit circle")];
                  style := [("color", VStr "#7f7f7f"); ("dash", VStr "dot")] |};
               {| type := "curve";
                  data := [("points", tolist transformed);
                           ("label", VStr "Transformed")];
                  style := [("color", VStr "#1f77b4")] |} ]
       else ret []) ;;
    ret {| status := "ok";
           op := "matrix_determinant";
           payload := [("determinant", VNum det)];
           steps := [[Lit "det(A) = "; Fmt ".6g" det]];
           plot_elements := plot;
           warnings := [] |}.

Definition matrix_inverse (matrix : list (list R)) : result ComputationResult :=
  mat <- _ensure_matrix matrix ;;
  if negb (Nat.eqb (nrows mat) (ncols mat)) then
    ret {| status := "error";
           op := "matrix_inverse";
           payload := [("message", VStr "Matrix must be square")];
           steps := [];
           plot_elements := [];
           warnings := [] |}
  else
    let det := linalg_det mat in
    if Rlt_b (Rabs det) EPS then
      ret {| status := "warning";
             op := "matrix_inverse";
             payload := [("message", VStr "Matrix is nearly singular")];
             steps := [];
             plot_elements := [];
             warnings := ["singular_matrix"] |}
    else
      inverse <- linalg_inv mat ;;
      ret {| status := "ok";
             op := "matrix_inverse";
             payload := [("inverse", tolist inverse); ("determinant", VNum det)];
             steps := [[Lit "Compute adjugate / determinant (NumPy)"]];
             plot_elements := [];
             warnings := [] |}.

Definition eigen_analysis (matrix : list (list R)) : result ComputationResult :=
  eigenpairs <- eigenvects matrix ;;
  let payload :=
    map (fun pair : R * nat * list R =>
           let '(eigenvalue, multiplicity, vector) := pair in
           VDict [("value", VNum eigenvalue);
                  ("vector", VList (map VNum vector));
                  ("multiplicity", VNum (INR multiplicity))])
        eigenpairs in
  let plot :=
    flat_map (fun pair : R * nat * list R =>
                let '(eigenvalue, _, vec) := pair in
                if Nat.eqb (List.length vec) 2 then
                  let points :=
                    VList [VList [VNum 0; VNum 0];
                           VList (map (fun v => VNum (v * 2)) vec);
                           VList (map (fun v => VNum (v * -2)) vec)] in
                  [ {| type := "vector";
                       data := [("points", points);
                                ("label", VStr ("λ=" ++ format eigenvalue ".3g")%string)];
                       style := [("color", VStr "#d62728")] |} ]
                else [])
             eigenpairs in
  ret {| status := "ok";
         op := "eigen_analysis";
         payload := [("eigenpairs", VList payload)];
         steps := [[Lit "SymPy eigen decomposition"]];
         plot_elements := plot;
         warnings := [] |}.

Definition matrix_transform (matrix : list (list R)) (shape_ : string)
    : result ComputationResult :=
  mat <- _ensure_matrix matrix ;;
  if negb (Nat.eqb (nrows mat) (ncols mat)) then
    ret {| status := "error";
           op := "matrix_transform";
           payload := [("message", VStr "Matrix must be square")];
           steps := [];
           plot_elements := [];
           warnings := [] |}
  else if negb (Nat.eqb (nrows mat) 2 || Nat.eqb (nrows mat) 3) then
    ret {| status := "error";
           op := "matrix_transform";
           payload := [("message", VStr "Only 2x2 or 3x3 matrices supported")];
           steps := [];
           plot_elements := [];
           warnings := [] |}
  else
    points <-
      (if String.eqb shape_ "unit_circle" then ret (_unit_circle_samples 200)
       else if String.eqb shape_ "grid" then ret _grid_samples
       else raise (ValueError "Unsupported shape")) ;;
    transformed <- transform_rows mat points ;;
    let kind := if String.eqb shape_ "unit_circle" then "curve" else "lines" in
    let plot :=
      [ {| type := kind;
           data := [("points", tolist points); ("label", VStr "Original")];
           style := [("color", VStr "#7f7f7f"); ("dash", VStr "dot")] |};
        {| type := kind;
           data := [("points", tolist transformed); ("label", VStr "Transformed")];
           style := [("color", VStr "#1f77b4")] |} ] in
    let det := if Nat.eqb (nrows mat) 2 then VNum (linalg_det mat) else VNone in
    let payload := [("determinant", det); ("transformed", tolist transformed)] in
    ret {| status := "ok";
           op := "matrix_transform";
           payload := payload;
           steps := [[Lit "Apply linear map to sampled geometry"]];
           plot_elements := plot;
           warnings := [] |}.

(** ** points.py: [parametric_point], whose label is a formatted number *)

Definition parametric_point (point_a point_b : Point.t) (t : R)
    : result ComputationResult :=
  let '(ax, ay) := Point.as_tuple point_a in
  let '(bx, by_) := Point.as_tuple point_b in
  let px := ax + t * (bx - ax) in
  let py := ay + t * (by_ - ay) in
  let param := Point.mk px py (Some ("P(" ++ format t ".2g" ++ ")")%string) in
  ret {| status := "ok";
         op := "parametric_point";
         payload := [("point", VDict (_point_payload param))];
         steps := [[Lit "P_x = "; Fmt ".3g" ax; Lit " + "; Fmt ".3g" t; Lit "(";
                    Fmt ".3g" bx; Lit " - "; Fmt ".3g" ax; Lit ") = "; Fmt ".6g" px];
                   [Lit "P_y = "; Fmt ".3g" ay; Lit " + "; Fmt ".3g" t; Lit "(";
                    Fmt ".3g" by_; Lit " - "; Fmt ".3g" ay; Lit ") = "; Fmt ".6g" py]];
         plot_elements :=
           [ _point_element point_a "#d62728";
             _point_element point_b "#2ca02c";
             _point_element param "#1f77b4";
             {| type := "segment";
                data := [("from", VPair (Point.as_tuple point_a));
                         ("to", VPair (Point.as_tuple point_b))];
                style := [("color", VStr "#7f7f7f"); ("width", VNum 1)] |} ];
         warnings := [] |}.

(** ** transforms.py *)

Definition points_element (coords : list (R * R)) (label : string) (style_ : dict)
    : PlotElement :=
  {| type := "points";
     data := [("coords", VList (map VPair coords)); ("label", VStr label)];
     style := style_ |}.

Definition apply_translation (points : list Point.t) (dx dy : R)
    : result ComputationResult :=
  let original := map Point.as_tuple points in
  let translated := map (fun xy : R * R => (fst xy + dx, snd xy + dy)) original in
  ret {| status := "ok";
         op := "translation";
         payload := [("translated", VList (map VPair translated))];
         steps := [[Lit "(x', y') = (x + "; Fmt "" dx; Lit ", y + "; Fmt "" dy; Lit ")"]];
         plot_elements :=
           [ points_element original "Original"
               [("color", VStr "#7f7f7f"); ("size", VNum 10)];
             points_element translated "Translated"
               [("color", VStr "#1f77b4"); ("size", VNum 10)] ];
         warnings := [] |}.

(** [pivot or Point(0, 0)]: a [Point] is always truthy. *)
Definition pivot_or_origin (pivot : option Point.t) : Point.t :=
  match pivot with
  | Some p => p
  | None => Point.mk 0 0 None
  end.

Definition apply_rotation (points : list Point.t) (angle_degrees : R)
    (pivot : option Point.t) : result ComputationResult :=
  let theta := radians angle_degrees in
  let pivot := pivot_or_origin pivot in
  let rotate (xy : R * R) : R * R :=
    let shifted_x := fst xy - Point.x pivot in
    let shifted_y := snd xy - Point.y pivot in
    let rx := shifted_x * cos theta - shifted_y * sin theta in
    let ry := shifted_x * sin theta + shifted_y * cos theta in
    (rx + Point.x pivot, ry + Point.y pivot) in
  let original := map Point.as_tuple points in
  let rotated := map rotate original in
  ret {| status := "ok";
         op := "rotation";
         payload := [("rotated", VList (map VPair rotated))];
         steps := [[Lit "Rotation by "; Fmt "" angle_degrees; Lit "° about ";
                    Obj (VPair (Point.as_tuple pivot))]];
         plot_elements :=
           [ points_element original "Original" [("color", VStr "#7f7f7f")];
             points_element rotated "Rotated" [("color", VStr "#ff7f0e")];
             {| type := "point";
                data := [("coords", VPair (Point.as_tuple pivot));
                         ("label", VStr (or_else (Point.label pivot) "Pivot"))];
                style := [("color", VStr "#d62728"); ("size", VNum 12)] |} ];
         warnings := [] |}.

Definition apply_scaling (points : list Point.t) (sx sy : R)
    (pivot : option Point.t) : result ComputationResult :=
  let pivot := pivot_or_origin pivot in
  let original := map Point.as_tuple points in
  let scaled :=
    map (fun xy : R * R =>
           (Point.x pivot + sx * (fst xy - Point.x pivot),
            Point.y pivot + sy * (snd xy - Point.y pivot)))
        original in
  ret {| status := "ok";
         op := "scaling";
         payload := [("scaled", VList (map VPair scaled))];
         steps := [[Lit "Scaling about "; Obj (VPair (Point.as_tuple pivot));
                    Lit " with factors ("; Fmt "" sx; Lit ", "; Fmt "" sy; Lit ")"]];
         plot_elements :=
           [ points_element original "Original" [("color", VStr "#7f7f7f")];
             points_element scaled "Scaled" [("color", VStr "#2ca02c")] ];
         warnings := [] |}.

Definition apply_reflection (points : list Point.t) (line : Line.t)
    : result ComputationResult :=
  sym_line <- Line.as_sympy line ;;
  reflected <- mapM (fun point => reflect (Point.as_tuple point) sym_line) points ;;
  s0 <- Line.sample_points line ;;
  s1 <- Line.sample_points line ;;
  let plot :=
    [ line_element (fst s0, snd s1)
        [("label", VStr (or_else (Line.label line) "Mirror"))]
        [("color", VStr "#1f77b4"); ("dash", VStr "dash")] ]
    ++ [ points_element (map Point.as_tuple points) "Original" [("color", VStr "#d62728")] ]
    ++ [ points_element reflected "Reflected" [("color", VStr "#2ca02c")] ] in
  ret {| status := "ok";
         op := "reflection";
         payload := [("reflected", VList (map VPair reflected))];
         steps := [[Lit "Reflect each point across the mirror line"]];
         plot_elements := plot;
         warnings := [] |}.

(** With no points, [np.column_stack] gives an array of shape (0, 2)
    and the product with the 3x3 matrix is refused. *)
Definition apply_affine (matrix : list (list R)) (points : list Point.t)
    : result ComputationResult :=
  arr <- np_array matrix ;;
  match arr with
  | Array2D mat =>
      if negb (shape_eqb (shape mat) (3%nat, 3%nat)) then
        raise (ValueError "Affine transform requires 3x3 homogeneous matrix")
      else
        let original := map Point.as_tuple points in
        let homo_points :=
          match original with
          | [] => mkMatrix 0 2 []
          | _ :: _ =>
              mkMatrix (List.length original) 3
                       (map (fun xy : R * R => [fst xy; snd xy; 1]) original)
          end in
        transformed <- transform_rows mat homo_points ;;
        transformed_cartesian <-
          mapM (fun row =>
                  u <- np_div (nth 0 row 0) (nth 2 row 0) ;;
                  v <- np_div (nth 1 row 0) (nth 2 row 0) ;;
                  ret (u, v))
               (rows transformed) ;;
        ret {| status := "ok";
               op := "affine_transform";
               payload := [("transformed", VList (map VPair transformed_cartesian))];
               steps := [[Lit "Apply homogeneous matrix to points"]];
               plot_elements :=
                 [ points_element original "Original" [("color", VStr "#7f7f7f")];
                   points_element transformed_cartesian "Affine"
                     [("color", VStr "#9467bd")] ];
               warnings := [] |}
  | Array1D => raise (ValueError "Affine transform requires 3x3 homogeneous matrix")
  end.

(** ** locus.py *)

Definition perpendicular_bisector (a b : Point.t) : result ComputationResult :=
  let midpoint_x := (Point.x a + Point.x b) / 2 in
  let midpoint_y := (Point.y a + Point.y b) / 2 in
  let direction := (- (Point.y b - Point.y a), Point.x b - Point.x a) in
  line <- Line.from_general (fst direction) (snd direction)
            (- (fst direction * midpoint_x + snd direction * midpoint_y))
            (Some "perp_bisector") ;;
  s0 <- Line.sample_points line ;;
  s1 <- Line.sample_points line ;;
  ret {| status := "ok";
         op := "perpendicular_bisector";
         payload := [("line", VDict (Line.display line))];
         steps := [[Lit "Find midpoint and slope perpendicular to segment"]];
         plot_elements :=
           [ {| type := "segment";
                data := [("from", VPair (Point.as_tuple a));
                         ("to", VPair (Point.as_tuple b))];
                style := [("color", VStr "#7f7f7f")] |};
             line_element (fst s0, snd s1) [("label", VStr "bisector")]
               [("color", VStr "#1f77b4"); ("dash", VStr "dash")] ];
         warnings := [] |}.

(** Past the guard [m] and [m + n] are positive. *)
Definition apollonius_circle (point_a point_b : Point.t) (ratio : R * R)
    : result ComputationResult :=
  let '(m, n) := ratio in
  if Rle_b m 0 || Rle_b n 0 then
    ret {| status := "error";
           op := "apollonius_circle";
           payload := [("message", VStr "Ratio parts must be positive")];
           steps := [];
           plot_elements := [];
           warnings := [] |}
  else
    let '(ax, ay) := Point.as_tuple point_a in
    let '(bx, by_) := Point.as_tuple point_b in
    let center_x := (m * bx + n * ax) / (m + n) in
    let center_y := (m * by_ + n * ay) / (m + n) in
    let radius :=
      Rabs (m * n) / (m + n)
      * norm2 (Point.as_tuple point_b) (Point.as_tuple point_a) / m in
    let circle_center := Point.mk center_x center_y (Some "C") in
    ret {| status := "ok";
           op := "apollonius_circle";
           payload := [("center", VPair (Point.as_tuple circle_center));
                       ("radius", VNum radius)];
           steps := [[Lit "Use Apollonius ratio formula for center and radius"]];
           plot_elements :=
             [ {| type := "circle";
                  data := [("center", VPair (Point.as_tuple circle_center));
                           ("radius", VNum radius)];
                  style := [("line", VDict [("color", VStr "#ff7f0e")])] |};
               {| type := "point";
                  data := [("coords", VPair (Point.as_tuple point_a));
                           ("label", VStr (or_else (Point.label point_a) "A"))];
                  style := [("color", VStr "#d62728")] |};
               {| type := "point";
                  data := [("coords", VPair (Point.as_tuple point_b));
                           ("label", VStr (or_else (Point.label point_b) "B"))];
                  style := [("color", VStr "#2ca02c")] |} ];
           warnings := [] |}.

(** The pairs [(pts[0], pts[1]), (pts[2], pts[3]), ...]; a last point
    without a partner is dropped. *)
Fixpoint pairs (pts : list Point.t) : list (Point.t * Point.t) :=
  match pts with
  | a :: b :: rest => (a, b) :: pairs rest
  | _ => []
  end.

Definition locus_midpoints (points : list Point.t) : result ComputationResult :=
  let pts := points in
  let midpoints :=
    map (fun ab : Point.t * Point.t =>
           ((Point.x (fst ab) + Point.x (snd ab)) / 2,
            (Point.y (fst ab) + Point.y (snd ab)) / 2))
        (pairs pts) in
  let segments :=
    map (fun ab : Point.t * Point.t =>
           (Point.as_tuple (fst ab), Point.as_tuple (snd ab)))
        (pairs pts) in
  let plot :=
    [ points_element midpoints "Midpoints" [("color", VStr "#9467bd")] ]
    ++ map (fun seg : (R * R) * (R * R) =>
              {| type := "segment";
                 data := [("from", VPair (fst seg)); ("to", VPair (snd seg))];
                 style := [("color", VStr "#7f7f7f"); ("dash", VStr "dot")] |})
           segments in
  ret {| status := "ok";
         op := "locus_midpoints";
         payload := [("midpoints", VList (map VPair midpoints))];
         steps := [[Lit "Compute midpoints for each given segment"]];
         plot_elements := plot;
         warnings := [] |}.

(** ** trig.py *)

Definition _FUNCTIONS (name : string) : option (R -> R) :=
  if String.eqb name "sin" then Some sin
  else if String.eqb name "cos" then Some cos
  else if String.eqb name "tan" then Some tan
  else if String.eqb name "cot" then Some (fun x => 1 / tan x)
  else if String.eqb name "sec" then Some (fun x => 1 / cos x)
  else if String.eqb name "csc" then Some (fun x => 1 / sin x)
  else None.

Definition zip_points (xs ys : list R) : Value :=
  VList (zip_with (fun x y => VPair (x, y)) xs ys).

Definition plot_basic_trig (func : string) (domain : R * R) (resolution : nat)
    : result ComputationResult :=
  match _FUNCTIONS func with
  | None =>
      ret {| status := "error";
             op := "plot_trig";
             payload := [("message", VStr ("Unknown function " ++ func)%string)];
             steps := [];
             plot_elements := [];
             warnings := [] |}
  | Some f =>
      let xs := linspace (fst domain) (snd domain) resolution in
      let ys := map f xs in
      ret {| status := "ok";
             op := "plot_trig";
             payload := [("function", VStr func); ("domain", VPair domain)];
             steps := [[Lit "Plot y = "; Str func; Lit "(x) over domain ";
                        Obj (VPair domain)]];
             plot_elements :=
               [ {| type := "curve";
                    data := [("points", zip_points xs ys); ("label", VStr func)];
                    style := [("color", VStr "#1f77b4")] |} ];
             warnings := [] |}
  end.

Definition transform_trig (amplitude frequency phase vertical : R) (base : string)
    (domain : R * R) (resolution : nat) : result ComputationResult :=
  match _FUNCTIONS base with
  | None =>
      ret {| status := "error";
             op := "transform_trig";
             payload := [("message", VStr ("Unknown base function " ++ base)%string)];
             steps := [];
             plot_elements := [];
             warnings := [] |}
  | Some f =>
      let xs := linspace (fst domain) (snd domain) resolution in
      let ys := map (fun x => amplitude * f (frequency * x + phase) + vertical) xs in
      ret {| status := "ok";
             op := "transform_trig";
             payload := [("amplitude", VNum amplitude);
                         ("frequency", VNum frequency);
                         ("phase", VNum phase);
                         ("vertical_shift", VNum vertical)];
             steps := [[Lit "Apply transformation y = "; Fmt ".3g" amplitude; Str base;
                        Lit "("; Fmt ".3g" frequency; Lit "x + "; Fmt ".3g" phase;
                        Lit ") + "; Fmt ".3g" vertical]];
             plot_elements :=
               [ {| type := "curve";
                    data := [("points", zip_points xs ys); ("label", VStr "Transformed")];
                    style := [("color", VStr "#ff7f0e")] |} ];
             warnings := [] |}
  end.

(** [max(xs)]; the empty sequence has no maximum. *)
Definition py_max (xs : list R) : result R :=
  match xs with
  | [] => raise (ValueError "max() arg is an empty sequence")
  | x :: rest => ret (fold_left Rmax rest x)
  end.

Definition verify_identity (lhs rhs : string) (samples : option (list R))
    : result ComputationResult :=
  lhs_expr <- sympify lhs ;;
  rhs_expr <- sympify rhs ;;
  let points :=
    match samples with
    | Some (v :: vs) => v :: vs
    | Some [] | None => linspace (-2 * PI) (2 * PI) 20
    end in
  differences <- mapM (difference_at lhs_expr rhs_expr) points ;;
  max_error <- py_max (map Rabs differences) ;;
  let tolerance := 1 / 10 ^ 6 in
  ret {| status := if Rlt_b max_error tolerance then "ok" else "warning";
         op := "verify_trig_identity";
         payload := [("max_error", VNum max_error)];
         steps := [[Lit "Max numerical error over samples: "; Fmt ".3g" max_error]];
         plot_elements := [];
         warnings := if Rle_b tolerance max_error then ["numerical_tolerance"] else [] |}.

Definition solve_trig_equation (expression : string) (domain : R * R)
    : result ComputationResult :=
  expr <- sympify expression ;;
  numeric <- solveset_in expr domain ;;
  ret {| status := "ok";
         op := "solve_trig_equation";
         payload := [("solutions", VList (map VNum numeric))];
         steps := [[Lit "Solve "; Str expression; Lit " = 0 over domain ";
                    Obj (VPair domain)]];
         plot_elements :=
           [ {| type := "points";
                data := [("coords", VList (map (fun x_val => VPair (x_val, 0)) numeric))];
                style := [("color", VStr "#2ca02c")] |} ];
         warnings := [] |}.

(** ** calculus.py *)

Record FunctionAnalyzer : Type := mkAnalyzer {
  expression : string;
  sympy_expr : SymExpr;
  derivative_expr : SymExpr;
  second_derivative_expr : SymExpr
}.

(** [FunctionAnalyzer(expression)] with its [__post_init__]. *)
Definition FunctionAnalyzer_new (expression : string) : result FunctionAnalyzer :=
  sympy_expr <- sympify expression ;;
  let derivative_expr := diff sympy_expr in
  let second_derivative_expr := diff derivative_expr in
  ret (mkAnalyzer expression sympy_expr derivative_expr second_derivative_expr).

Definition FunctionAnalyzer_plot (self : FunctionAnalyzer) (domain : R * R)
    (resolution : nat) (show_derivative : bool) : result ComputationResult :=
  let xs := linspace (fst domain) (snd domain) resolution in
  ys <- lambdify_array (sympy_expr self) xs ;;
  let plot :=
    [ {| type := "curve";
         data := [("points", zip_points xs ys); ("label", VStr "f(x)")];
         style := [("color", VStr "#1f77b4")] |} ] in
  let payload := [("domain", VPair domain)] in
  let steps := [[Lit "Plot f(x) = "; Str (expression self)]] in
  '(plot, payload, steps) <-
    (if show_derivative then
       dy <- lambdify_array (derivative_expr self) xs ;;
       ret (plot ++ [ {| type := "curve";
                         data := [("points", zip_points xs dy); ("label", VStr "f'(x)")];
                         style := [("color", VStr "#ff7f0e"); ("dash", VStr "dash")] |} ],
            payload ++ [("derivative", VStr (expr_str (derivative_expr self)))],
            steps ++ [[Lit "Overlay derivative curve"]])
     else ret (plot, payload, steps)) ;;
  ret {| status := "ok";
         op := "plot_function";
         payload := payload;
         steps := steps;
         plot_elements := plot;
         warnings := [] |}.

Definition derivative_at (self : FunctionAnalyzer) (x0 : R) : result ComputationResult :=
  slope <- lambdify (derivative_expr self) x0 ;;
  y0 <- lambdify (sympy_expr self) x0 ;;
  let tangent_points := ((x0 - 1, y0 - slope), (x0 + 1, y0 + slope)) in
  ret {| status := "ok";
         op := "tangent_line";
         payload := [("slope", VNum slope); ("point", VPair (x0, y0))];
         steps := [[Lit "f'("; Fmt ".3g" x0; Lit ") = "; Fmt ".6g" slope];
                   [Lit "Tangent line: y - "; Fmt ".6g" y0; Lit " = "; Fmt ".6g" slope;
                    Lit "(x - "; Fmt ".6g" x0; Lit ")"]];
         plot_elements :=
           [ {| type := "point";
                data := [("coords", VPair (x0, y0)); ("label", VStr "P")];
                style := [("color", VStr "#d62728"); ("size", VNum 12)] |};
             {| type := "line";
                data := [("from", VPair (fst tangent_points));
                         ("to", VPair (snd tangent_points));
                         ("label", VStr "Tangent")];
                style := [("color", VStr "#ff7f0e"); ("dash", VStr "dash")] |} ];
         warnings := [] |}.

Definition definite_integral (self : FunctionAnalyzer) (start end_ : R)
    : result ComputationResult :=
  value <- integral (sympy_expr self) start end_ ;;
  let xs := linspace start end_ 200 in
  ys <- lambdify_array (sympy_expr self) xs ;;
  let area_points := zip_points xs ys in
  ret {| status := "ok";
         op := "definite_integral";
         payload := [("integral", VNum value)];
         steps := [[Lit "∫_{"; Fmt ".3g" start; Lit "}^{"; Fmt ".3g" end_;
                    Lit "} f(x) dx = "; Fmt ".6g" value]];
         plot_elements :=
           [ {| type := "area";
                data := [("points", area_points); ("baseline", VNum 0)];
                style := [("color", VStr "rgba(31,119,180,0.3)")] |} ];
         warnings := [] |}.

Definition critical_points (self : FunctionAnalyzer) : result ComputationResult :=
  roots <- solveset_roots (derivative_expr self) ;;
  found <-
    mapM (fun root =>
            if is_real root then
              double_prime <- subs_at_root (second_derivative_expr self) root ;;
              let classification :=
                if Rlt_b 0 double_prime then "min"
                else if Rlt_b double_prime 0 then "max" else "saddle" in
              x <- root_value root ;;
              y <- numeric_at_root (sympy_expr self) root ;;
              ret [(x, y, classification)]
            else ret [])
         roots ;;
  let candidates := List.concat found in
  ret {| status := "ok";
         op := "critical_points";
         payload :=
           [("points",
             VList (map (fun cand : R * R * string =>
                           let '(x, y, classification) := cand in
                           VDict [("x", VNum x); ("y", VNum y);
                                  ("classification", VStr classification)])
                        candidates))];
         steps := [[Lit "Solve f'(x) = 0 and use second derivative test"]];
         plot_elements :=
           [ {| type := "points";
                data := [("coords",
                          VList (map (fun cand : R * R * string =>
                                        VPair (fst (fst cand), snd (fst cand)))
                                     candidates));
                         ("labels",
                          VList (map (fun cand : R * R * string => VStr (snd cand))
                                     candidates))];
                style := [("color", VStr "#2ca02c"); ("size", VNum 12)] |} ];
         warnings := [] |}.

Definition taylor_polynomial (self : FunctionAnalyzer) (order : nat) (about : R)
    : result ComputationResult :=
  series_ <- series (sympy_expr self) about (order + 1) ;;
  let xs := linspace (about - 5) (about + 5) 400 in
  ys_original <- lambdify_array (sympy_expr self) xs ;;
  ys_series <- lambdify_array series_ xs ;;
  ret {| status := "ok";
         op := "taylor_polynomial";
         payload := [("series", VStr (expr_str series_))];
         steps := [[Lit "Taylor polynomial up to order "; Str (str_nat order);
                    Lit " around "; Fmt "" about]];
         plot_elements :=
           [ {| type := "curve";
                data := [("points", zip_points xs ys_original); ("label", VStr "f(x)")];
                style := [("color", VStr "#1f77b4")] |};
             {| type := "curve";
                data := [("points", zip_points xs ys_series);
                         ("label", VStr ("Taylor order " ++ str_nat order)%string)];
                style := [("color", VStr "#ff7f0e"); ("dash", VStr "dot")] |} ];
         warnings := [] |}.

(** ** The operations of the engine

    Every function of [geographer.core] that returns a
    [ComputationResult], with its arguments; the methods of
    [FunctionAnalyzer] come with the expression the analyzer is built
    from. *)

Inductive operation : Type :=
| op_distance (point_a point_b : Point.t)
| op_midpoint (point_a point_b : Point.t)
| op_section_point (point_a point_b : Point.t) (ratio : R * R) (external : bool)
| op_parametric_point (point_a point_b : Point.t) (t : R)
| op_line_from_points (p1 p2 : Point.t)
| op_intersection (line1 line2 : Line.t)
| op_angle_between_lines (line1 line2 : Line.t)
| op_distance_from_point (line : Line.t) (point : Point.t)
| op_foot_of_perpendicular (line : Line.t) (point : Point.t)
| op_angle_bisectors (line1 line2 : Line.t)
| op_circle_summary (circle : Circle.t)
| op_line_circle_intersection (circle : Circle.t) (line : Line.t)
| op_circle_circle_intersection (circle1 circle2 : Circle.t)
| op_tangents_from_external_point (circle : Circle.t) (point : Point.t)
| op_radical_axis (circle1 circle2 : Circle.t)
| op_parabola_y2_4ax (a : R)
| op_parabola_x2_4ay (a : R)
| op_ellipse_standard (a b : R)
| op_hyperbola_standard (a b : R)
| op_classify_general_quadratic (A B C D E F : R)
| op_line_conic_intersection (line : Line.t) (coeffs : list (string * R))
| op_triangle_summary (triangle : TriangleMetrics.t)
| op_matrix_addition (a b : list (list R))
| op_matrix_multiplication (a b : list (list R))
| op_matrix_determinant (matrix : list (list R))
| op_matrix_inverse (matrix : list (list R))
| op_eigen_analysis (matrix : list (list R))
| op_matrix_transform (matrix : list (list R)) (shape_ : string)
| op_apply_translation (points : list Point.t) (dx dy : R)
| op_apply_rotation (points : list Point.t) (angle_degrees : R) (pivot : option Point.t)
| op_apply_scaling (points : list Point.t) (sx sy : R) (pivot : option Point.t)
| op_apply_reflection (points : list Point.t) (line : Line.t)
| op_apply_affine (matrix : list (list R)) (points : list Point.t)
| op_perpendicular_bisector (a b : Point.t)
| op_apollonius_circle (point_a point_b : Point.t) (ratio : R * R)
| op_locus_midpoints (points : list Point.t)
| op_plot_basic_trig (func : string) (domain : R * R) (resolution : nat)
| op_transform_trig (amplitude frequency phase vertical : R) (base : string)
    (domain : R * R) (resolution : nat)
| op_verify_identity (lhs rhs : string) (samples : option (list R))
| op_solve_trig_equation (expression : string) (domain : R * R)
| op_analyzer_plot (expression : string) (domain : R * R) (resolution : nat)
    (show_derivative : bool)
| op_derivative_at (expression : string) (x0 : R)
| op_definite_integral (expression : string) (start end_ : R)
| op_critical_points (expression : string)
| op_taylor_polynomial (expression : string) (order : nat) (about : R).

Definition run (o : operation) : result ComputationResult :=
  match o with
  | op_distance point_a point_b => distance point_a point_b
  | op_midpoint point_a point_b => midpoint point_a point_b
  | op_section_point point_a point_b ratio external =>
      section_point point_a point_b ratio external
  | op_parametric_point point_a point_b t => parametric_point point_a point_b t
  | op_line_from_points p1 p2 => line_from_points p1 p2
  | op_intersection line1 line2 => intersection line1 line2
  | op_angle_between_lines line1 line2 => angle_between_lines line1 line2
  | op_distance_from_point line point => distance_from_point line point
  | op_foot_of_perpendicular line point => foot_of_perpendicular line point
  | op_angle_bisectors line1 line2 => angle_bisectors line1 line2
  | op_circle_summary circle => Circle_summary circle
  | op_line_circle_intersection circle line => line_circle_intersection circle line
  | op_circle_circle_intersection circle1 circle2 =>
      circle_circle_intersection circle1 circle2
  | op_tangents_from_external_point circle point =>
      tangents_from_external_point circle point
  | op_radical_axis circle1 circle2 => radical_axis circle1 circle2
  | op_parabola_y2_4ax a => parabola_y2_4ax a
  | op_parabola_x2_4ay a => parabola_x2_4ay a
  | op_ellipse_standard a b => ellipse_standard a b
  | op_hyperbola_standard a b => hyperbola_standard a b
  | op_classify_general_quadratic A B C D E F => classify_general_quadratic A B C D E F
  | op_line_conic_intersection line coeffs => line_conic_intersection line coeffs
  | op_triangle_summary triangle => summary triangle
  | op_matrix_addition a b => matrix_addition a b
  | op_matrix_multiplication a b => matrix_multiplication a b
  | op_matrix_determinant matrix => matrix_determinant matrix
  | op_matrix_inverse matrix => matrix_inverse matrix
  | op_eigen_analysis matrix => eigen_analysis matrix
  | op_matrix_transform matrix shape_ => matrix_transform matrix shape_
  | op_apply_translation points dx dy => apply_translation points dx dy
  | op_apply_rotation points angle_degrees pivot =>
      apply_rotation points angle_degrees pivot
  | op_apply_scaling points sx sy pivot => apply_scaling points sx sy pivot
  | op_apply_reflection points line => apply_reflection points line
  | op_apply_affine matrix points => apply_affine matrix points
  | op_perpendicular_bisector a b => perpendicular_bisector a b
  | op_apollonius_circle point_a point_b ratio => apollonius_circle point_a point_b ratio
  | op_locus_midpoints points => locus_midpoints points
  | op_plot_basic_trig func domain resolution => plot_basic_trig func domain resolution
  | op_transform_trig amplitude frequency phase vertical base domain resolution =>
      transform_trig amplitude frequency phase vertical base domain resolution
  | op_verify_identity lhs rhs samples => verify_identity lhs rhs samples
  | op_solve_trig_equation expression domain => solve_trig_equation expression domain
  | op_analyzer_plot expression domain resolution show_derivative =>
      self <- FunctionAnalyzer_new expression ;;
      FunctionAnalyzer_plot self domain resolution show_derivative
  | op_derivative_at expression x0 =>
      self <- FunctionAnalyzer_new expression ;;
      derivative_at self x0
  | op_definite_integral expression start end_ =>
      self <- FunctionAnalyzer_new expression ;;
      definite_integral self start end_
  | op_critical_points expression =>
      self <- FunctionAnalyzer_new expression ;;
      critical_points self
  | op_taylor_polynomial expression order about =>
      self <- FunctionAnalyzer_new expression ;;
      taylor_polynomial self order about
  end.

End Engine.

(** ** A solver that answers nothing

    Every call into SymPy raises; the operations that stay inside the
    engine do not notice.  For NumPy's determinant and inverse this
    solver takes the exact ones (adjugate over determinant, and
    [LinAlgError] for determinant 0). *)

Definition unavailable {A : Type} : result A :=
  raise (TypeError "symbolic solver unavailable").

Definition exact_det (rws : list (list R)) : R := det_rec (List.length rws) rws.

Definition exact_inv (rws : list (list R)) : result (list (list R)) :=
  let d := exact_det rws in
  let n := List.length rws in
  if Req_b d 0 then raise (LinAlgError "Singular matrix")
  else
    ret (map (fun i =>
                map (fun j => (-1) ^ (i + j) * det_rec (n - 1) (minor j i rws) / d)
                    (seq 0 n))
             (seq 0 n)).

Definition no_solver : Solver :=
  {| SymCircle := unit;
     Circle_new := fun _ _ => unavailable;
     Circle_of_three := fun _ _ _ => unavailable;
     sym_center := fun _ => unavailable;
     sym_radius := fun _ => unavailable;
     circle_intersection_line := fun _ _ => unavailable;
     circle_intersection_circle := fun _ _ => unavailable;
     tangent_lines := fun _ _ => unavailable;
     sym_radical_axis := fun _ _ => unavailable;
     SymTriangle := unit;
     Triangle_new := fun _ _ _ => unavailable;
     polygon_area := fun _ _ _ => unavailable;
     circumcenter_of := fun _ => unavailable;
     incenter_of := fun _ => unavailable;
     orthocenter_of := fun _ => unavailable;
     circumradius_of := fun _ => unavailable;
     inradius_of := fun _ => unavailable;
     SymExpr := unit;
     solve_line := fun _ _ => unavailable;
     conic_points := fun _ _ _ => unavailable;
     reflect := fun _ _ => unavailable;
     eigenvects := fun _ => unavailable;
     sympify := fun _ => unavailable;
     expr_str := fun _ => "";
     difference_at := fun _ _ _ => unavailable;
     solveset_in := fun _ _ => unavailable;
     diff := fun e => e;
     lambdify := fun _ _ => unavailable;
     lambdify_array := fun _ _ => unavailable;
     integral := fun _ _ _ => unavailable;
     SymRoot := unit;
     solveset_roots := fun _ => unavailable;
     is_real := fun _ => false;
     subs_at_root := fun _ _ => unavailable;
     root_value := fun _ => unavailable;
     numeric_at_root := fun _ _ => unavailable;
     series := fun _ _ _ => unavailable;
     np_linalg_det := exact_det;
     np_linalg_inv := exact_inv |}.

Definition no_format (v : R) (spec : string) : string := "".

(** ** Test data and payload accessors *)

(** The coordinates under [payload["point"]] of a point payload. *)
Definition payload_point_xy (r : ComputationResult) : option (R * R) :=
  match get (payload r) "point" with
  | Some (VDict d) =>
      match get d "x", get d "y" with
      | Some (VNum x), Some (VNum y) => Some (x, y)
      | _, _ => None
      end
  | _ => None
  end.

Definition origin : Point.t := Point.mk 0 0 None.
Definition four_zero : Point.t := Point.mk 4 0 None.
Definition two_two : Point.t := Point.mk 2 2 None.

(** [payload[k]] as a number. *)
Definition payload_num (r : ComputationResult) (k : string) : option R :=
  match get (payload r) k with
  | Some (VNum v) => Some v
  | _ => None
  end.

(** [payload[k][k']] as a number. *)
Definition payload_num_in (r : ComputationResult) (k k' : string) : option R :=
  match get (payload r) k with
  | Some (VDict d) =>
      match get d k' with
      | Some (VNum v) => Some v
      | _ => None
      end
  | _ => None
  end.

(** The result of [intersection] when SymPy finds no point. *)
Definition parallel_lines_warning : ComputationResult :=
  {| status := "warning";
     op := "intersection";
     payload := [("message", VStr "Lines are parallel or coincident")];
     steps := [[Lit "No unique intersection found."]];
     plot_elements := [];
     warnings := ["parallel_lines"] |}.

(** The line is not vertical for the engine: [slope] is a number. *)
Definition has_slope (l : Line.t) : Prop := EPS < Rabs (Line.B l).

(** The invariant of a line: [A] and [B] are not both within [EPS] of 0. *)
Definition valid_line (l : Line.t) : Prop :=
  EPS < Rabs (Line.A l) \/ EPS < Rabs (Line.B l).

(** The angle C5 expects for two lines. *)
Definition expected_angle (l1 l2 : Line.t) : R :=
  match Line.slope l1, Line.slope l2 with
  | None, None => 0
  | None, Some _ | Some _, None => 90
  | Some m1, Some m2 => degrees (atan (Rabs ((m2 - m1) / (1 + m1 * m2))))
  end.



(** The result of [matrix_addition] on matrices of different shapes. *)
Definition shape_mismatch_error : ComputationResult :=
  {| status := "error";
     op := "matrix_addition";
     payload := [("message", VStr "Matrices must share the same shape")];
     steps := [];
     plot_elements := [];
     warnings := [] |}.

(** ** Vocabulary of the further properties *)

(** [payload[k]] as a coordinate pair (a tuple of two numbers). *)
Definition payload_pair (r : ComputationResult) (k : string) : option (R * R) :=
  match get (payload r) k with
  | Some (VTuple [VNum x; VNum y]) => Some (x, y)
  | _ => None
  end.

(** [payload[k]] as the pair [(payload[k]["x"], payload[k]["y"])]. *)
Definition payload_xy (r : ComputationResult) (k : string) : option (R * R) :=
  match get (payload r) k with
  | Some (VDict d) =>
      match get d "x", get d "y" with
      | Some (VNum x), Some (VNum y) => Some (x, y)
      | _, _ => None
      end
  | _ => None
  end.

(** The point [(x, y)] satisfies [A*x + B*y + C = 0]. *)
Definition on_line (l : Line.t) (p : R * R) : Prop :=
  Line.A l * fst p + Line.B l * snd p + Line.C l = 0.

(** The [n]x[n] identity matrix as a list of rows. *)
Definition identity (n : nat) : list (list R) :=
  map (fun i => map (fun j => if Nat.eqb i j then 1 else 0) (seq 0 n)) (seq 0 n).

(** The homogeneous matrix of the translation by [(dx, dy)]. *)
Definition translation_matrix (dx dy : R) : list (list R) :=
  [[1; 0; dx]; [0; 1; dy]; [0; 0; 1]].

(** [d[k]] as a boolean. *)
Definition get_bool (d : dict) (k : string) : option bool :=
  match get d k with
  | Some (VBool b) => Some b
  | _ => None
  end.

(** The homogeneous coordinates [[x, y, 1]] of a point, and the
    product of a matrix row with a column. *)
Definition homogeneous (xy : R * R) : list R := [fst xy; snd xy; 1].

Definition dot (row col : list R) : R := rsum (zip_with Rmult row col).

(** [payload[k]] as a line, from its entries ["A"], ["B"] and ["C"]. *)
Definition payload_line (r : ComputationResult) (k : string) : option Line.t :=
  match payload_num_in r k "A", payload_num_in r k "B", payload_num_in r k "C" with
  | Some A, Some B, Some C => Some (Line.mk A B C None)
  | _, _, _ => None
  end.

(** The end points of the line that the [i]-th plot element draws. *)
Definition plotted_line (r : ComputationResult) (i : nat)
    : option ((R * R) * (R * R)) :=
  match nth_error (plot_elements r) i with
  | Some e =>
      match get (data e) "from", get (data e) "to" with
      | Some (VTuple [VNum x1; VNum y1]), Some (VTuple [VNum x2; VNum y2]) =>
          Some ((x1, y1), (x2, y2))
      | _, _ => None
      end
  | None => None
  end.

(** * The engine in double precision

    Python's [float] is IEEE 754 binary64, the kernel's primitive type
    [float]: [+], [-], [*], [/] and [sqrt] round to nearest, ties to
    even, overflow gives an infinity, and [=?] is the equality of IEEE
    ([0 =? -0], and a NaN equals nothing).  A decimal literal stands for
    the nearest double, as in Python.  Where a property depends on
    rounding or on overflow, the functions it is about are transcribed
    a second time, over doubles.  A [Point] holds two Python floats
    (ints are not modelled). *)

Module Double.

Local Open Scope float_scope.

Inductive Value : Type :=
| VNone
| VInt (n : Z)
| VNum (v : float)
| VStr (s : string)
| VTuple (items : list Value)
| VDict (entries : list (string * Value)).

Definition dict : Type := list (string * Value).

Definition VPair (p : float * float) : Value := VTuple [VNum (fst p); VNum (snd p)].

Record PlotElement : Type := mkPlotElement {
  type : string;
  data : dict;
  style : dict
}.

Inductive Frag : Type :=
| Lit (s : string)
| Fmt (spec : string) (v : float).

Definition fstring : Type := list Frag.

Record ComputationResult : Type := mkResult {
  status : string;
  op : string;
  payload : dict;
  steps : list fstring;
  plot_elements : list PlotElement;
  warnings : list string
}.

(** ** points.py *)

Module Point.

Record t : Type := mk {
  x : float;
  y : float;
  label : option string
}.

(** [float(self.x)] is [self.x] on a float. *)
Definition as_tuple (self : t) : float * float := (x self, y self).

End Point.

Definition _point_payload (point : Point.t) : dict :=
  [("x", VNum (Point.x point)); ("y", VNum (Point.y point))]
  ++ (if truthy (Point.label point)
      then [("label", VStr (or_else (Point.label point) ""))] else []).

Definition _point_element (point : Point.t) (color : string) : PlotElement :=
  {| type := "point";
     data := [("coords", VPair (Point.as_tuple point))]
             ++ (if truthy (Point.label point)
                 then [("label", VStr (or_else (Point.label point) ""))] else []);
     style := [("color", VStr color); ("size", VInt 10)] |}.

Section Libm.

(** C's [pow], from the platform's mathematical library. *)
Variable libm_pow : float -> float -> float.

(** [iv ** 2] on a float, after [float_pow] of CPython
    ([Objects/floatobject.c]): a NaN is returned as it is, an infinity
    gives [inf], a zero gives [0.0]; otherwise [pow] is called on
    [|iv|], except for [|iv| = 1], and an infinite result raises
    [OverflowError]. *)
Definition float_pow2 (iv : float) : result float :=
  if is_nan iv then ret iv
  else if is_infinity iv then ret infinity
  else if iv =? 0 then ret 0
  else
    let iv := abs iv in
    if iv =? 1 then ret 1
    else
      let ix := libm_pow iv 2 in
      if is_infinity ix then raise OverflowError else ret ix.

Definition distance (point_a point_b : Point.t) : result ComputationResult :=
  let '(ax, ay) := Point.as_tuple point_a in
  let '(bx, by_) := Point.as_tuple point_b in
  let dx := bx - ax in
  let dy := by_ - ay in
  dx2 <- float_pow2 dx ;;
  dy2 <- float_pow2 dy ;;
  let squared := dx2 + dy2 in
  let dist := PrimFloat.sqrt squared in
  ret {| status := "ok";
         op := "distance";
         payload := [("distance", VNum dist)];
         steps := [[Lit "d = \sqrt{("; Fmt ".3g" bx; Lit "-"; Fmt ".3g" ax;
                    Lit ")^2 + ("; Fmt ".3g" by_; Lit "-"; Fmt ".3g" ay;
                    Lit ")^2} = "; Fmt ".6g" dist]];
         plot_elements :=
           [ _point_element point_a "#d62728";
             _point_element point_b "#2ca02c";
             {| type := "segment";
                data := [("from", VPair (Point.as_tuple point_a));
                         ("to", VPair (Point.as_tuple point_b))];
                style := [("color", VStr "#9467bd"); ("width", VInt 3)] |} ];
         warnings := [] |}.

End Libm.

Definition midpoint (point_a point_b : Point.t) : result ComputationResult :=
  let mx := (Point.x point_a + Point.x point_b) / 2 in
  let my := (Point.y point_a + Point.y point_b) / 2 in
  let mid := Point.mk mx my (Some "M") in
  ret {| status := "ok";
         op := "midpoint";
         payload := [("midpoint", VDict (_point_payload mid))];
         steps := [[Lit "M_x = \frac{"; Fmt ".3g" (Point.x point_a); Lit " + ";
                    Fmt ".3g" (Point.x point_b); Lit "}{2} = "; Fmt ".6g" mx];
                   [Lit "M_y = \frac{"; Fmt ".3g" (Point.y point_a); Lit " + ";
                    Fmt ".3g" (Point.y point_b); Lit "}{2} = "; Fmt ".6g" my]];
         plot_elements :=
           [ _point_element point_a "#d62728";
             _point_element point_b "#2ca02c";
             {| type := "segment";
                data := [("from", VPair (Point.as_tuple point_a));
                         ("to", VPair (Point.as_tuple point_b))];
                style := [("color", VStr "#7f7f7f"); ("width", VInt 1);
                          ("dash", VStr "dash")] |};
             _point_element mid "#1f77b4" ];
         warnings := [] |}.

(** ** lines.py *)

Module Line.

Record t : Type := mk {
  A : float;
  B : float;
  C : float;
  label : option string
}.

(** The tuples of coordinates are compared item by item with [==]
    (an item that is the same object counts as equal, which differs
    from [==] for a NaN only). *)
Definition from_points (p1 p2 : Point.t) (label : option string) : result t :=
  let '(x1, y1) := Point.as_tuple p1 in
  let '(x2, y2) := Point.as_tuple p2 in
  if (x1 =? x2) && (y1 =? y2) then
    raise (ValueError "Cannot define a line with two identical points")
  else
    let A := y1 - y2 in
    let B := x2 - x1 in
    let C := x1 * y2 - x2 * y1 in
    ret (mk A B C label).

End Line.

(** ** The number a double stands for *)

(** The rational number [(-1)^s * m * 2^e] of a finite double; 0 for
    the zeros (and, by convention, for what is not finite). *)
Definition value (f : float) : Q :=
  match Prim2SF f with
  | S754_finite s m e => (inject_Z (if s then Zneg m else Zpos m) * 2 ^ e)%Q
  | _ => 0%Q
  end.

(** The divisor 2 of [midpoint], [2^52 * 2^-51], as the specification
    of the operations has it. *)
Definition SFtwo : spec_float := S754_finite false 4503599627370496 (-51).

(** The double [f] is finite and stands for the rational [q]: an
    operation whose result is [f] and whose exact result is [q] was
    carried out without rounding. *)
Definition exactly (f : float) (q : Q) : Prop :=
  is_finite f = true /\ (value f == q)%Q.

(** The residual [A*x + B*y + C] of a point in a line, evaluated as
    the code would ([residual]) and on the numbers the doubles stand
    for ([exact_residual]). *)
Definition residual (l : Line.t) (p : float * float) : float :=
  Line.A l * fst p + Line.B l * snd p + Line.C l.

Definition exact_residual (l : Line.t) (p : float * float) : Q :=
  (value (Line.A l) * value (fst p) + value (Line.B l) * value (snd p)
   + value (Line.C l))%Q.

(** The arithmetic of [Line.from_points] on two points incurs no
    rounding: the differences, the products and the difference of the
    products are finite doubles that stand for the exact results. *)
Definition exact_coefficients (p1 p2 : Point.t) : Prop :=
  let '(x1, y1) := Point.as_tuple p1 in
  let '(x2, y2) := Point.as_tuple p2 in
  exactly (y1 - y2) (value y1 - value y2) /\
  exactly (x2 - x1) (value x2 - value x1) /\
  exactly (x1 * y2) (value x1 * value y2) /\
  exactly (x2 * y1) (value x2 * value y1) /\
  exactly (x1 * y2 - x2 * y1) (value (x1 * y2) - value (x2 * y1)).

(** The coordinates under [payload["midpoint"]]. *)
Definition payload_midpoint (r : ComputationResult) : option (float * float) :=
  match payload r with
  | [("midpoint", VDict (("x", VNum mx) :: ("y", VNum my) :: _))] => Some (mx, my)
  | _ => None
  end.

(** ** Test data *)

(** A [pow] for the witnesses: on the exponent 2 the rounded square. *)
Definition square_pow (iv iw : float) : float := iv * iv.

Definition huge : Point.t := Point.mk 1e308 (-1e308) None.

Definition p_01_02 : Point.t := Point.mk 0.1 0.2 None.
Definition p_03_07 : Point.t := Point.mk 0.3 0.7 None.
Definition p_1_2 : Point.t := Point.mk 1 2 None.
Definition p_3_5 : Point.t := Point.mk 3 5 None.
Definition p_01_m25 : Point.t := Point.mk 0.1 (-2.5) None.

End Double.

(** * Properties of the engine *)

(** ** Evaluating the comparisons *)

Lemma Req_b_true (a b : R) : a = b -> Req_b a b = true.
Proof. intros H; unfold Req_b; destruct (Req_dec_T a b); [reflexivity | contradiction]. Qed.

Lemma Req_b_false (a b : R) : a <> b -> Req_b a b = false.
Proof. intros H; unfold Req_b; destruct (Req_dec_T a b); [contradiction | reflexivity]. Qed.

Lemma Rle_b_true (a b : R) : a <= b -> Rle_b a b = true.
Proof. intros H; unfold Rle_b; destruct (Rle_dec a b); [reflexivity | contradiction]. Qed.

Lemma Rle_b_false (a b : R) : b < a -> Rle_b a b = false.
Proof. intros H; unfold Rle_b; destruct (Rle_dec a b); [lra | reflexivity]. Qed.

Lemma Rlt_b_true (a b : R) : a < b -> Rlt_b a b = true.
Proof. intros H; unfold Rlt_b; destruct (Rlt_dec a b); [reflexivity | contradiction]. Qed.

Lemma Rlt_b_false (a b : R) : b <= a -> Rlt_b a b = false.
Proof. intros H; unfold Rlt_b; destruct (Rlt_dec a b); [lra | reflexivity]. Qed.

Lemma Req_b_spec (a b : R) : Req_b a b = true <-> a = b.
Proof.
  unfold Req_b; destruct (Req_dec_T a b); split; intros; try discriminate; tauto.
Qed.

Lemma Rle_b_spec (a b : R) : Rle_b a b = true <-> a <= b.
Proof.
  unfold Rle_b; destruct (Rle_dec a b); split; intros; try discriminate; tauto.
Qed.

Lemma Rlt_b_spec (a b : R) : Rlt_b a b = true <-> a < b.
Proof.
  unfold Rlt_b; destruct (Rlt_dec a b); split; intros; try discriminate; tauto.
Qed.

Lemma EPS_pos : 0 < EPS.
Proof. unfold EPS. apply Rdiv_lt_0_compat; [lra | apply pow_lt; lra]. Qed.

Lemma py_div_ok (a b : R) : b <> 0 -> py_div a b = ret (a / b).
Proof. intros H; unfold py_div; now rewrite Req_b_false. Qed.

Lemma py_div_zero (a b : R) : b = 0 -> py_div a b = raise ZeroDivisionError.
Proof. intros H; unfold py_div; now rewrite Req_b_true. Qed.

(** ** points.py *)

(** C1, as amended: [section_point(Point(0,0), Point(4,0), ratio=(1,3))]
    with [external=False] returns status "ok" and the payload point
    (3, 0): the code weighs A by m and B by n, [(m*A + n*B) / (m + n)]. *)
Theorem section_point_internal_1_3 :
  exists r,
    section_point origin four_zero (1, 3) false = ret r /\
    status r = "ok" /\
    payload r = [("point", VDict [("x", VNum 3); ("y", VNum 0); ("label", VStr "P")])].
Proof.
  unfold section_point, origin, four_zero; simpl.
  rewrite !py_div_ok by lra. simpl.
  eexists; split; [reflexivity | split; [reflexivity |]].
  unfold _point_payload; simpl.
  repeat f_equal; lra.
Qed.

(** C1, as the claim states it, fails: the payload point is not (1, 0). *)
Lemma section_point_internal_1_3_not_1_0 :
  ~ (exists r,
       section_point origin four_zero (1, 3) false = ret r /\
       status r = "ok" /\
       payload_point_xy r = Some (1, 0)).
Proof.
  intros (r & Hr & _ & Hxy).
  unfold section_point, origin, four_zero in Hr; simpl in Hr.
  rewrite !py_div_ok in Hr by lra. simpl in Hr.
  injection Hr as <-.
  unfold payload_point_xy, _point_payload in Hxy; simpl in Hxy.
  injection Hxy as Hx _. lra.
Qed.

(** C6 fails on the code: with [external=True] and a ratio [(m, m)] the
    division by [m - n] raises [ZeroDivisionError]; no result with status
    "error" is returned. *)
Theorem section_point_external_equal_ratio_raises (a b : Point.t) (m : R) :
  section_point a b (m, m) true = raise ZeroDivisionError.
Proof.
  unfold section_point.
  rewrite py_div_zero by lra. reflexivity.
Qed.

(** ** lines.py *)

Lemma from_points_same (p1 p2 : Point.t) (label : option string) :
  Point.as_tuple p1 = Point.as_tuple p2 ->
  Line.from_points p1 p2 label =
  raise (ValueError "Cannot define a line with two identical points").
Proof.
  unfold Line.from_points, Point.as_tuple; intros H.
  injection H as Hx Hy.
  now rewrite (Req_b_true _ _ Hx), (Req_b_true _ _ Hy).
Qed.

Lemma from_points_distinct (p1 p2 : Point.t) (label : option string) :
  Point.as_tuple p1 <> Point.as_tuple p2 ->
  Line.from_points p1 p2 label =
  ret (Line.mk (Point.y p1 - Point.y p2)
               (Point.x p2 - Point.x p1)
               (Point.x p1 * Point.y p2 - Point.x p2 * Point.y p1)
               label).
Proof.
  unfold Line.from_points, Point.as_tuple; intros H.
  destruct (Req_b (Point.x p1) (Point.x p2)) eqn:Ex;
    destruct (Req_b (Point.y p1) (Point.y p2)) eqn:Ey; simpl; try reflexivity.
  apply Req_b_spec in Ex, Ey. exfalso; apply H; congruence.
Qed.

Lemma origin_two_two_distinct : Point.as_tuple origin <> Point.as_tuple two_two.
Proof. unfold Point.as_tuple, origin, two_two; simpl. intros H; injection H as H _; lra. Qed.

(** C8: [Line.from_points(p1, p2)] raises the degenerate-input error
    (Python's [ValueError], "Cannot define a line with two identical
    points") when the two points have the same coordinates, and otherwise
    returns the coefficients [(y1 - y2, x2 - x1, x1*y2 - x2*y1)]
    unchanged. *)
Theorem from_points_contract (p1 p2 : Point.t) (label : option string) :
  (Point.as_tuple p1 = Point.as_tuple p2 ->
   Line.from_points p1 p2 label =
   raise (ValueError "Cannot define a line with two identical points")) /\
  (Point.as_tuple p1 <> Point.as_tuple p2 ->
   Line.from_points p1 p2 label =
   ret (Line.mk (Point.y p1 - Point.y p2)
                (Point.x p2 - Point.x p1)
                (Point.x p1 * Point.y p2 - Point.x p2 * Point.y p1)
                label)).
Proof.
  split; [apply from_points_same | apply from_points_distinct].
Qed.

Lemma from_points_contract_witness :
  Line.from_points origin origin None =
    raise (ValueError "Cannot define a line with two identical points") /\
  Line.from_points origin two_two None =
    ret (Line.mk (0 - 2) (2 - 0) (0 * 2 - 2 * 0) None).
Proof.
  split.
  - apply (proj1 (from_points_contract origin origin None)). reflexivity.
  - apply (proj2 (from_points_contract origin two_two None)).
    exact origin_two_two_distinct.
Defined.

Lemma EPS_lt_1 : EPS < 1.
Proof.
  unfold EPS. apply Rmult_lt_reg_r with (10 ^ 9); [apply pow_lt; lra |].
  unfold Rdiv. rewrite Rmult_assoc, Rinv_l by (apply pow_nonzero; lra). lra.
Qed.

Lemma not_near_zero (c : R) : 1 <= c \/ c <= -1 -> Rle_b (Rabs c) EPS = false.
Proof.
  intros H. apply Rle_b_false. pose proof EPS_lt_1.
  unfold Rabs; destruct (Rcase_abs c); lra.
Qed.

Lemma near_zero_0 : Rle_b (Rabs 0) EPS = true.
Proof. apply Rle_b_true. rewrite Rabs_R0. pose proof EPS_pos; lra. Qed.

Lemma has_slope_nonzero (l : Line.t) : has_slope l -> Line.B l <> 0.
Proof.
  unfold has_slope; intros H E. rewrite E, Rabs_R0 in H.
  pose proof EPS_pos; lra.
Qed.

Lemma has_slope_test (l : Line.t) : has_slope l -> Rle_b (Rabs (Line.B l)) EPS = false.
Proof. intros H; now apply Rle_b_false. Qed.

Lemma slope_of (l : Line.t) :
  has_slope l -> Line.slope l = Some (- Line.A l / Line.B l).
Proof. intros H; unfold Line.slope; now rewrite has_slope_test. Qed.

Lemma as_sympy_of (l : Line.t) :
  has_slope l ->
  Line.as_sympy l =
  ret (Sympy.mkLine2D (0, - Line.C l / Line.B l)
                      (0 + 1, - Line.C l / Line.B l + - Line.A l / Line.B l)).
Proof.
  intros H. unfold Line.as_sympy, Sympy.Line_of_equation.
  rewrite has_slope_test by assumption.
  rewrite Req_b_false by now apply has_slope_nonzero.
  reflexivity.
Qed.

Lemma sample_points_of (l : Line.t) :
  valid_line l -> exists ends, Line.sample_points l = ret ends.
Proof.
  intros Hv. unfold Line.sample_points, Line.sample_points_with.
  destruct (Rle_b (Rabs (Line.B l)) EPS) eqn:E.
  - apply Rle_b_spec in E.
    assert (HA : Line.A l <> 0).
    { destruct Hv as [HA | HB]; [| lra].
      intros Z; rewrite Z, Rabs_R0 in HA. pose proof EPS_pos; lra. }
    rewrite py_div_ok by assumption. simpl. eauto.
  - assert (HB : Line.B l <> 0).
    { intros Z. rewrite Z, Rabs_R0 in E.
      rewrite Rle_b_true in E by (pose proof EPS_pos; lra). discriminate. }
    rewrite !py_div_ok by assumption. simpl. eauto.
Qed.

(** What C2 says does hold for parallel, distinct lines that are not
    vertical: SymPy finds no point and the warning is returned. *)
Lemma intersection_parallel_distinct (l1 l2 : Line.t) :
  has_slope l1 -> has_slope l2 ->
  Line.A l1 * Line.B l2 = Line.A l2 * Line.B l1 ->
  Line.C l1 * Line.B l2 <> Line.C l2 * Line.B l1 ->
  intersection l1 l2 = ret parallel_lines_warning.
Proof.
  intros H1 H2 Hpar Hdist.
  pose proof (has_slope_nonzero l1 H1) as B1.
  pose proof (has_slope_nonzero l2 H2) as B2.
  unfold intersection. rewrite !as_sympy_of by assumption. simpl.
  unfold Sympy.intersection, Sympy.collinear, Sympy.direction, Sympy.vsub,
    Sympy.cross; simpl.
  rewrite (Req_b_false (_ * _ - _ * _) 0).
  2:{ intros E. apply Hdist.
      apply Rmult_eq_reg_r with (/ (Line.B l1 * Line.B l2));
        [| apply Rinv_neq_0_compat, Rmult_integral_contrapositive_currified;
           assumption].
      apply Rminus_diag_uniq. rewrite <- E. field. split; assumption. }
  simpl.
  rewrite Req_b_true; [reflexivity |].
  apply Rmult_eq_reg_r with (Line.B l1 * Line.B l2);
    [| apply Rmult_integral_contrapositive_currified; assumption].
  transitivity (Line.A l1 * Line.B l2 - Line.A l2 * Line.B l1);
    [field; split; assumption | rewrite Hpar; ring].
Qed.

(** Two lines with different slopes meet: [intersection] returns. *)
Lemma intersection_returns (l1 l2 : Line.t) :
  has_slope l1 -> has_slope l2 ->
  - Line.A l1 / Line.B l1 <> - Line.A l2 / Line.B l2 ->
  exists r, intersection l1 l2 = ret r.
Proof.
  intros H1 H2 Hne.
  assert (V1 : valid_line l1) by (right; exact H1).
  assert (V2 : valid_line l2) by (right; exact H2).
  destruct (sample_points_of l1 V1) as [e1 E1].
  destruct (sample_points_of l2 V2) as [e2 E2].
  unfold intersection. rewrite !as_sympy_of by assumption. simpl.
  unfold Sympy.intersection, Sympy.collinear, Sympy.direction, Sympy.vsub,
    Sympy.cross; simpl.
  set (s1 := - Line.A l1 / Line.B l1) in *.
  set (s2 := - Line.A l2 / Line.B l2) in *.
  set (k1 := - Line.C l1 / Line.B l1).
  set (k2 := - Line.C l2 / Line.B l2).
  assert (Hnc : (Req_b ((0 + 1 - 0) * (k2 - k1) - (k1 + s1 - k1) * (0 - 0)) 0
                 && Req_b ((0 + 1 - 0) * (k2 + s2 - k1) - (k1 + s1 - k1) * (0 + 1 - 0)) 0
                 = false)%bool).
  { destruct (Req_b ((0 + 1 - 0) * (k2 - k1) - (k1 + s1 - k1) * (0 - 0)) 0) eqn:Ea;
      [| reflexivity].
    apply Req_b_spec in Ea. simpl. apply Req_b_false. intros Eb. apply Hne. lra. }
  rewrite Hnc.
  rewrite Req_b_false by (intros E; apply Hne; lra).
  rewrite E1, E2. simpl. eauto.
Qed.

Lemma atan2_0_1 : atan2 0 1 = 0.
Proof.
  unfold atan2. rewrite Rlt_b_true by lra.
  replace (0 / 1) with 0 by field. exact atan_0.
Qed.

Lemma atan2_x_1 (t : R) : atan2 t 1 = atan t.
Proof.
  unfold atan2. rewrite Rlt_b_true by lra. f_equal. field.
Qed.

(** What C5 says does hold as long as the lines are not perpendicular
    with both slopes defined: the result is "ok" and the angle is 0 for
    two vertical lines, 90 for one, and [atan |(m2 - m1)/(1 + m1*m2)|] in
    degrees otherwise. *)
Lemma angle_between_lines_value (l1 l2 : Line.t) :
  valid_line l1 -> valid_line l2 ->
  (forall m1 m2, Line.slope l1 = Some m1 -> Line.slope l2 = Some m2 ->
                 1 + m1 * m2 <> 0) ->
  exists r,
    angle_between_lines l1 l2 = ret r /\
    status r = "ok" /\
    payload r = [("angle_degrees", VNum (expected_angle l1 l2))].
Proof.
  intros V1 V2 Hperp.
  destruct (sample_points_of l1 V1) as [e1 E1].
  destruct (sample_points_of l2 V2) as [e2 E2].
  unfold angle_between_lines, expected_angle.
  destruct (Line.slope l1) as [m1 |] eqn:S1; destruct (Line.slope l2) as [m2 |] eqn:S2.
  - rewrite py_div_ok by (apply Hperp; reflexivity). simpl.
    rewrite E1, E2. simpl. rewrite atan2_x_1.
    assert (H1 : has_slope l1).
    { unfold Line.slope in S1. unfold has_slope.
      destruct (Rle_b (Rabs (Line.B l1)) EPS) eqn:E; [discriminate |].
      destruct (Rle_dec (Rabs (Line.B l1)) EPS) as [L | L]; [| lra].
      rewrite Rle_b_true in E by assumption. discriminate. }
    assert (H2 : has_slope l2).
    { unfold Line.slope in S2. unfold has_slope.
      destruct (Rle_b (Rabs (Line.B l2)) EPS) eqn:E; [discriminate |].
      destruct (Rle_dec (Rabs (Line.B l2)) EPS) as [L | L]; [| lra].
      rewrite Rle_b_true in E by assumption. discriminate. }
    rewrite (slope_of l1 H1) in S1. rewrite (slope_of l2 H2) in S2.
    injection S1 as S1. injection S2 as S2.
    set (angle := degrees (atan (Rabs ((m2 - m1) / (1 + m1 * m2))))).
    destruct (Req_b angle 0) eqn:Z.
    + simpl. eexists; repeat split.
    + destruct (Req_b angle 90) eqn:N; simpl.
      * eexists; repeat split.
      * destruct (intersection_returns l1 l2 H1 H2) as [r Hr].
        { rewrite S1, S2. intros E.
          assert (angle = 0); [| rewrite Req_b_true in Z by assumption; discriminate].
          unfold angle. rewrite E.
          replace ((m2 - m2) / (1 + m2 * m2)) with 0 by (unfold Rdiv; ring).
          rewrite Rabs_R0, atan_0. unfold degrees, Rdiv. ring. }
        rewrite Hr. simpl. eexists; repeat split.
  - simpl. rewrite E1, E2. simpl.
    rewrite (Req_b_false 90 0) by lra. rewrite Req_b_true by reflexivity. simpl.
    eexists; repeat split.
  - simpl. rewrite E1, E2. simpl.
    rewrite (Req_b_false 90 0) by lra. rewrite Req_b_true by reflexivity. simpl.
    eexists; repeat split.
  - simpl. rewrite E1, E2. simpl.
    rewrite Req_b_true by reflexivity. simpl.
    eexists; repeat split.
Qed.

(** Coincident lines with a slope: SymPy answers with the line itself
    and [intersection] raises. *)
Lemma intersection_coincident (l1 l2 : Line.t) :
  has_slope l1 -> has_slope l2 ->
  Line.A l1 * Line.B l2 = Line.A l2 * Line.B l1 ->
  Line.C l1 * Line.B l2 = Line.C l2 * Line.B l1 ->
  intersection l1 l2 = raise (AttributeError "'Line2D' object has no attribute 'x'").
Proof.
  intros H1 H2 Hpar Hsame.
  pose proof (has_slope_nonzero l1 H1) as B1.
  pose proof (has_slope_nonzero l2 H2) as B2.
  assert (Hc : - Line.C l2 / Line.B l2 = - Line.C l1 / Line.B l1).
  { apply Rmult_eq_reg_r with (Line.B l1 * Line.B l2);
      [| apply Rmult_integral_contrapositive_currified; assumption].
    transitivity (- (Line.C l2 * Line.B l1)); [field; assumption |].
    rewrite <- Hsame. field; assumption. }
  assert (Ha : - Line.A l2 / Line.B l2 = - Line.A l1 / Line.B l1).
  { apply Rmult_eq_reg_r with (Line.B l1 * Line.B l2);
      [| apply Rmult_integral_contrapositive_currified; assumption].
    transitivity (- (Line.A l2 * Line.B l1)); [field; assumption |].
    rewrite <- Hpar. field; assumption. }
  unfold intersection. rewrite !as_sympy_of by assumption. simpl.
  unfold Sympy.intersection, Sympy.collinear, Sympy.direction, Sympy.vsub,
    Sympy.cross; simpl.
  rewrite Hc, Ha.
  rewrite !Req_b_true by ring. reflexivity.
Qed.

(** A valid vertical first line: [as_sympy] raises. *)
Lemma intersection_vertical (l1 l2 : Line.t) :
  valid_line l1 -> ~ has_slope l1 ->
  intersection l1 l2 =
  raise (ValueError "A 2nd Point or keyword 'slope' must be used.").
Proof.
  intros V1 N1. unfold has_slope in N1.
  assert (HA : Line.A l1 <> 0).
  { destruct V1 as [HA | HB]; [| contradiction].
    intros Z; rewrite Z, Rabs_R0 in HA. pose proof EPS_pos; lra. }
  unfold intersection, Line.as_sympy.
  rewrite Rle_b_true by lra.
  rewrite py_div_ok by assumption. reflexivity.
Qed.


(** C5 fails on the code: for the perpendicular lines [x - y = 0] and
    [x + y = 0] the slopes are 1 and -1, the divisor [1 + m1*m2] is zero
    and [angle_between_lines] raises [ZeroDivisionError]; no angle is
    returned. *)
Theorem angle_between_perpendicular_lines_raises :
  (line1 <- Line.from_general 1 (-1) 0 None ;;
   line2 <- Line.from_general 1 1 0 None ;;
   angle_between_lines line1 line2) = raise ZeroDivisionError.
Proof.
  unfold Line.from_general.
  rewrite !not_near_zero by lra. simpl.
  unfold angle_between_lines, Line.slope; simpl.
  rewrite !not_near_zero by lra.
  rewrite py_div_zero by field. reflexivity.
Qed.

(** C2 fails on the code.  For the coincident lines [x - y = 0] and
    [2x - 2y = 0] SymPy's intersection is the line itself and reading its
    [x] raises [AttributeError]; for the parallel vertical lines [x = 0]
    and [x = 1] the conversion [as_sympy] raises [ValueError].  Neither
    returns the "parallel_lines" warning. *)
Theorem intersection_raises_on_coincident_and_vertical :
  (line1 <- Line.from_general 1 (-1) 0 None ;;
   line2 <- Line.from_general 2 (-2) 0 None ;;
   intersection line1 line2)
  = raise (AttributeError "'Line2D' object has no attribute 'x'") /\
  (line1 <- Line.from_general 1 0 0 None ;;
   line2 <- Line.from_general 1 0 (-1) None ;;
   intersection line1 line2)
  = raise (ValueError "A 2nd Point or keyword 'slope' must be used.").
Proof.
  unfold Line.from_general. split.
  - rewrite !not_near_zero by lra. simpl.
    unfold intersection, Line.as_sympy; simpl.
    rewrite !not_near_zero by lra.
    unfold Sympy.Line_of_equation.
    rewrite !Req_b_false by lra. simpl.
    unfold Sympy.intersection, Sympy.collinear, Sympy.direction, Sympy.vsub,
      Sympy.cross; simpl.
    rewrite !Req_b_true by field. reflexivity.
  - rewrite !not_near_zero by lra. simpl.
    unfold intersection, Line.as_sympy; simpl.
    rewrite near_zero_0.
    rewrite py_div_ok by lra. reflexivity.
Qed.

(** ** The result contract *)

Lemma ret_inj {A : Type} (a b : A) : ret a = ret b -> a = b.
Proof. intros H; injection H; auto. Qed.

(** One step of looking into a computation that returned: an exception
    is excluded, a test or an answer of the solver is split.  Nothing is
    unfolded but [bind], so the sampled curves stay folded. *)
Ltac returned_step H :=
  cbv beta iota zeta delta [bind raise ret] in H;
  match type of H with
  | inl _ = inr _ => discriminate H
  | (if ?b then _ else _) = inr _ => destruct b
  | match ?x with _ => _ end = inr _ => destruct x
  end.

(** At the end the operation returned a record with a literal status:
    it is not "error", or the payload is the message. *)
Ltac by_status H Herr :=
  apply ret_inj in H; rewrite <- H in Herr |- *;
  cbv beta iota delta [status] in Herr;
  try discriminate Herr;
  try (match type of Herr with (if ?b then _ else _) = _ => destruct b end;
       discriminate Herr);
  cbv beta iota delta [payload]; eexists; reflexivity.

(** C7: for every operation of the engine and every solver, a returned
    result with status "error" has a payload with the single key
    "message", which holds a text. *)
Theorem error_payload_is_message `{solver : Solver} (format : R -> string -> string)
    (o : operation) (r : ComputationResult) :
  run format o = ret r ->
  status r = "error" ->
  exists msg, payload r = [("message", VStr msg)].
Proof.
  intros Hrun Herr.
  destruct o; cbv beta iota delta [run] in Hrun.
  all: try (unfold distance, midpoint, section_point, parametric_point,
            line_from_points, intersection, angle_between_lines,
            distance_from_point, foot_of_perpendicular, angle_bisectors,
            Circle_summary, line_circle_intersection, circle_circle_intersection,
            tangents_from_external_point, radical_axis,
            parabola_y2_4ax, parabola_x2_4ay, ellipse_standard, hyperbola_standard,
            classify_general_quadratic, line_conic_intersection, summary,
            matrix_addition, matrix_multiplication, matrix_determinant,
            matrix_inverse, eigen_analysis, matrix_transform,
            apply_translation, apply_rotation, apply_scaling, apply_reflection,
            apply_affine, perpendicular_bisector, apollonius_circle,
            locus_midpoints, plot_basic_trig, transform_trig, verify_identity,
            solve_trig_equation, FunctionAnalyzer_plot, derivative_at,
            definite_integral, critical_points, taylor_polynomial in Hrun).
  all: repeat returned_step Hrun; by_status Hrun Herr.
Qed.

Lemma error_payload_is_message_witness :
  exists msg, payload shape_mismatch_error = [("message", VStr msg)].
Proof.
  apply (error_payload_is_message (solver := no_solver) no_format
           (op_matrix_addition [[1]] [[1; 2]]) shape_mismatch_error);
    reflexivity.
Defined.

(** ** matrices.py *)




(** ** conics.py *)

Lemma ellipse_standard_payload (a b : R) :
  0 < a -> 0 < b ->
  let c := sqrt (Rabs (sq a - sq b)) in
  exists r,
    ellipse_standard a b = ret r /\
    status r = "ok" /\
    payload r =
      [("semi_major", VNum (Rmax a b));
       ("semi_minor", VNum (Rmin a b));
       ("foci", VList [VPair (c, 0); VPair (- c, 0)]);
       ("eccentricity", VNum (c / Rmax a b));
       ("parametric", VDict [("x", VStr "a cos t"); ("y", VStr "b sin t")])].
Proof.
  intros Ha Hb c. unfold ellipse_standard.
  rewrite !Rle_b_false by assumption. cbn [orb].
  eexists; split; [reflexivity | split; reflexivity].
Qed.

Lemma c_2_3 : sqrt (Rabs (sq 2 - sq 3)) = sqrt 5.
Proof. f_equal. unfold sq. rewrite Rabs_left by lra. ring. Qed.

Lemma c_3_2 : sqrt (Rabs (sq 3 - sq 2)) = sqrt 5.
Proof. f_equal. unfold sq. rewrite Rabs_pos_eq by lra. ring. Qed.

(** The example of C4 holds: [ellipse_standard(3, 2)] has eccentricity
    [sqrt 5 / 3] and the foci [(sqrt 5, 0)] and [(-sqrt 5, 0)]. *)
Lemma ellipse_3_2 :
  exists r,
    ellipse_standard 3 2 = ret r /\
    get (payload r) "eccentricity" = Some (VNum (sqrt 5 / 3)) /\
    get (payload r) "foci" = Some (VList [VPair (sqrt 5, 0); VPair (- sqrt 5, 0)]).
Proof.
  destruct (ellipse_standard_payload 3 2) as (r & Hr & _ & Hp); [lra | lra |].
  exists r. split; [exact Hr |]. rewrite Hp, c_3_2, Rmax_left by lra.
  split; reflexivity.
Qed.

(** C4 fails on the code: [ellipse_standard(2, 3)] reports the
    semi-major axis 3, which lies on the y-axis, and still puts the foci
    on the x-axis, at (sqrt 5, 0) and (-sqrt 5, 0). *)
Theorem ellipse_foci_stay_on_x_axis :
  exists r,
    ellipse_standard 2 3 = ret r /\
    status r = "ok" /\
    get (payload r) "semi_major" = Some (VNum 3) /\
    get (payload r) "foci" = Some (VList [VPair (sqrt 5, 0); VPair (- sqrt 5, 0)]).
Proof.
  destruct (ellipse_standard_payload 2 3) as (r & Hr & Hst & Hp); [lra | lra |].
  exists r. split; [exact Hr | split; [exact Hst |]].
  rewrite Hp, c_2_3, Rmax_right by lra.
  split; reflexivity.
Qed.

(** ** The tests of the repository

    The model gives what [tests/test_points.py] and [tests/test_lines.py]
    assert. *)

Lemma test_distance_between_points :
  exists r,
    distance (Point.mk 1 2 (Some "A")) (Point.mk 4 6 (Some "B")) = ret r /\
    payload_num r "distance" = Some 5.
Proof.
  unfold distance; simpl. eexists; split; [reflexivity |].
  unfold payload_num; simpl.
  replace (sq (4 - 1) + sq (6 - 2)) with (5 * 5) by (unfold sq; ring).
  now rewrite sqrt_square by lra.
Qed.

Lemma test_midpoint :
  exists r,
    midpoint (Point.mk 0 0 (Some "A")) (Point.mk 4 0 (Some "B")) = ret r /\
    payload_num_in r "midpoint" "x" = Some 2 /\
    payload_num_in r "midpoint" "y" = Some 0.
Proof.
  unfold midpoint; simpl. eexists; split; [reflexivity |].
  unfold payload_num_in, _point_payload; simpl.
  split; f_equal; field.
Qed.

Lemma test_section_point_internal :
  exists r,
    section_point origin four_zero (1, 3) false = ret r /\
    payload_num_in r "point" "x" = Some 3 /\
    payload_num_in r "point" "y" = Some 0.
Proof.
  unfold section_point, origin, four_zero; simpl.
  rewrite !py_div_ok by lra. simpl.
  eexists; split; [reflexivity |].
  unfold payload_num_in, _point_payload; simpl.
  split; f_equal; field.
Qed.

Lemma test_line_from_points_general_form :
  exists r,
    line_from_points (Point.mk 0 0 (Some "A")) (Point.mk 2 2 (Some "B")) = ret r /\
    payload_num_in r "line" "slope" = Some 1.
Proof.
  unfold line_from_points.
  rewrite from_points_distinct
    by (unfold Point.as_tuple; simpl; intros H; injection H as H _; lra).
  simpl.
  unfold Line.sample_points, Line.sample_points_with; simpl.
  replace (2 - 0) with 2 by ring.
  rewrite (not_near_zero 2) by lra.
  rewrite !py_div_ok by lra. simpl.
  eexists; split; [reflexivity |].
  unfold payload_num_in, Line.display, Line.slope; simpl.
  replace (2 - 0) with 2 by ring.
  rewrite (not_near_zero 2) by lra. simpl.
  f_equal; field.
Qed.

Lemma test_intersection_of_lines :
  exists r,
    (line1 <- Line.from_general 1 (-1) 0 None ;;
     line2 <- Line.from_general 0 1 (-2) None ;;
     intersection line1 line2) = ret r /\
    get (payload r) "point" = Some (VPair (2, 2)).
Proof.
  unfold Line.from_general.
  rewrite !not_near_zero by lra. rewrite near_zero_0. simpl.
  unfold intersection. rewrite !as_sympy_of by (unfold has_slope; simpl;
    apply Rlt_b_spec; unfold Rlt_b; pose proof EPS_lt_1;
    destruct (Rlt_dec EPS _) as [L | L]; [reflexivity |];
    exfalso; apply L; unfold Rabs; destruct (Rcase_abs _); lra).
  simpl.
  unfold Sympy.intersection, Sympy.collinear, Sympy.direction, Sympy.vsub,
    Sympy.cross; simpl.
  rewrite (Req_b_false (_ * _ - _ * _) 0) by lra.
  simpl.
  rewrite (Req_b_false (_ * _ - _ * _) 0) by lra.
  unfold Line.sample_points, Line.sample_points_with; simpl.
  rewrite !not_near_zero by lra.
  rewrite !py_div_ok by lra. simpl.
  eexists; split; [reflexivity |]. simpl.
  unfold VPair; simpl. repeat f_equal; field.
Qed.

Lemma test_angle_between_perpendicular_lines :
  exists r,
    (line1 <- Line.from_general 1 0 0 None ;;
     line2 <- Line.from_general 0 1 0 None ;;
     angle_between_lines line1 line2) = ret r /\
    payload_num r "angle_degrees" = Some 90.
Proof.
  unfold Line.from_general.
  rewrite !not_near_zero by lra. rewrite near_zero_0. simpl.
  destruct (angle_between_lines_value (Line.mk 1 0 0 None) (Line.mk 0 1 0 None))
    as (r & Hr & _ & Hp).
  - left; simpl. rewrite Rabs_R1. exact EPS_lt_1.
  - right; simpl. rewrite Rabs_R1. exact EPS_lt_1.
  - intros m1 m2 S1 _. unfold Line.slope in S1; simpl in S1.
    rewrite near_zero_0 in S1. discriminate.
  - exists r. split; [exact Hr |].
    unfold payload_num. rewrite Hp. simpl.
    unfold expected_angle, Line.slope; simpl.
    rewrite near_zero_0, (not_near_zero 1) by lra. reflexivity.
Qed.

(** * Properties of the engine in double precision *)

(** ** Doubles: what is finite, [x - x] and [(x + x) / 2] *)

Lemma is_finite_SF (x : float) :
  is_finite x = true ->
  (exists s, Prim2SF x = S754_zero s) \/ (exists s m e, Prim2SF x = S754_finite s m e).
Proof.
  unfold is_finite, is_nan, is_infinity.
  rewrite !FloatAxioms.eqb_spec, abs_spec.
  destruct (Prim2SF x) as [s | s | | s m e]; intros H.
  - left; eauto.
  - exfalso. change (Prim2SF infinity) with (S754_infinity false) in H.
    destruct s; discriminate H.
  - discriminate H.
  - right; eauto.
Qed.

Lemma sub_self (x : float) : is_finite x = true -> (x - x)%float = 0%float.
Proof.
  intros H. apply Prim2SF_inj. rewrite sub_spec.
  destruct (is_finite_SF x H) as [[s E] | (s & m & e & E)]; rewrite E.
  - destruct s; reflexivity.
  - unfold SF64sub, SFsub. cbv zeta. rewrite Z.sub_diag. reflexivity.
Qed.

Lemma fexp_eq (z : Z) : fexp prec emax z = Z.max (z - 53) (-1074).
Proof. reflexivity. Qed.

Lemma bounded_inv (m : positive) (e : Z) :
  SpecFloat.bounded prec emax m e = true ->
  let d := Zpos (digits2_pos m) in
  ((d = 53 /\ -1074 <= e) \/ (d < 53 /\ e = -1074))%Z /\ (e <= 971)%Z.
Proof.
  unfold SpecFloat.bounded, canonical_mantissa. rewrite fexp_eq. intros H.
  apply andb_prop in H as [H1 H2].
  apply Z.eqb_eq in H1. apply Z.leb_le in H2.
  change (emax - prec)%Z with 971%Z in H2.
  cbv zeta. lia.
Qed.

Lemma binary_round_aux_exact (s : bool) (m : positive) (e : Z) :
  (fexp prec emax (Zpos (digits2_pos m) + e) = e)%Z ->
  binary_round_aux prec emax s (Zpos m) e loc_Exact
  = if (e <=? 971)%Z then S754_finite s m e else S754_infinity s.
Proof.
  intros H. unfold binary_round_aux, shr_fexp.
  cbn [Zdigits2 shr_record_of_loc]. rewrite H, Z.sub_diag.
  cbn [shr]. cbn [shr_m loc_of_shr_record round_nearest_even Zdigits2].
  rewrite H, Z.sub_diag. cbn [shr shr_m shr_record_of_loc]. reflexivity.
Qed.

Lemma binary_round_aux_even (s : bool) (m : positive) (e : Z) :
  (fexp prec emax (Zpos (digits2_pos m) + 1 + e) = e + 1)%Z ->
  binary_round_aux prec emax s (Zpos m~0) e loc_Exact
  = if (e + 1 <=? 971)%Z then S754_finite s m (e + 1) else S754_infinity s.
Proof.
  intros H. unfold binary_round_aux, shr_fexp.
  cbn [Zdigits2 shr_record_of_loc digits2_pos]. rewrite Pos2Z.inj_succ.
  replace (Z.succ (Zpos (digits2_pos m)) + e)%Z with (Zpos (digits2_pos m) + 1 + e)%Z by lia.
  rewrite H. replace (e + 1 - e)%Z with 1%Z by lia.
  cbn [shr SpecFloat.iter_pos shr_1 orb shr_m loc_of_shr_record round_nearest_even Zdigits2].
  replace (Zpos (digits2_pos m) + (e + 1))%Z with (Zpos (digits2_pos m) + 1 + e)%Z by lia.
  rewrite H, Z.sub_diag. cbn [shr shr_m shr_record_of_loc]. reflexivity.
Qed.

Lemma div_eucl_exact (a b q : Z) :
  (0 < b)%Z -> (a = q * b)%Z -> Z.div_eucl a b = (q, 0%Z).
Proof.
  intros Hb Ha.
  assert (Hq : (a / b = q)%Z) by (subst a; apply Z.div_mul; lia).
  assert (Hr : (a mod b = 0)%Z) by (subst a; apply Z.mod_mul; lia).
  unfold Z.div, Z.modulo in Hq, Hr.
  destruct (Z.div_eucl a b) as [q' r']. cbn in Hq, Hr. now subst.
Qed.

Lemma Prim2SF_two : Prim2SF 2 = Double.SFtwo.
Proof. reflexivity. Qed.

Lemma SFadd_self (s : bool) (m : positive) (e : Z) :
  SpecFloat.bounded prec emax m e = true ->
  SF64add (S754_finite s m e) (S754_finite s m e)
  = if (Zpos (digits2_pos m) =? 53)%Z
    then (if (e + 1 <=? 971)%Z then S754_finite s m (e + 1) else S754_infinity s)
    else S754_finite s m~0 e.
Proof.
  intros Hb. destruct (bounded_inv m e Hb) as [Hd He]. cbv zeta in Hd.
  unfold SF64add, SFadd. cbv zeta. rewrite Z.min_id.
  unfold shl_align at 1 2. rewrite Z.sub_diag. cbn [fst].
  assert (Hsum : (cond_Zopp s (Zpos m) + cond_Zopp s (Zpos m))%Z = cond_Zopp s (Zpos m~0)).
  { destruct s; cbn [cond_Zopp Z.opp Z.add]; rewrite Pos.add_diag; reflexivity. }
  rewrite Hsum.
  assert (Hn : binary_normalize prec emax (cond_Zopp s (Zpos m~0)) e false
               = binary_round prec emax s m~0 e) by (destruct s; reflexivity).
  rewrite Hn. unfold binary_round. cbn [digits2_pos]. rewrite Pos2Z.inj_succ.
  destruct Hd as [[Hd Hlo] | [Hd Hlo]].
  - rewrite Hd. cbn [Z.eqb Pos.eqb].
    assert (F : fexp prec emax (Z.succ 53 + e) = (e + 1)%Z) by (rewrite fexp_eq; lia).
    rewrite F. unfold shl_align. replace (e + 1 - e)%Z with 1%Z by lia.
    apply binary_round_aux_even. rewrite Hd, fexp_eq. lia.
  - assert (Hne : (Zpos (digits2_pos m) =? 53)%Z = false) by (apply Z.eqb_neq; lia).
    rewrite Hne.
    assert (F : fexp prec emax (Z.succ (Zpos (digits2_pos m)) + e) = e) by (rewrite fexp_eq; lia).
    rewrite F. unfold shl_align. rewrite Z.sub_diag.
    rewrite binary_round_aux_exact.
    + replace (e <=? 971)%Z with true by (symmetry; apply Z.leb_le; lia). reflexivity.
    + cbn [digits2_pos]. rewrite Pos2Z.inj_succ. exact F.
Qed.

Lemma SFdiv_two_normal (s : bool) (m : positive) (e : Z) :
  Zpos (digits2_pos m) = 53%Z -> (-1074 <= e)%Z -> (e + 1 <= 971)%Z ->
  SF64div (S754_finite s m (e + 1)) Double.SFtwo = S754_finite s m e.
Proof.
  intros Hd Hlo Hhi. unfold SF64div, SFdiv, Double.SFtwo, SFdiv_core_binary.
  cbn [Zdigits2]. rewrite Hd.
  change (Zpos (digits2_pos 4503599627370496)) with 53%Z.
  rewrite fexp_eq.
  destruct (Z.eq_dec e (-1074)) as [He | Hne].
  - replace (Z.min (Z.max (53 + (e + 1) - (53 + -51) - 53) (-1074)) (e + 1 - -51))%Z
      with e by lia.
    replace (e + 1 - -51 - e)%Z with 52%Z by lia.
    cbv zeta.
    rewrite (div_eucl_exact _ _ (Zpos m)) by
      (try lia; rewrite Z.shiftl_mul_pow2 by lia; reflexivity).
    cbv beta iota. change (new_location 4503599627370496 0) with loc_Exact.
    rewrite xorb_false_r. rewrite binary_round_aux_exact.
    + replace (e <=? 971)%Z with true by (symmetry; apply Z.leb_le; lia). reflexivity.
    + rewrite Hd, fexp_eq. lia.
  - replace (Z.min (Z.max (53 + (e + 1) - (53 + -51) - 53) (-1074)) (e + 1 - -51))%Z
      with (e - 1)%Z by lia.
    replace (e + 1 - -51 - (e - 1))%Z with 53%Z by lia.
    cbv zeta.
    rewrite (div_eucl_exact _ _ (Zpos m~0)) by
      (try lia; rewrite Z.shiftl_mul_pow2 by lia; rewrite Pos2Z.inj_xO; lia).
    cbv beta iota. change (new_location 4503599627370496 0) with loc_Exact.
    rewrite xorb_false_r. rewrite binary_round_aux_even.
    + replace (e - 1 + 1)%Z with e by lia.
      replace (e <=? 971)%Z with true by (symmetry; apply Z.leb_le; lia). reflexivity.
    + rewrite Hd, fexp_eq. lia.
Qed.

Lemma SFdiv_two_subnormal (s : bool) (m : positive) (e : Z) :
  (Zpos (digits2_pos m) < 53)%Z -> e = (-1074)%Z ->
  SF64div (S754_finite s m~0 e) Double.SFtwo = S754_finite s m e.
Proof.
  intros Hd He. unfold SF64div, SFdiv, Double.SFtwo, SFdiv_core_binary.
  change (Zdigits2 (Zpos 4503599627370496)) with 53%Z.
  change (Zdigits2 (Zpos m~0)) with (Zpos (Pos.succ (digits2_pos m))).
  rewrite Pos2Z.inj_succ, fexp_eq.
  replace (Z.min (Z.max (Z.succ (Zpos (digits2_pos m)) + e - (53 + -51) - 53) (-1074))
                 (e - -51))%Z with e by lia.
  replace (e - -51 - e)%Z with 51%Z by lia.
  cbv zeta.
  assert (K : Z.shiftl (Zpos m~0) 51 = (Zpos m * 4503599627370496)%Z).
  { rewrite Z.shiftl_mul_pow2 by lia.
     change (2 ^ 51)%Z with 2251799813685248%Z. rewrite (Pos2Z.inj_xO m). lia. }
  rewrite (div_eucl_exact _ _ (Zpos m)) by (try lia; exact K).
  cbv beta iota. change (new_location 4503599627370496 0) with loc_Exact.
  rewrite xorb_false_r. rewrite binary_round_aux_exact.
  - replace (e <=? 971)%Z with true by (symmetry; apply Z.leb_le; lia). reflexivity.
  - rewrite fexp_eq. lia.
Qed.

Lemma add_self_half (x : float) :
  is_finite x = true -> is_finite (x + x) = true -> ((x + x) / 2)%float = x.
Proof.
  intros Hx Hxx. apply Prim2SF_inj.
  rewrite div_spec, Prim2SF_two.
  destruct (is_finite_SF _ Hxx) as [[s' E'] | (s' & m' & e' & E')];
    rewrite add_spec in E'; rewrite add_spec;
    destruct (is_finite_SF x Hx) as [[s E] | (s & m & e & E)];
    rewrite E in E' |- *.
  - destruct s; reflexivity.
  - pose proof (Prim2SF_valid x) as V. rewrite E in V. cbn [SpecFloat.valid_binary] in V.
    rewrite (SFadd_self s m e V) in E'.
    destruct (Zpos (digits2_pos m) =? 53)%Z; [destruct (e + 1 <=? 971)%Z |]; discriminate E'.
  - destruct s; discriminate E'.
  - pose proof (Prim2SF_valid x) as V. rewrite E in V. cbn [SpecFloat.valid_binary] in V.
    destruct (bounded_inv m e V) as [Hd He]. cbv zeta in Hd.
    rewrite (SFadd_self s m e V) in E' |- *.
    destruct (Zpos (digits2_pos m) =? 53)%Z eqn:D.
    + apply Z.eqb_eq in D.
      destruct (e + 1 <=? 971)%Z eqn:L; [| discriminate E'].
      apply Z.leb_le in L. apply SFdiv_two_normal; lia.
    + apply Z.eqb_neq in D. apply SFdiv_two_subnormal; lia.
Qed.

Lemma is_finite_Prim2SF (x : float) :
  is_finite x = match Prim2SF x with
                | S754_zero _ | S754_finite _ _ _ => true
                | _ => false
                end.
Proof.
  unfold is_finite, is_nan, is_infinity.
  rewrite !FloatAxioms.eqb_spec, abs_spec.
  change (Prim2SF infinity) with (S754_infinity false).
  destruct (Prim2SF x) as [s | s | | s m e]; try (destruct s; reflexivity);
    try reflexivity.
  unfold SFabs, SFeqb, SFcompare.
  rewrite Z.compare_refl, Pos.compare_cont_refl. destruct s; reflexivity.
Qed.

Lemma double_finite (x : float) :
  is_finite (x + x) = true -> is_finite x = true.
Proof.
  rewrite !is_finite_Prim2SF, add_spec.
  destruct (Prim2SF x) as [s | s | | s m e]; try reflexivity;
    [destruct s |]; intros H; discriminate H.
Qed.

Lemma eqb_true_value (x y : float) :
  (x =? y)%float = true -> (Double.value x == Double.value y)%Q.
Proof.
  rewrite FloatAxioms.eqb_spec. unfold Double.value, SFeqb, SFcompare.
  destruct (Prim2SF x) as [s | s | | s m e]; destruct (Prim2SF y) as [s' | s' | | s' m' e'];
    intros H; try reflexivity; try discriminate H;
    try (destruct s; discriminate H); try (destruct s'; discriminate H).
  destruct s, s'; try discriminate H;
    destruct (Z.compare e e') eqn:Ce; try discriminate H;
    apply Z.compare_eq in Ce; subst e';
    destruct (Pos.compare_cont Eq m m') eqn:Cm; try discriminate H;
    apply Pos.compare_eq in Cm; subst m'; reflexivity.
Qed.

(** ** points.py *)

(** C10, as amended: neither [distance] nor [midpoint] checks that its
    points differ.  For every point [p] with finite coordinates,
    [distance(p, p)] returns status "ok" with the distance [0.0]; and
    when the coordinates can be doubled without overflow,
    [midpoint(p, p)] returns status "ok" with the coordinates of [p]. *)
Theorem distance_midpoint_same_point_no_overflow
    (libm_pow : float -> float -> float) (p : Double.Point.t) :
  is_finite (Double.Point.x p) = true ->
  is_finite (Double.Point.y p) = true ->
  (exists r,
     Double.distance libm_pow p p = ret r /\
     Double.status r = "ok" /\
     Double.payload r = [("distance", Double.VNum 0)]) /\
  (is_finite (Double.Point.x p + Double.Point.x p) = true ->
   is_finite (Double.Point.y p + Double.Point.y p) = true ->
   exists r,
     Double.midpoint p p = ret r /\
     Double.status r = "ok" /\
     Double.payload_midpoint r = Some (Double.Point.as_tuple p)).
Proof.
  intros Fx Fy.
  split.
  - unfold Double.distance, Double.Point.as_tuple.
    rewrite (sub_self _ Fx), (sub_self _ Fy).
    eexists. split; [reflexivity |]. split; reflexivity.
  - intros Hx Hy. unfold Double.midpoint.
    rewrite (add_self_half _ Fx Hx), (add_self_half _ Fy Hy).
    eexists. split; [reflexivity |]. split; reflexivity.
Qed.

Lemma distance_midpoint_same_point_no_overflow_witness :
  (exists r,
     Double.distance Double.square_pow Double.p_01_m25 Double.p_01_m25 = ret r /\
     Double.status r = "ok" /\
     Double.payload r = [("distance", Double.VNum 0)]) /\
  (exists r,
     Double.midpoint Double.p_01_m25 Double.p_01_m25 = ret r /\
     Double.status r = "ok" /\
     Double.payload_midpoint r = Some (Double.Point.as_tuple Double.p_01_m25)).
Proof.
  destruct (distance_midpoint_same_point_no_overflow
              Double.square_pow Double.p_01_m25 eq_refl eq_refl) as [D M].
  split; [exact D | exact (M eq_refl eq_refl)].
Defined.

(** C10, as the claim states it, fails at [p = (1e308, -1e308)]: the
    coordinates of [p] are finite, but [x + x] overflows, and
    [midpoint(p, p)] returns [(inf, -inf)], which is not [p]. *)
Lemma midpoint_same_point_overflows :
  is_finite (Double.Point.x Double.huge) = true /\
  is_finite (Double.Point.y Double.huge) = true /\
  exists r,
    Double.midpoint Double.huge Double.huge = ret r /\
    Double.payload_midpoint r = Some (infinity, neg_infinity) /\
    Double.payload_midpoint r <> Some (Double.Point.as_tuple Double.huge).
Proof.
  split; [reflexivity |]. split; [reflexivity |].
  eexists. split; [reflexivity |]. split; [reflexivity |].
  intros H. apply (f_equal (fun o => match o with
                                     | Some (mx, _) => is_finite mx
                                     | None => true
                                     end)) in H.
  discriminate H.
Qed.

(** ** lines.py *)

(** C9, as amended: for two points that differ, when the differences
    and products of [Line.from_points] incur no rounding, the line it
    returns passes through both points, exactly, and its [A] and [B]
    are not both 0. *)
Theorem from_points_through_both_when_exact (p1 p2 : Double.Point.t)
    (label : option string) :
  ~ (Double.value (Double.Point.x p1) == Double.value (Double.Point.x p2) /\
     Double.value (Double.Point.y p1) == Double.value (Double.Point.y p2))%Q ->
  Double.exact_coefficients p1 p2 ->
  exists l,
    Double.Line.from_points p1 p2 label = ret l /\
    (Double.exact_residual l (Double.Point.as_tuple p1) == 0)%Q /\
    (Double.exact_residual l (Double.Point.as_tuple p2) == 0)%Q /\
    ~ (Double.value (Double.Line.A l) == 0 /\ Double.value (Double.Line.B l) == 0)%Q.
Proof.
  intros Hne (HA & HB & H12 & H21 & HC).
  destruct HA as [_ HA]. destruct HB as [_ HB]. destruct H12 as [_ H12].
  destruct H21 as [_ H21]. destruct HC as [_ HC].
  unfold Double.Line.from_points, Double.Point.as_tuple in *.
  destruct ((Double.Point.x p1 =? Double.Point.x p2)%float
            && (Double.Point.y p1 =? Double.Point.y p2)%float) eqn:G.
  - exfalso. apply andb_prop in G as [Gx Gy]. apply Hne.
    split; apply eqb_true_value; assumption.
  - eexists. split; [reflexivity |].
    unfold Double.exact_residual.
    cbn [Double.Line.A Double.Line.B Double.Line.C fst snd].
    rewrite HA, HB, HC, H12, H21.
    split; [ring |]. split; [ring |].
    intros [ZA ZB]. apply Hne. split.
    + rewrite <- (Qplus_0_l (Double.value (Double.Point.x p1))), <- ZB. ring.
    + rewrite <- (Qplus_0_l (Double.value (Double.Point.y p2))), <- ZA. ring.
Qed.

Lemma from_points_through_both_when_exact_witness :
  exists l,
    Double.Line.from_points Double.p_1_2 Double.p_3_5 None = ret l /\
    (Double.exact_residual l (Double.Point.as_tuple Double.p_1_2) == 0)%Q /\
    (Double.exact_residual l (Double.Point.as_tuple Double.p_3_5) == 0)%Q /\
    ~ (Double.value (Double.Line.A l) == 0 /\ Double.value (Double.Line.B l) == 0)%Q.
Proof.
  apply from_points_through_both_when_exact.
  - intros [H _]. vm_compute in H. discriminate H.
  - unfold Double.exact_coefficients, Double.exactly. cbn [Double.Point.as_tuple].
    repeat split; vm_compute; reflexivity.
Defined.

(** C9, as the claim states it, fails at [(0.1, 0.2)] and [(0.3, 0.7)]:
    the points differ, and the second is not on the line that
    [Line.from_points] returns; its residual is [2^-56] when evaluated
    in doubles, and it is not 0 either on the numbers that the
    coefficients and coordinates stand for. *)
Lemma from_points_misses_second_point :
  exists l,
    Double.Line.from_points Double.p_01_02 Double.p_03_07 None = ret l /\
    Double.residual l (Double.Point.as_tuple Double.p_03_07) = 0x1p-56%float /\
    ~ (Double.exact_residual l (Double.Point.as_tuple Double.p_03_07) == 0)%Q.
Proof.
  eexists. split; [reflexivity |]. split; [reflexivity |].
  intros H. vm_compute in H. discriminate H.
Qed.

(** ** The distance in either order *)

Lemma binary_round_aux_abs (s : bool) (m e : Z) (l : location) :
  SFabs (binary_round_aux prec emax s m e l)
  = SFabs (binary_round_aux prec emax false m e l).
Proof.
  unfold binary_round_aux.
  destruct (shr_fexp prec emax m e l) as [mrs e'].
  destruct (shr_fexp prec emax _ e' loc_Exact) as [mrs' e''].
  destruct (shr_m mrs'); [reflexivity | | reflexivity].
  destruct (e'' <=? emax - prec)%Z; reflexivity.
Qed.

Lemma binary_normalize_abs_opp (m e : Z) :
  SFabs (binary_normalize prec emax (- m) e false)
  = SFabs (binary_normalize prec emax m e false).
Proof.
  destruct m as [| p | p]; [reflexivity | |];
    cbn [Z.opp binary_normalize]; unfold binary_round;
    destruct (shl_align p e _) as [mz ez];
    [| symmetry]; apply binary_round_aux_abs.
Qed.

Lemma SFsub_abs_sym (x y : spec_float) :
  SFabs (SF64sub x y) = SFabs (SF64sub y x).
Proof.
  destruct x as [sx | sx | | sx mx ex]; destruct y as [sy | sy | | sy my ey];
    try reflexivity; try (destruct sx, sy; reflexivity).
  unfold SF64sub, SFsub. cbv zeta. rewrite (Z.min_comm ey ex).
  rewrite <- binary_normalize_abs_opp. f_equal. f_equal. ring.
Qed.

Lemma abs_sub_sym (x y : float) : abs (x - y) = abs (y - x).
Proof.
  apply Prim2SF_inj. rewrite !abs_spec, !sub_spec. apply SFsub_abs_sym.
Qed.

Lemma SFeqb_refl_finite (s : bool) (m : positive) (e : Z) :
  SFeqb (S754_finite s m e) (S754_finite s m e) = true.
Proof.
  unfold SFeqb, SFcompare. rewrite Z.compare_refl, Pos.compare_cont_refl.
  destruct s; reflexivity.
Qed.

Lemma float_pow2_abs (libm_pow : float -> float -> float) (x : float) :
  Double.float_pow2 libm_pow x = Double.float_pow2 libm_pow (abs x).
Proof.
  assert (Hn : is_nan (abs x) = is_nan x).
  { unfold is_nan. rewrite !FloatAxioms.eqb_spec, abs_spec.
    destruct (Prim2SF x) as [s | s | | s m e]; try reflexivity;
      try (destruct s; reflexivity).
    cbn [SFabs]. now rewrite !SFeqb_refl_finite. }
  assert (Ha : abs (abs x) = abs x).
  { apply Prim2SF_inj. rewrite !abs_spec.
    destruct (Prim2SF x); reflexivity. }
  assert (Hz : (abs x =? 0)%float = (x =? 0)%float).
  { rewrite !FloatAxioms.eqb_spec, abs_spec.
    destruct (Prim2SF x) as [s | s | | s m e]; try reflexivity;
      destruct s; reflexivity. }
  unfold Double.float_pow2, is_infinity. rewrite Hn, Ha, Hz.
  destruct (is_nan x) eqn:N; [| reflexivity].
  f_equal. apply Prim2SF_inj. rewrite abs_spec.
  unfold is_nan in N. rewrite FloatAxioms.eqb_spec in N.
  destruct (Prim2SF x) as [s | s | | s m e]; try reflexivity;
    try (destruct s; discriminate N).
  rewrite SFeqb_refl_finite in N. discriminate N.
Qed.

(** X1: in double precision [distance] does not depend on the order of
    its points: either both orders raise [OverflowError], or both
    return status "ok" with the same distance. *)
Theorem distance_symmetric_in_doubles (libm_pow : float -> float -> float)
    (a b : Double.Point.t) :
  (Double.distance libm_pow a b = raise OverflowError /\
   Double.distance libm_pow b a = raise OverflowError) \/
  (exists r r' d,
     Double.distance libm_pow a b = ret r /\
     Double.distance libm_pow b a = ret r' /\
     Double.status r = "ok" /\ Double.status r' = "ok" /\
     Double.payload r = [("distance", Double.VNum d)] /\
     Double.payload r' = [("distance", Double.VNum d)]).
Proof.
  unfold Double.distance, Double.Point.as_tuple.
  rewrite (float_pow2_abs libm_pow (Double.Point.x b - Double.Point.x a)).
  rewrite (float_pow2_abs libm_pow (Double.Point.y b - Double.Point.y a)).
  rewrite (float_pow2_abs libm_pow (Double.Point.x a - Double.Point.x b)).
  rewrite (float_pow2_abs libm_pow (Double.Point.y a - Double.Point.y b)).
  rewrite (abs_sub_sym (Double.Point.x b) (Double.Point.x a)).
  rewrite (abs_sub_sym (Double.Point.y b) (Double.Point.y a)).
  assert (Hp : forall z, Double.float_pow2 libm_pow z = raise OverflowError
                         \/ exists v, Double.float_pow2 libm_pow z = ret v).
  { intros z. unfold Double.float_pow2.
    repeat match goal with
           | |- context [if ?c then _ else _] => destruct c
           end; eauto. }
  destruct (Hp (abs (Double.Point.x a - Double.Point.x b))) as [Ex | [vx Ex]];
    rewrite Ex; [left; split; reflexivity |].
  destruct (Hp (abs (Double.Point.y a - Double.Point.y b))) as [Ey | [vy Ey]];
    rewrite Ey; [left; split; reflexivity |].
  right. eexists. eexists. eexists.
  split; [reflexivity |]. split; [reflexivity |].
  repeat split.
Qed.

(** * Further properties of the engine *)

(** ** points.py *)

Lemma section_point_internal_value (a b : Point.t) (m n : R) :
  m + n <> 0 ->
  exists r,
    section_point a b (m, n) false = ret r /\
    status r = "ok" /\
    payload_xy r "point"
      = Some ((m * Point.x a + n * Point.x b) / (m + n),
              (m * Point.y a + n * Point.y b) / (m + n)).
Proof.
  intros H. unfold section_point. rewrite !py_div_ok by assumption. simpl.
  eexists; split; [reflexivity | split; reflexivity].
Qed.

Lemma section_point_external_value (a b : Point.t) (m n : R) :
  m - n <> 0 ->
  exists r,
    section_point a b (m, n) true = ret r /\
    status r = "ok" /\
    payload_xy r "point"
      = Some ((m * Point.x a - n * Point.x b) / (m - n),
              (m * Point.y a - n * Point.y b) / (m - n)).
Proof.
  intros H. unfold section_point. rewrite !py_div_ok by assumption. simpl.
  eexists; split; [reflexivity | split; reflexivity].
Qed.

(** X2: [section_point] raises [ZeroDivisionError] exactly when its
    divisor vanishes, [m + n] for the internal and [m - n] for the
    external division; in every other case it returns status "ok". *)
Theorem section_point_raises_iff (a b : Point.t) (m n : R) (external : bool) :
  let divisor := if external then m - n else m + n in
  (divisor = 0 <-> section_point a b (m, n) external = raise ZeroDivisionError) /\
  (divisor <> 0 <->
   exists r, section_point a b (m, n) external = ret r /\ status r = "ok").
Proof.
  assert (Hz : (if external then m - n else m + n) = 0 ->
               section_point a b (m, n) external = raise ZeroDivisionError).
  { intros H. unfold section_point. destruct external;
      rewrite py_div_zero by assumption; reflexivity. }
  assert (Hn : (if external then m - n else m + n) <> 0 ->
               exists r, section_point a b (m, n) external = ret r /\ status r = "ok").
  { intros H. destruct external.
    - destruct (section_point_external_value a b m n H) as (r & Hr & Hs & _); eauto.
    - destruct (section_point_internal_value a b m n H) as (r & Hr & Hs & _); eauto. }
  cbv zeta. split; split; try assumption.
  - intros Hr. destruct (Req_dec_T (if external then m - n else m + n) 0) as [E | E];
      [exact E |].
    destruct (Hn E) as (r & Hr' & _). rewrite Hr in Hr'. discriminate.
  - intros (r & Hr & _) E. rewrite (Hz E) in Hr. discriminate.
Qed.

(** ** lines.py *)

(** X10: [distance_from_point] raises the [ValueError] of
    [Line.normalized] on a line whose normal is no longer than [EPS],
    although the distance itself needs no normalization. *)
Theorem distance_from_point_degenerate_line (l : Line.t) (point : Point.t) :
  hypot (Line.A l) (Line.B l) <= EPS ->
  distance_from_point l point
  = raise (ValueError "Degenerate line coefficients: both A and B near zero").
Proof.
  intros H. unfold distance_from_point, foot_of_perpendicular, Line.normalized.
  cbv zeta. rewrite Rle_b_true by assumption. reflexivity.
Qed.

Lemma distance_from_point_degenerate_line_witness :
  distance_from_point (Line.mk 0 0 1 None) origin
  = raise (ValueError "Degenerate line coefficients: both A and B near zero").
Proof.
  apply distance_from_point_degenerate_line. simpl.
  unfold hypot. replace (0 * 0 + 0 * 0) with 0 by ring. rewrite sqrt_0.
  left. exact EPS_pos.
Defined.

(** X11: for two different points on one horizontal whose abscissas
    differ by at most [EPS], [line_from_points] raises
    [ZeroDivisionError]: the line counts as vertical and its sampling
    divides by [A = 0]. *)
Theorem line_from_points_near_points_raises (p1 p2 : Point.t) :
  Point.y p1 = Point.y p2 ->
  Point.x p1 <> Point.x p2 ->
  Rabs (Point.x p2 - Point.x p1) <= EPS ->
  line_from_points p1 p2 = raise ZeroDivisionError.
Proof.
  intros Hy Hx Hclose. unfold line_from_points.
  rewrite from_points_distinct
    by (unfold Point.as_tuple; intros E; injection E as E _; contradiction).
  cbv beta iota zeta delta [bind ret].
  unfold Line.sample_points, Line.sample_points_with. simpl.
  rewrite Rle_b_true by assumption.
  rewrite py_div_zero by lra. reflexivity.
Qed.

Lemma line_from_points_near_points_raises_witness :
  line_from_points origin (Point.mk EPS 0 None) = raise ZeroDivisionError.
Proof.
  pose proof EPS_pos as Hpos.
  apply line_from_points_near_points_raises; simpl.
  - reflexivity.
  - lra.
  - rewrite Rabs_pos_eq by lra. lra.
Defined.



(** ** matrices.py *)

Lemma ensure_matrix_inv (matrix : list (list R)) (mat : matrix2) :
  _ensure_matrix matrix = ret mat ->
  matrix <> [] /\
  rows mat = matrix /\
  nrows mat = List.length matrix /\
  Forall (fun row => List.length row = ncols mat) matrix.
Proof.
  unfold _ensure_matrix, np_array. destruct matrix as [| first rest]; [discriminate |].
  destruct (forallb _ rest) eqn:E; [| discriminate].
  cbv beta iota zeta delta [bind ret]. intros H. apply ret_inj in H. subst mat.
  cbn [rows nrows ncols]. repeat split; [discriminate |].
  constructor; [reflexivity |].
  rewrite forallb_forall in E. apply Forall_forall. intros row Hin.
  apply Nat.eqb_eq. now apply E.
Qed.

Lemma ensure_matrix_of (matrix : list (list R)) (n : nat) :
  matrix <> [] ->
  Forall (fun row => List.length row = n) matrix ->
  _ensure_matrix matrix = ret (mkMatrix (List.length matrix) n matrix).
Proof.
  intros Hne Hall. unfold _ensure_matrix, np_array.
  destruct matrix as [| first rest]; [contradiction |].
  inversion Hall as [| ? ? Hf Hr]; subst.
  assert (E : forallb (fun r => Nat.eqb (List.length r) (List.length first)) rest = true).
  { apply forallb_forall. intros r Hin. apply Nat.eqb_eq.
    rewrite Forall_forall in Hr. now apply Hr. }
  rewrite E. reflexivity.
Qed.

Lemma zip_with_comm {A B : Type} (f : A -> A -> B) (xs ys : list A) :
  (forall x y, f x y = f y x) -> zip_with f xs ys = zip_with f ys xs.
Proof.
  intros Hf. revert ys. induction xs as [| x xs IH]; intros [| y ys]; simpl;
    try reflexivity.
  now rewrite Hf, IH.
Qed.

Lemma shape_eqb_sym (s1 s2 : nat * nat) : shape_eqb s1 s2 = shape_eqb s2 s1.
Proof. unfold shape_eqb. now rewrite (Nat.eqb_sym (fst s1)), (Nat.eqb_sym (snd s1)). Qed.

(** X16: on two well-formed matrices [matrix_addition] gives the same
    result in either order of its arguments: the same sum, or the same
    error when the shapes differ. *)
Theorem matrix_addition_commutative (a b : list (list R)) (mat_a mat_b : matrix2) :
  _ensure_matrix a = ret mat_a ->
  _ensure_matrix b = ret mat_b ->
  matrix_addition a b = matrix_addition b a.
Proof.
  intros Ha Hb. unfold matrix_addition. rewrite Ha, Hb.
  cbv beta iota zeta delta [bind ret].
  rewrite (shape_eqb_sym (shape mat_b)).
  destruct (shape_eqb (shape mat_a) (shape mat_b)) eqn:E; [| reflexivity].
  cbn [negb]. unfold shape_eqb, shape in E; cbn [fst snd] in E.
  apply andb_prop in E as [En Ec]. apply Nat.eqb_eq in En, Ec.
  unfold mat_add, tolist; cbn [rows].
  rewrite (zip_with_comm (zip_with Rplus) (rows mat_a) (rows mat_b)); [reflexivity |].
  intros x y. apply zip_with_comm. intros; ring.
Qed.

Lemma matrix_addition_commutative_witness :
  matrix_addition [[1; 2]] [[3; 4]] = matrix_addition [[3; 4]] [[1; 2]].
Proof.
  apply (matrix_addition_commutative [[1; 2]] [[3; 4]]
           (mkMatrix 1 2 [[1; 2]]) (mkMatrix 1 2 [[3; 4]])); reflexivity.
Defined.

Lemma transform_rows_3x3_raises (mat points : matrix2) :
  ncols mat = 3%nat -> ncols points = 2%nat ->
  transform_rows mat points
  = raise (ValueError "matmul: Input operand 1 has a mismatch in its core dimension 0").
Proof.
  intros Hc Hp. unfold transform_rows, matmul, transpose.
  cbn [nrows ncols]. rewrite Hc, Hp. reflexivity.
Qed.

(** X18: [matrix_transform] never returns for a 3x3 matrix: with a
    supported shape the product of the 3x3 matrix with the two-row array
    of sample points is refused, and the [ValueError] of the product (or
    of an unsupported shape) is raised. *)
Theorem matrix_transform_3x3_raises `{solver : Solver} (matrix : list (list R))
    (mat : matrix2) (shape_ : string) :
  _ensure_matrix matrix = ret mat ->
  nrows mat = 3%nat -> ncols mat = 3%nat ->
  exists msg, matrix_transform matrix shape_ = raise (ValueError msg).
Proof.
  intros H Hr Hc. unfold matrix_transform. rewrite H.
  cbv beta iota zeta delta [bind ret]. rewrite Hr, Hc. cbn [Nat.eqb negb orb].
  destruct (String.eqb shape_ "unit_circle"); [| destruct (String.eqb shape_ "grid")].
  - rewrite (transform_rows_3x3_raises mat (_unit_circle_samples 200) Hc eq_refl).
    eexists; reflexivity.
  - rewrite (transform_rows_3x3_raises mat _grid_samples Hc eq_refl).
    eexists; reflexivity.
  - eexists; reflexivity.
Qed.

Lemma matrix_transform_3x3_raises_witness :
  exists msg,
    matrix_transform (solver := no_solver) (identity 3) "unit_circle"
    = raise (ValueError msg).
Proof.
  apply (matrix_transform_3x3_raises (solver := no_solver)
           (identity 3) (mkMatrix 3 3 (identity 3)));
    reflexivity.
Defined.

(** X19: [matrix_transform] returns status "ok" only for a 2x2 matrix
    and one of the shapes "unit_circle" and "grid". *)
Theorem matrix_transform_ok_only_2x2 `{solver : Solver} (matrix : list (list R))
    (shape_ : string) (r : ComputationResult) :
  matrix_transform matrix shape_ = ret r ->
  status r = "ok" ->
  (exists mat, _ensure_matrix matrix = ret mat /\ shape mat = (2%nat, 2%nat)) /\
  (shape_ = "unit_circle" \/ shape_ = "grid").
Proof.
  intros H Hok. unfold matrix_transform in H.
  destruct (_ensure_matrix matrix) as [e | mat] eqn:Em; [discriminate |].
  cbv beta iota zeta delta [bind ret] in H.
  destruct (Nat.eqb (nrows mat) (ncols mat)) eqn:Esq; cbn [negb] in H;
    [| apply ret_inj in H; subst r; discriminate Hok].
  apply Nat.eqb_eq in Esq.
  destruct (Nat.eqb (nrows mat) 2) eqn:E2.
  - apply Nat.eqb_eq in E2. split.
    + exists mat. split; [reflexivity |]. unfold shape. now rewrite <- Esq, E2.
    + cbn [orb negb] in H.
      destruct (String.eqb_spec shape_ "unit_circle") as [-> | N1]; [now left |].
      destruct (String.eqb_spec shape_ "grid") as [-> | N2]; [now right |].
      discriminate.
  - destruct (Nat.eqb (nrows mat) 3) eqn:E3; cbn [orb negb] in H.
    + apply Nat.eqb_eq in E3.
      assert (Hc : ncols mat = 3%nat) by now rewrite <- Esq.
      destruct (String.eqb shape_ "unit_circle");
        [| destruct (String.eqb shape_ "grid")].
      * rewrite (transform_rows_3x3_raises mat (_unit_circle_samples 200) Hc eq_refl)
          in H. discriminate.
      * rewrite (transform_rows_3x3_raises mat _grid_samples Hc eq_refl) in H.
        discriminate.
      * discriminate.
    + apply ret_inj in H; subst r; discriminate Hok.
Qed.

Lemma matrix_transform_ok_only_2x2_witness :
  exists mat, _ensure_matrix (identity 2) = ret mat /\ shape mat = (2%nat, 2%nat).
Proof.
  assert (H : exists r, matrix_transform (solver := no_solver) (identity 2) "grid" = ret r
                        /\ status r = "ok").
  { unfold matrix_transform.
    replace (_ensure_matrix (identity 2)) with (ret (mkMatrix 2 2 (identity 2)))
      by reflexivity.
    cbv beta iota zeta delta [bind ret]. cbn [nrows ncols Nat.eqb negb orb].
    replace (String.eqb "grid" "unit_circle") with false by reflexivity.
    replace (String.eqb "grid" "grid") with true by reflexivity.
    unfold transform_rows, matmul, _grid_samples.
    cbn [nrows ncols transpose Nat.eqb]. cbv beta iota zeta delta [bind ret].
    eexists; split; reflexivity. }
  destruct H as (r & Hr & Hok).
  exact (proj1 (matrix_transform_ok_only_2x2 (solver := no_solver)
                  (identity 2) "grid" r Hr Hok)).
Defined.

Lemma map_nth_seq (row : list R) :
  map (fun j => nth j row 0) (seq 0 (List.length row)) = row.
Proof.
  induction row as [| x t IH]; [reflexivity |].
  cbn [List.length seq map nth]. f_equal.
  rewrite <- seq_shift, map_map. exact IH.
Qed.

Lemma dot_basis (j : nat) (row : list R) (s : nat) :
  rsum (zip_with Rmult row
          (map (fun i => if Nat.eqb j i then 1 else 0) (seq s (List.length row))))
  = if (Nat.leb s j && Nat.ltb j (s + List.length row))%bool
    then nth (j - s) row 0 else 0.
Proof.
  revert s. induction row as [| x t IH]; intros s.
  - cbn [List.length seq map zip_with rsum fold_right].
    destruct (Nat.leb s j && Nat.ltb j (s + 0))%bool; [destruct (j - s)%nat |];
      reflexivity.
  - cbn [List.length seq map zip_with rsum fold_right].
    fold (rsum (zip_with Rmult t
                  (map (fun i => if Nat.eqb j i then 1 else 0)
                       (seq (S s) (List.length t))))).
    rewrite IH.
    destruct (Nat.eqb_spec j s) as [-> | Hjs].
    + rewrite Nat.leb_refl, Nat.sub_diag.
      replace (Nat.ltb s (s + S (List.length t))) with true
        by (symmetry; apply Nat.ltb_lt; lia).
      replace (Nat.leb (S s) s) with false by (symmetry; apply Nat.leb_gt; lia).
      cbn. ring.
    + destruct (Nat.leb_spec s j) as [Hle | Hgt].
      * replace (Nat.leb (S s) j) with true by (symmetry; apply Nat.leb_le; lia).
        replace (Nat.ltb j (S s + List.length t))
          with (Nat.ltb j (s + S (List.length t))) by (f_equal; lia).
        cbn [andb].
        destruct (Nat.ltb j (s + S (List.length t))).
        -- replace (j - s)%nat with (S (j - S s)) by lia. cbn [nth]. ring.
        -- ring.
      * replace (Nat.leb (S s) j) with false by (symmetry; apply Nat.leb_gt; lia).
        cbn [andb]. ring.
Qed.

Lemma identity_rows (n : nat) :
  Forall (fun row => List.length row = n) (identity n) /\
  List.length (identity n) = n.
Proof.
  unfold identity. split.
  - apply Forall_forall. intros row Hin. apply in_map_iff in Hin as (i & <- & _).
    now rewrite length_map, length_seq.
  - now rewrite length_map, length_seq.
Qed.

Lemma nth_map_seq (f : nat -> R) (n j : nat) (d : R) :
  (j < n)%nat -> nth j (map f (seq 0 n)) d = f j.
Proof.
  intros H.
  rewrite (nth_indep _ d (f 0%nat)) by (rewrite length_map, length_seq; exact H).
  rewrite map_nth, seq_nth by exact H. reflexivity.
Qed.

Lemma transpose_identity (n : nat) :
  rows (transpose (mkMatrix n n (identity n))) = identity n.
Proof.
  unfold transpose, identity; cbn [rows ncols].
  apply map_ext_in. intros j Hj. apply in_seq in Hj.
  rewrite map_map. apply map_ext_in. intros i Hi. apply in_seq in Hi.
  rewrite nth_map_seq by lia.
  now rewrite Nat.eqb_sym.
Qed.

Lemma row_times_identity (row : list R) :
  map (fun col => rsum (zip_with Rmult row col)) (identity (List.length row)) = row.
Proof.
  unfold identity. rewrite map_map.
  transitivity (map (fun j => nth j row 0) (seq 0 (List.length row)));
    [| apply map_nth_seq].
  apply map_ext_in. intros j Hj. apply in_seq in Hj.
  rewrite (dot_basis j row 0).
  replace (Nat.leb 0 j) with true by reflexivity.
  replace (Nat.ltb j (0 + List.length row)) with true
    by (symmetry; apply Nat.ltb_lt; lia).
  cbn [andb]. now rewrite Nat.sub_0_r.
Qed.

(** X20: multiplying a well-formed matrix with [k >= 1] columns by the
    [k]x[k] identity matrix returns status "ok" and the matrix itself. *)
Theorem matrix_multiplication_identity (a : list (list R)) (mat_a : matrix2) :
  _ensure_matrix a = ret mat_a ->
  (0 < ncols mat_a)%nat ->
  exists r,
    matrix_multiplication a (identity (ncols mat_a)) = ret r /\
    status r = "ok" /\
    payload r = [("result", tolist mat_a)].
Proof.
  intros Ha Hk.
  destruct (ensure_matrix_inv a mat_a Ha) as (Hne & Hrows & Hn & Hall).
  destruct (identity_rows (ncols mat_a)) as [Hid Hlen].
  assert (Hi : _ensure_matrix (identity (ncols mat_a))
               = ret (mkMatrix (ncols mat_a) (ncols mat_a) (identity (ncols mat_a)))).
  { rewrite <- Hlen at 2. apply ensure_matrix_of; [| exact Hid].
    intros Z. rewrite Z in Hlen. cbn in Hlen. lia. }
  unfold matrix_multiplication. rewrite Ha, Hi.
  cbv beta iota zeta delta [bind ret]. cbn [nrows ncols].
  rewrite Nat.eqb_refl. cbn [negb].
  unfold matmul. cbn [nrows ncols]. rewrite Nat.eqb_refl.
  eexists; split; [reflexivity | split; [reflexivity |]].
  cbn [payload]. unfold tolist. cbn [rows]. rewrite transpose_identity.
  replace (map (fun row => map (fun col => rsum (zip_with Rmult row col))
                               (identity (ncols mat_a)))
               (rows mat_a))
    with (rows mat_a); [reflexivity |].
  symmetry. rewrite Hrows.
  transitivity (map (fun x : list R => x) a); [| apply map_id].
  apply map_ext_in. intros row Hin.
  rewrite Forall_forall in Hall. rewrite <- (Hall row Hin).
  apply row_times_identity.
Qed.

Lemma matrix_multiplication_identity_witness :
  exists r,
    matrix_multiplication [[1; 2]; [3; 4]] (identity 2) = ret r /\
    status r = "ok" /\
    payload r = [("result", tolist (mkMatrix 2 2 [[1; 2]; [3; 4]]))].
Proof.
  apply (matrix_multiplication_identity [[1; 2]; [3; 4]]
           (mkMatrix 2 2 [[1; 2]; [3; 4]]) eq_refl).
  cbn. lia.
Defined.

(** ** transforms.py *)

Lemma map_nth_seq_gen {A B : Type} (F : A -> B) (l : list A) (d : A) :
  map (fun j => F (nth j l d)) (seq 0 (List.length l)) = map F l.
Proof.
  induction l as [| x t IH]; [reflexivity |].
  cbn [List.length seq map nth]. f_equal.
  rewrite <- seq_shift, map_map. exact IH.
Qed.

Lemma nth_map_lt {A B : Type} (f : A -> B) (l : list A) (j : nat) (d : A) (d' : B) :
  (j < List.length l)%nat -> nth j (map f l) d' = f (nth j l d).
Proof.
  intros H. rewrite (nth_indep _ d' (f d)) by (rewrite length_map; exact H).
  apply map_nth.
Qed.

Lemma mapM_ret {A B : Type} (f : A -> result B) (g : A -> B) (xs : list A) :
  (forall x, f x = ret (g x)) -> mapM f xs = ret (map g xs).
Proof.
  intros H. induction xs as [| x t IH]; [reflexivity |].
  cbn [mapM map]. rewrite H, IH. reflexivity.
Qed.

Lemma transpose_twice_homogeneous (original : list (R * R)) :
  rows (transpose (transpose (mkMatrix (List.length original) 3
                                       (map homogeneous original))))
  = map homogeneous original.
Proof.
  set (n := List.length original).
  unfold transpose; cbn [rows ncols nrows seq map].
  rewrite !map_map. cbn [homogeneous nth].
  transitivity (map (fun j => homogeneous (nth j original (0, 0))) (seq 0 n)).
  - apply map_ext_in. intros j Hj. apply in_seq in Hj.
    unfold homogeneous.
    rewrite (nth_map_lt (fun x => fst x) original j (0, 0)) by (fold n; lia).
    rewrite (nth_map_lt (fun x => snd x) original j (0, 0)) by (fold n; lia).
    rewrite (nth_map_lt (fun _ => 1) original j (0, 0)) by (fold n; lia).
    reflexivity.
  - apply map_nth_seq_gen.
Qed.

Lemma transform_rows_homogeneous (r0 r1 r2 : list R) (original : list (R * R)) :
  transform_rows (mkMatrix 3 3 [r0; r1; r2])
                 (mkMatrix (List.length original) 3 (map homogeneous original))
  = ret (mkMatrix (List.length original) 3
           (map (fun xy => [dot r0 (homogeneous xy); dot r1 (homogeneous xy);
                            dot r2 (homogeneous xy)])
                original)).
Proof.
  pose proof (transpose_twice_homogeneous original) as TT.
  set (n := List.length original) in *.
  set (H := mkMatrix n 3 (map homogeneous original)) in *.
  unfold transform_rows, matmul.
  replace (Nat.eqb (ncols (mkMatrix 3 3 [r0; r1; r2])) (nrows (transpose H)))
    with true by reflexivity.
  cbv beta iota zeta delta [bind ret].
  rewrite TT. f_equal.
  unfold transpose at 1. cbn [ncols nrows rows map].
  replace (ncols (transpose H)) with n by reflexivity.
  f_equal.
  transitivity (map (fun j =>
                       (fun h => [dot r0 h; dot r1 h; dot r2 h])
                         (nth j (map homogeneous original) []))
                    (seq 0 (List.length (map homogeneous original)))).
  - rewrite length_map. fold n.
    apply map_ext_in. intros j Hj. apply in_seq in Hj.
    rewrite !(nth_map_lt _ (map homogeneous original) j [])
      by (rewrite length_map; fold n; lia).
    reflexivity.
  - rewrite (map_nth_seq_gen (fun h => [dot r0 h; dot r1 h; dot r2 h])
               (map homogeneous original) []).
    rewrite map_map. reflexivity.
Qed.

Lemma apply_affine_value (r0 r1 r2 : list R) (points : list Point.t) :
  List.length r0 = 3%nat -> List.length r1 = 3%nat -> List.length r2 = 3%nat ->
  points <> [] ->
  exists r,
    apply_affine [r0; r1; r2] points = ret r /\
    status r = "ok" /\
    payload r =
      [("transformed",
        VList (map VPair
                 (map (fun xy =>
                         (dot r0 (homogeneous xy) / dot r2 (homogeneous xy),
                          dot r1 (homogeneous xy) / dot r2 (homogeneous xy)))
                      (map Point.as_tuple points))))].
Proof.
  intros L0 L1 L2 Hne. unfold apply_affine, np_array.
  cbn [forallb]. rewrite L0, L1, L2. cbn [Nat.eqb andb List.length].
  cbv beta iota zeta delta [bind ret].
  unfold shape, shape_eqb. cbn [nrows ncols fst snd].
  cbn [Nat.eqb andb negb].
  destruct points as [| p0 rest]; [contradiction |].
  set (original := map Point.as_tuple (p0 :: rest)).
  change (match original with
          | [] => mkMatrix 0 2 []
          | _ :: _ => mkMatrix (List.length original) 3
                        (map (fun xy : R * R => [fst xy; snd xy; 1]) original)
          end)
    with (mkMatrix (List.length original) 3 (map homogeneous original)).
  rewrite transform_rows_homogeneous.
  cbv beta iota delta [ret]. cbn [rows].
  rewrite (mapM_ret _ (fun row => (nth 0 row 0 / nth 2 row 0, nth 1 row 0 / nth 2 row 0)))
    by reflexivity.
  eexists; split; [reflexivity | split; [reflexivity |]].
  cbn [payload]. rewrite (map_map _ (fun row => (nth 0 row 0 / nth 2 row 0, _))).
  reflexivity.
Qed.

(** X21: on a non-empty list of points, [apply_affine] with the
    homogeneous matrix of the translation by [(dx, dy)] returns the
    coordinates that [apply_translation] returns. *)
Theorem apply_affine_translation (points : list Point.t) (dx dy : R) :
  points <> [] ->
  exists r r' coords,
    apply_affine (translation_matrix dx dy) points = ret r /\
    apply_translation points dx dy = ret r' /\
    payload r = [("transformed", VList (map VPair coords))] /\
    payload r' = [("translated", VList (map VPair coords))].
Proof.
  intros Hne.
  destruct (apply_affine_value [1; 0; dx] [0; 1; dy] [0; 0; 1] points)
    as (r & Hr & _ & Hp); try reflexivity; try assumption.
  exists r. eexists. eexists. split; [exact Hr |].
  split; [reflexivity |]. split; [| reflexivity].
  rewrite Hp. do 4 f_equal.
  apply map_ext. intros [x y].
  unfold dot, homogeneous, rsum; cbn [zip_with fold_right fst snd].
  f_equal; field.
Qed.

Lemma apply_affine_translation_witness :
  exists r r' coords,
    apply_affine (translation_matrix 1 2) [origin] = ret r /\
    apply_translation [origin] 1 2 = ret r' /\
    payload r = [("transformed", VList (map VPair coords))] /\
    payload r' = [("translated", VList (map VPair coords))].
Proof.
  apply apply_affine_translation. discriminate.
Defined.

(** X22: [apply_affine] returns only for a matrix of three rows of
    three entries and a non-empty list of points: every other call,
    the empty list of points included, raises. *)
Theorem apply_affine_returns_only (matrix : list (list R)) (points : list Point.t)
    (r : ComputationResult) :
  apply_affine matrix points = ret r ->
  List.length matrix = 3%nat /\
  Forall (fun row => List.length row = 3%nat) matrix /\
  points <> [].
Proof.
  intros H. unfold apply_affine in H.
  destruct (np_array matrix) as [e | arr] eqn:En; [discriminate |].
  cbv beta iota zeta delta [bind ret] in H.
  destruct arr as [| mat]; [discriminate |].
  assert (Em : _ensure_matrix matrix = ret mat).
  { unfold _ensure_matrix. unfold ret in En. rewrite En. reflexivity. }
  destruct (ensure_matrix_inv matrix mat Em) as (_ & _ & Hn & Hall).
  destruct (shape_eqb (shape mat) (3%nat, 3%nat)) eqn:Es; cbn [negb] in H;
    [| discriminate].
  unfold shape_eqb, shape in Es; cbn [fst snd] in Es.
  apply andb_prop in Es as [E1 E2]. apply Nat.eqb_eq in E1, E2.
  rewrite E2 in Hall. rewrite E1 in Hn.
  repeat split; [now symmetry | exact Hall |].
  intros ->. cbn [map] in H.
  unfold transform_rows, matmul in H. cbn [nrows ncols transpose] in H.
  rewrite E2 in H. discriminate.
Qed.

Lemma apply_affine_returns_only_witness :
  List.length (translation_matrix 1 2) = 3%nat /\ [origin] <> [].
Proof.
  destruct (apply_affine_value [1; 0; 1] [0; 1; 2] [0; 0; 1] [origin])
    as (r & Hr & _ & _); try reflexivity; try discriminate.
  destruct (apply_affine_returns_only (translation_matrix 1 2) [origin] r Hr)
    as (H1 & _ & H2).
  split; assumption.
Defined.

(** ** circles.py *)

(** ** conics.py *)

(** ** triangles.py *)

(** X28: in the classification of a triangle, ["equilateral"] implies
    ["isosceles"], and ["scalene"] is the negation of ["isosceles"]. *)
Theorem classification_scalene_is_not_isosceles (t : TriangleMetrics.t) :
  exists e i s,
    get_bool (classification t) "equilateral" = Some e /\
    get_bool (classification t) "isosceles" = Some i /\
    get_bool (classification t) "scalene" = Some s /\
    implb e i = true /\ s = negb i.
Proof.
  unfold classification.
  destruct (side_lengths t) as [[ab bc] ca].
  cbv zeta. eexists. eexists. eexists.
  split; [reflexivity |]. split; [reflexivity |]. split; [reflexivity |].
  assert (K : implb (Rle_b (Rmax ab (Rmax bc ca) - Rmin ab (Rmin bc ca)) EPS)
                    (Rle_b (Rabs (ab - bc)) EPS || Rle_b (Rabs (bc - ca)) EPS
                     || Rle_b (Rabs (ca - ab)) EPS) = true).
  { destruct (Rle_b (Rmax ab (Rmax bc ca) - Rmin ab (Rmin bc ca)) EPS) eqn:E;
      [| reflexivity].
    apply Rle_b_spec in E. cbn [implb].
    rewrite (Rle_b_true (Rabs (ab - bc)) EPS); [reflexivity |].
    revert E. unfold Rmax, Rmin, Rabs.
    destruct (Rle_dec bc ca); destruct (Rle_dec ab ca); destruct (Rle_dec ab bc);
      destruct (Rcase_abs (ab - bc)); intros E; lra. }
  split; [exact K |].
  destruct (Rle_b (Rmax ab (Rmax bc ca) - Rmin ab (Rmin bc ca)) EPS);
    cbn [implb] in K; [rewrite K |]; reflexivity.
Qed.

(** ** locus.py *)


(** ** lines.py: the order of the two lines *)







(** ** conics.py: the directrix of a parabola *)

(** X25: for [a] other than 0, [parabola_y2_4ax] plots its directrix on
    [x = -a] but stores the line [1 x + 0 y - a = 0], which is
    [x = a], under "directrix" in the payload: the stored line passes
    through the focus [(a, 0)] and through neither end of the plotted
    one.  [parabola_x2_4ay] does the same with the coordinates
    exchanged. *)
Theorem parabola_payload_directrix_through_focus (a : R) :
  a <> 0 ->
  (exists r f d p q,
     parabola_y2_4ax a = ret r /\ status r = "ok" /\
     payload_pair r "focus" = Some f /\
     payload_line r "directrix" = Some d /\
     plotted_line r 2 = Some (p, q) /\
     f = (a, 0) /\ d = Line.mk 1 0 (- a) None /\
     p = (- a, -10) /\ q = (- a, 10) /\
     on_line d f /\ ~ on_line d p /\ ~ on_line d q) /\
  (exists r f d p q,
     parabola_x2_4ay a = ret r /\ status r = "ok" /\
     payload_pair r "focus" = Some f /\
     payload_line r "directrix" = Some d /\
     plotted_line r 2 = Some (p, q) /\
     f = (0, a) /\ d = Line.mk 0 1 (- a) None /\
     p = (-10, - a) /\ q = (10, - a) /\
     on_line d f /\ ~ on_line d p /\ ~ on_line d q).
Proof.
  intros Ha. unfold parabola_y2_4ax, parabola_x2_4ay, Line.from_general.
  rewrite Req_b_false by exact Ha.
  rewrite (not_near_zero 1) by lra. rewrite near_zero_0.
  cbn [andb]. cbv beta iota zeta delta [bind ret].
  split.
  - eexists. exists (a, 0), (Line.mk 1 0 (- a) None), (- a, -10), (- a, 10).
    split; [reflexivity |]. split; [reflexivity |]. split; [reflexivity |].
    split; [reflexivity |]. split; [reflexivity |].
    repeat (split; [reflexivity |]).
    unfold on_line. cbn [fst snd Line.A Line.B Line.C].
    repeat split; try (intros H); lra.
  - eexists. exists (0, a), (Line.mk 0 1 (- a) None), (-10, - a), (10, - a).
    split; [reflexivity |]. split; [reflexivity |]. split; [reflexivity |].
    split; [reflexivity |]. split; [reflexivity |].
    repeat (split; [reflexivity |]).
    unfold on_line. cbn [fst snd Line.A Line.B Line.C].
    repeat split; try (intros H); lra.
Qed.

Lemma parabola_payload_directrix_through_focus_witness :
  exists r f d p q,
    parabola_y2_4ax 1 = ret r /\ status r = "ok" /\
    payload_pair r "focus" = Some f /\
    payload_line r "directrix" = Some d /\
    plotted_line r 2 = Some (p, q) /\
    f = (1, 0) /\ d = Line.mk 1 0 (- 1) None /\
    p = (- 1, -10) /\ q = (- 1, 10) /\
    on_line d f /\ ~ on_line d p /\ ~ on_line d q.
Proof.
  refine (proj1 (parabola_payload_directrix_through_focus 1 _)). lra.
Defined.

(** ** locus.py: the line of [perpendicular_bisector] *)



